(** * Btools / VitruviAI backend: analysis pipeline, forecast and portfolio

  A shallow embedding of the parts of the Node backend that turn a vision
  model's JSON answer into project data, record it, and read it back:

  - [ai.service.ts]        : [buildProjectData] (the normalizer),
                             [getDefaultProjectData], [analyzeImage]
  - [mongodb.ts]           : the document types, the store operations on
                             users, projects and the analysis history, and
                             [connectMongoDB]
  - [auth.middleware.ts]   : [requireAuth], [requireAuthOptional],
                             [checkScanLimit], [requirePremium]
  - [portfolio.service.ts] : [getPortfolioSummary], [compareProjects],
                             [getTopRiskProjects]
  - [project.routes.ts]    : the handlers of the list, create, get, data,
                             delete, analyze, analyses, trends and forecast
                             routes
  - [server.ts]            : the [onRequest] hook that connects the store

  Numbers.  A JavaScript number is modelled as an exact rational or NaN
  ([number]); rounding error of IEEE doubles, infinities and the sign of
  zero are not modelled.  Every division of the modelled code has a
  divisor that is a non-zero literal or is guarded to be positive.

  Time.  [new Date()] is an argument of the function that calls it. *)

From Stdlib Require Import QArith Qround ZArith Lia Lqa.
From stdpp Require Import base strings list gmap pretty.

Local Open Scope Q_scope.
Local Set Warnings "-register-all".

(** ** JavaScript values and operators *)

Module JS.

Inductive number :=
| Fin (q : Q)
| NaN.

(** The values [JSON.parse] builds, with [undefined] for what a property
    read gives on a missing key.  An object is its list of entries; a key
    is read at its first entry. *)
Inductive value :=
| VUndefined
| VNull
| VBool (b : bool)
| VNum (n : number)
| VStr (s : string)
| VArr (elems : list value)
| VObj (fields : list (string * value)).

Definition num (q : Q) : value := VNum (Fin q).

(** ToNumber on a string (StringToNumber) and on an array or object
    (ToPrimitive, then ToNumber), and what [+] builds when an operand is a
    string, an array or an object ([Concat]), belong to the JavaScript
    runtime and stay abstract.  An object whose own [toString] entry
    hides the method makes ToPrimitive throw; such an input is outside
    the model. *)
Class Runtime := {
  StringToNumber : string -> number;
  ObjectToNumber : value -> number;
  Concat : value -> value -> value;
}.

Inductive error :=
| TypeError (msg : string).

Inductive result (A : Type) :=
| Ok (a : A)
| Throw (e : error).
Arguments Ok {A} a.
Arguments Throw {A} e.

Definition bind {A B} (r : result A) (k : A -> result B) : result B :=
  match r with
  | Ok a => k a
  | Throw e => Throw e
  end.

Fixpoint mapM {A B} (f : A -> result B) (l : list A) : result (list B) :=
  match l with
  | [] => Ok []
  | a :: l' => bind (f a) (fun b => bind (mapM f l') (fun bs => Ok (b :: bs)))
  end.

(** *** Numbers *)

Definition lift2 (f : Q -> Q -> Q) (a b : number) : number :=
  match a, b with
  | Fin x, Fin y => Fin (f x y)
  | _, _ => NaN
  end.

Definition num_add := lift2 Qplus.
Definition num_sub := lift2 Qminus.
Definition num_mul := lift2 Qmult.

(** [x / 0] is an infinity or NaN in JavaScript; the model has no
    infinities, and no modelled division has a zero divisor. *)
Definition num_div (a b : number) : number :=
  match a, b with
  | Fin x, Fin y => if Qeq_bool y 0 then NaN else Fin (x / y)
  | _, _ => NaN
  end.

Definition cmp2 (f : Q -> Q -> bool) (a b : number) : bool :=
  match a, b with
  | Fin x, Fin y => f x y
  | _, _ => false
  end.

Definition Qlt_bool (x y : Q) : bool := negb (Qle_bool y x).

Definition num_le := cmp2 Qle_bool.
Definition num_lt := cmp2 Qlt_bool.
Definition num_gt (a b : number) := num_lt b a.
Definition num_ge (a b : number) := num_le b a.

(** [Math.round]: the nearest integer, a half going up. *)
Definition round (q : Q) : Z := Qfloor (q + (1 # 2)).

Definition num_round (a : number) : number :=
  match a with
  | Fin x => Fin (inject_Z (round x))
  | NaN => NaN
  end.

(** Equality of numbers as JavaScript values ([NaN] stands for itself). *)
Definition num_eq (a b : number) : Prop :=
  match a, b with
  | Fin x, Fin y => x == y
  | NaN, NaN => True
  | _, _ => False
  end.

(** *** Values *)

Definition truthy (v : value) : bool :=
  match v with
  | VUndefined | VNull => false
  | VBool b => b
  | VNum (Fin q) => negb (Qeq_bool q 0)
  | VNum NaN => false
  | VStr s => negb (String.eqb s "")
  | VArr _ | VObj _ => true
  end.

Definition nullish (v : value) : bool :=
  match v with
  | VUndefined | VNull => true
  | _ => false
  end.

(** [typeof v === 'number'] *)
Definition typeof_number (v : value) : bool :=
  match v with
  | VNum _ => true
  | _ => false
  end.

Definition is_array (v : value) : bool :=
  match v with
  | VArr _ => true
  | _ => false
  end.

Fixpoint lookup_field (k : string) (fields : list (string * value)) : value :=
  match fields with
  | [] => VUndefined
  | (k', v) :: rest => if String.eqb k k' then v else lookup_field k rest
  end.

(** [v.k] for a receiver that is neither [null] nor [undefined] (a read
    on those throws, and the callers test [nullish] first).  The keys the
    modelled code reads on a string or an array are [length] and names no
    prototype defines. *)
Definition get (v : value) (k : string) : value :=
  match v with
  | VObj fields => lookup_field k fields
  | VArr elems =>
      if String.eqb k "length" then num (inject_Z (Z.of_nat (length elems)))
      else VUndefined
  | VStr s =>
      if String.eqb k "length" then num (inject_Z (Z.of_nat (String.length s)))
      else VUndefined
  | _ => VUndefined
  end.

(** [a || b] *)
Definition or_else (a b : value) : value := if truthy a then a else b.

(** [a?.k] *)
Definition get_opt (v : value) (k : string) : value :=
  if nullish v then VUndefined else get v k.

(** A [Date] as the modelled code reads it: the instant ([getTime]) and the
    two renderings [buildProjectData] stores. *)
Record Date := {
  getTime : Z;
  toISOString : string;
  getFullYear : string;
}.

(** [s || d] on a string. *)
Definition str_or (s d : string) : string := if String.eqb s "" then d else s.

(** [o?.f || d] for a string field [f] of a record that may be [null]. *)
Definition opt_str_or {A} (o : option A) (f : A -> string) (d : string) : string :=
  match o with
  | Some a => str_or (f a) d
  | None => d
  end.

(** [arr.map(f)]: a value that is no array has no method [map], and the
    call is a TypeError. *)
Definition array_map (f : value -> result value) (arr : value) : result value :=
  match arr with
  | VArr elems => bind (mapM f elems) (fun elems' => Ok (VArr elems'))
  | _ => Throw (TypeError "materials.map is not a function")
  end.

(** [z || d] on an integer counter. *)
Definition int_or (z d : Z) : Z := if (z =? 0)%Z then d else z.

(** [q || d] on a number. *)
Definition num_or (q d : Q) : Q := if Qeq_bool q 0 then d else q.

(** ToIntegerOrInfinity: NaN is 0, and the fraction of a number is dropped. *)
Definition ToInteger (a : number) : Z :=
  match a with
  | Fin q => Z.quot (Qnum q) (Zpos (Qden q))
  | NaN => 0%Z
  end.

(** [arr.slice(0, end)]: a negative [end] counts from the end of the array. *)
Definition slice_to {A} (end_ : number) (l : list A) : list A :=
  let relativeEnd := ToInteger end_ in
  if (relativeEnd <? 0)%Z
  then take (length l - Z.to_nat (- relativeEnd)) l
  else take (Z.to_nat relativeEnd) l.

(** [arr.sort(compareFn)]: the sort is stable, so for a consistent
    comparator the result is the one an insertion from the right gives. *)
Fixpoint sort_insert {A} (compareFn : A -> A -> Z) (a : A) (l : list A) : list A :=
  match l with
  | [] => [a]
  | b :: l' => if (compareFn a b <=? 0)%Z then a :: l else b :: sort_insert compareFn a l'
  end.

Fixpoint sort {A} (compareFn : A -> A -> Z) (l : list A) : list A :=
  match l with
  | [] => []
  | a :: l' => sort_insert compareFn a (sort compareFn l')
  end.

Section Operators.
Context `{Runtime}.

Definition ToNumber (v : value) : number :=
  match v with
  | VUndefined => NaN
  | VNull => Fin 0
  | VBool true => Fin 1
  | VBool false => Fin 0
  | VNum n => n
  | VStr s => StringToNumber s
  | VArr _ | VObj _ => ObjectToNumber v
  end.

(** [a * b], [a / b], [a - b]: both operands go through ToNumber. *)
Definition mul (a b : value) : value := VNum (num_mul (ToNumber a) (ToNumber b)).
Definition div (a b : value) : value := VNum (num_div (ToNumber a) (ToNumber b)).
Definition sub (a b : value) : value := VNum (num_sub (ToNumber a) (ToNumber b)).

(** [a + b]: a sum of numbers unless an operand is a string, an array or
    an object. *)
Definition adds_numbers (v : value) : bool :=
  match v with
  | VStr _ | VArr _ | VObj _ => false
  | _ => true
  end.

Definition add (a b : value) : value :=
  if adds_numbers a && adds_numbers b
  then VNum (num_add (ToNumber a) (ToNumber b))
  else Concat a b.

(** [Number(x.toFixed(digits))] for a number [x]: the nearest multiple of
    [10^-digits], a half going away from zero. *)
Definition num_toFixed (digits : nat) (a : number) : number :=
  match a with
  | Fin x =>
      let scale := inject_Z (10 ^ Z.of_nat digits) in
      if Qlt_bool x 0
      then Fin (- (inject_Z (round (- x * scale)) / scale))
      else Fin (inject_Z (round (x * scale)) / scale)
  | NaN => NaN
  end.

Definition toFixed (digits : nat) (a : value) : value :=
  VNum (num_toFixed digits (ToNumber a)).

(** Relational operators against a number: the other side goes through
    ToNumber. *)
Definition le (a b : value) : bool := num_le (ToNumber a) (ToNumber b).
Definition lt (a b : value) : bool := num_lt (ToNumber a) (ToNumber b).
Definition gt (a b : value) : bool := num_gt (ToNumber a) (ToNumber b).
Definition ge (a b : value) : bool := num_ge (ToNumber a) (ToNumber b).

Definition Math_round (a : value) : value := VNum (num_round (ToNumber a)).
End Operators.

End JS.

(** ** Documents (mongodb.ts, analysis-history.model.ts)

    A field the interface declares as [number] or [string] has that type
    here; a sub-record the interface leaves as [Record<string, unknown>]
    is a [JS.value].  Fields that no modelled function reads or writes are
    left out of the user document. *)

Module ProjectData.
Record t := {
  id : string;
  name : string;
  location : string;
  lastUpdated : string;
  stage : JS.value;
  progressPercentage : JS.value;
  timeRemaining : JS.value;
  criticalPath : JS.value;
  delaysFlagged : JS.value;
  burnRate : JS.value;
  manpower : JS.value;
  machinery : JS.value;
  materials : JS.value;
  financials : JS.value;
  valuation : JS.value;
  compliance : JS.value;
  geo : JS.value;
  charts : JS.value;
  insights : JS.value;
}.

(** [data?.f] for project data that may be [null]. *)
Definition field (data : option t) (f : t -> JS.value) : JS.value :=
  match data with
  | Some d => f d
  | None => JS.VUndefined
  end.
End ProjectData.

Module AnalysisData.
Record t := {
  created_at : JS.Date;
  stage : string;
  progressPercentage : Q;
  confidence_score : Q;
  insights : list string;
  project_data : option ProjectData.t;
  raw_response : JS.value;
  is_valid : bool;
}.
End AnalysisData.

Module ProjectDocument.
Record t := {
  _id : string;
  user_id : string;
  name : string;
  description : string;
  location : string;
  mode : string;
  status : string;
  created_at : JS.Date;
  updated_at : JS.Date;
  analyses : list AnalysisData.t;
  project_data : option ProjectData.t;
}.
End ProjectDocument.

Module UserSubscription.
Record t := {
  plan : string;
  status : string;
  scans_used : Z;
  scans_limit : Z;
  has_report_access : bool;
  has_api_access : bool;
  max_projects : Z;
  started_at : JS.Date;
}.
End UserSubscription.

Module UserDocument.
Record t := {
  _id : string;
  email : string;
  role : string;
  is_active : bool;
  isActive : option bool;
  updated_at : JS.Date;
  subscription : UserSubscription.t;
}.
End UserDocument.

Module AnalysisSnapshot.
Record t := {
  stage : string;
  progressPercentage : Q;
  timeRemaining : string;
  criticalPath : option string;
  delaysFlagged : Q;
  confidence_score : Q;
  insights : list string;
  manpower : JS.value;
  machinery : JS.value;
  financials : JS.value;
  project_data : option ProjectData.t;
}.
End AnalysisSnapshot.

(** The delta record the analyze handler writes; a key whose value is
    [undefined] is an omitted delta. *)
Module AnalysisDelta.
Record t := {
  progress : JS.value;
  budget_spent : JS.value;
  workers : JS.value;
  safety_score : JS.value;
  delays : JS.value;
}.
End AnalysisDelta.

Module AnalysisHistoryDocument.
Record t := {
  project_id : string;
  user_id : string;
  analysis_date : JS.Date;
  snapshot : AnalysisSnapshot.t;
  deltas : option AnalysisDelta.t;
  created_at : JS.Date;
}.
End AnalysisHistoryDocument.

(** The result of [aiService.analyzeImage], at its declared interface. *)
Module AIAnalysisResult.
Record t := {
  valid : bool;
  stage : string;
  progressPercentage : Q;
  timeRemaining : string;
  criticalPath : option string;
  delaysFlagged : Q;
  confidence_score : Q;
  insights : list string;
  raw_response : JS.value;
  project_data : option ProjectData.t;
  error : option string;
}.
End AIAnalysisResult.

(** ** The normalizer (ai.service.ts) *)

Module AIService.
Section WithRuntime.
Context `{JS.Runtime}.

(** The callback of [materials.map] in [charts.budgetDistribution]. *)
Definition budgetDistribution_entry (m : JS.value) : JS.result JS.value :=
  if JS.nullish m
  then JS.Throw (JS.TypeError "Cannot read properties of null (reading 'name')")
  else JS.Ok (JS.VObj [("name", JS.get m "name");
                       ("value", JS.or_else (JS.get m "used") (JS.num 0))]).

Definition buildProjectData (now : JS.Date) (aiResult : JS.value)
    (project : option ProjectDocument.t) : JS.result ProjectData.t :=
  let projectName := JS.opt_str_or project ProjectDocument.name "Untitled Project" in
  let projectLocation := JS.opt_str_or project ProjectDocument.location "Unknown Location" in
  let projectId := JS.opt_str_or project ProjectDocument._id "temp-1" in
  if JS.nullish aiResult
  then JS.Throw (JS.TypeError "Cannot read properties of null (reading 'progressPercentage')")
  else
  let progressPercentage := JS.or_else (JS.get aiResult "progressPercentage") (JS.num 0) in
  (* Build manpower data *)
  let aiManpower := JS.or_else (JS.get aiResult "manpower") (JS.VObj []) in
  let skilled := JS.or_else (JS.get aiManpower "skilled") (JS.num 0) in
  let manpower := JS.VObj [
    ("total", JS.or_else (JS.get aiManpower "total") (JS.num 0));
    ("skilled", JS.or_else (JS.get aiManpower "skilled") (JS.num 0));
    ("unskilled", JS.or_else (JS.get aiManpower "unskilled") (JS.num 0));
    ("productivityIndex", JS.or_else (JS.get aiManpower "productivityIndex") (JS.num 0));
    ("safetyScore", JS.or_else (JS.get aiManpower "safetyScore") (JS.num 0));
    ("skillDistribution", JS.VArr [
      JS.VObj [("name", JS.VStr "Mason");
               ("count", JS.Math_round (JS.mul skilled (JS.num (3 # 10))))];
      JS.VObj [("name", JS.VStr "Carpenter");
               ("count", JS.Math_round (JS.mul skilled (JS.num (2 # 10))))];
      JS.VObj [("name", JS.VStr "Electrician");
               ("count", JS.Math_round (JS.mul skilled (JS.num (15 # 100))))];
      JS.VObj [("name", JS.VStr "Plumber");
               ("count", JS.Math_round (JS.mul skilled (JS.num (1 # 10))))];
      JS.VObj [("name", JS.VStr "Laborer");
               ("count", JS.or_else (JS.get aiManpower "unskilled") (JS.num 0))]]);
    ("idleWorkers", JS.num 0)] in
  (* Build machinery data *)
  let aiMachinery := JS.or_else (JS.get aiResult "machinery") (JS.VObj []) in
  let machinery := JS.VObj [
    ("utilization", JS.or_else (JS.get aiMachinery "utilization") (JS.num 0));
    ("activeUnits", JS.or_else (JS.get aiMachinery "activeUnits") (JS.num 0));
    ("maintenanceAlerts", JS.or_else (JS.get aiMachinery "maintenanceAlerts") (JS.num 0));
    ("fuelConsumption", JS.num 0);
    ("efficiencyRatio", JS.or_else (JS.get aiMachinery "utilization") (JS.num 0))] in
  (* Build materials *)
  let materials := JS.or_else (JS.get aiResult "materials") (JS.VArr []) in
  (* Build financials *)
  let aiFinancials := JS.or_else (JS.get aiResult "financials") (JS.VObj []) in
  let budgetTotal := JS.or_else (JS.get aiFinancials "budgetTotal") (JS.num 0) in
  let budgetSpentPct := JS.or_else (JS.get aiFinancials "budgetSpent") (JS.num 0) in
  let budgetSpent := JS.Math_round (JS.div (JS.mul budgetTotal budgetSpentPct) (JS.num 100)) in
  let costOverrun := JS.or_else (JS.get aiFinancials "costOverrun") (JS.num 0) in
  let financials := JS.VObj [
    ("budgetTotal", budgetTotal);
    ("budgetSpent", budgetSpent);
    ("budgetRemaining", JS.sub budgetTotal budgetSpent);
    ("costOverrun", costOverrun);
    ("projectedFinalCost",
       JS.Math_round (JS.mul budgetTotal
                        (JS.add (JS.num 1) (JS.div costOverrun (JS.num 100)))));
    ("cashFlowHealth",
       JS.VStr (if JS.le costOverrun (JS.num 0) then "Positive"
                else if JS.lt costOverrun (JS.num 10) then "Neutral"
                else "Negative"));
    ("roiProjection", JS.num 0);
    ("monthlyCashFlow", JS.VArr [])] in
  (* Build valuation *)
  let aiValuation := JS.or_else (JS.get aiResult "valuation") (JS.VObj []) in
  let valuation := JS.VObj [
    ("current", JS.or_else (JS.get aiValuation "current") (JS.num 0));
    ("landValue", JS.or_else (JS.get aiValuation "landValue") (JS.num 0));
    ("projectedCompletedValue",
       JS.or_else (JS.get aiValuation "projectedCompletedValue") (JS.num 0));
    ("appreciationForecast", JS.num 0);
    ("rentalYield", JS.num 0);
    ("nearbyTransactions", JS.VArr [])] in
  (* Build compliance *)
  let aiCompliance := JS.or_else (JS.get aiResult "compliance") (JS.VObj []) in
  let compliance := JS.VObj [
    ("structuralScore", JS.or_else (JS.get aiCompliance "structuralScore") (JS.num 0));
    ("fsiUsed", JS.num 0);
    ("sustainabilityRating",
       JS.or_else (JS.get aiCompliance "sustainabilityRating") (JS.VStr "N/A"));
    ("codeViolations", JS.num 0);
    ("embodiedCarbon", JS.VStr "N/A")] in
  (* Build geo *)
  let aiGeo := JS.or_else (JS.get aiResult "geo") (JS.VObj []) in
  let geo := JS.VObj [
    ("soilType", JS.or_else (JS.get aiGeo "soilType") (JS.VStr "Unknown"));
    ("floodRisk", JS.or_else (JS.get aiGeo "floodRisk") (JS.VStr "Unknown"));
    ("seismicZone", JS.VStr "Unknown");
    ("climateScore", JS.or_else (JS.get aiGeo "climateScore") (JS.num 0));
    ("groundwaterLevel", JS.VStr "Unknown");
    ("windLoad", JS.VStr "Unknown")] in
  (* Build charts *)
  JS.bind
    (if JS.gt (JS.get materials "length") (JS.num 0)
     then JS.array_map budgetDistribution_entry materials
     else JS.Ok (JS.VArr []))
    (fun budgetDistribution =>
  let charts := JS.VObj [
    ("progressOverTime", JS.VArr [
      JS.VObj [("name", JS.VStr "Current");
               ("actual", progressPercentage);
               ("projected", progressPercentage)]]);
    ("valuationGrowth", JS.VArr [
      JS.VObj [("year", JS.VStr (JS.getFullYear now));
               ("value", JS.or_else (JS.get aiValuation "current") (JS.num 0))]]);
    ("budgetDistribution", budgetDistribution)] in
  JS.Ok {|
    ProjectData.id := projectId;
    ProjectData.name := projectName;
    ProjectData.location := projectLocation;
    ProjectData.lastUpdated := JS.toISOString now;
    ProjectData.stage := JS.or_else (JS.get aiResult "stage") (JS.VStr "Unknown");
    ProjectData.progressPercentage := progressPercentage;
    ProjectData.timeRemaining :=
      JS.or_else (JS.get aiResult "timeRemaining") (JS.VStr "Unknown");
    ProjectData.criticalPath :=
      JS.or_else (JS.get aiResult "criticalPath") (JS.VStr "Unknown");
    ProjectData.delaysFlagged := JS.or_else (JS.get aiResult "delaysFlagged") (JS.num 0);
    ProjectData.burnRate :=
      (if JS.gt budgetSpent (JS.num 0)
       then JS.Math_round (JS.div budgetSpent (JS.num 6))
       else JS.num 0);
    ProjectData.manpower := manpower;
    ProjectData.machinery := machinery;
    ProjectData.materials := materials;
    ProjectData.financials := financials;
    ProjectData.valuation := valuation;
    ProjectData.compliance := compliance;
    ProjectData.geo := geo;
    ProjectData.charts := charts;
    ProjectData.insights := JS.or_else (JS.get aiResult "insights") (JS.VArr []);
  |}).

Definition getDefaultProjectData (now : JS.Date) (project : ProjectDocument.t)
    : JS.result ProjectData.t :=
  buildProjectData now (JS.VObj []) (Some project).

End WithRuntime.


(** *** [analyzeImage]

    The call of the vision model and the parsing of its answer
    ([generateContent], [response.text()], [parseAIResponse]) are the
    argument [generated]: the text [String(error)] of the exception one of
    them threw, or the parsed JSON value.  [analyzeImage] catches every
    exception of its [try] block, the normalizer's included.  The result
    is built here field by field as the code builds it; the fields are read
    at their declared types by [as_declared] below. *)

Module Analysis.
Record t := {
  valid : bool;
  stage : JS.value;
  progressPercentage : JS.value;
  timeRemaining : JS.value;
  criticalPath : JS.value;
  delaysFlagged : JS.value;
  confidence_score : JS.value;
  insights : JS.value;
  raw_response : JS.value;
  project_data : option ProjectData.t;
  error : option string;
}.
End Analysis.

(** The result returned when no model is available or the analysis threw. *)
Definition failure (error : string) : Analysis.t :=
  {| Analysis.valid := false;
     Analysis.stage := JS.VStr "Error";
     Analysis.progressPercentage := JS.num 0;
     Analysis.timeRemaining := JS.VStr "N/A";
     Analysis.criticalPath := JS.VUndefined;
     Analysis.delaysFlagged := JS.num 0;
     Analysis.confidence_score := JS.num 0;
     Analysis.insights := JS.VArr [];
     Analysis.raw_response := JS.VObj [];
     Analysis.project_data := None;
     Analysis.error := Some error |}.

(** [String(error)] *)
Definition String_error (e : JS.error) : string :=
  match e with
  | JS.TypeError msg => "TypeError: " ++ msg
  end.

Section AnalyzeImage.
Context `{JS.Runtime}.

Definition analyzeImage (model : bool) (initError : option string) (now : JS.Date)
    (generated : string + JS.value) (project : option ProjectDocument.t) : Analysis.t :=
  (* Return error if no model available *)
  if negb model
  then failure (JS.opt_str_or initError (fun msg => msg)
                  "AI model not initialized. Please configure GEMINI_API_KEY.")
  else
    match generated with
    | inl errorMsg => failure ("AI analysis failed: " ++ errorMsg)
    | inr result =>
        (* Generate project data for all images *)
        match buildProjectData now result project with
        | JS.Throw e => failure ("AI analysis failed: " ++ String_error e)
        | JS.Ok projectData =>
            {| Analysis.valid := true;
               Analysis.stage := JS.or_else (JS.get result "stage") (JS.VStr "Unknown");
               Analysis.progressPercentage :=
                 JS.or_else (JS.get result "progressPercentage") (JS.num 0);
               Analysis.timeRemaining :=
                 JS.or_else (JS.get result "timeRemaining") (JS.VStr "Unknown");
               Analysis.criticalPath := JS.get result "criticalPath";
               Analysis.delaysFlagged :=
                 JS.or_else (JS.get result "delaysFlagged") (JS.num 0);
               Analysis.confidence_score :=
                 JS.or_else (JS.get result "confidence_score") (JS.num 75);
               Analysis.insights := JS.or_else (JS.get result "insights") (JS.VArr []);
               Analysis.raw_response := result;
               Analysis.project_data := Some projectData;
               Analysis.error := None |}
        end
    end.

End AnalyzeImage.
End AIService.

(** ** The document store (mongodb.ts)

    The module-level [db] handle is [None] until a connection is made;
    every operation first tests it.  A collection keyed by [_id] is a
    [gmap]; the history collection is the list of its documents in
    insertion order.  An exception of the driver (caught by each operation
    and turned into its failure value) is not modelled. *)

Module MongoDB.

Record Db := {
  users : gmap string UserDocument.t;
  projects : gmap string ProjectDocument.t;
  analyses_history : list AnalysisHistoryDocument.t;
}.

(** [.sort({ key: -1 })]: newest first.  Documents with equal keys keep
    their relative order (the driver leaves it unspecified). *)
Fixpoint insert_desc {A} (key : A -> Z) (a : A) (l : list A) : list A :=
  match l with
  | [] => [a]
  | b :: l' => if (key b <=? key a)%Z then a :: l else b :: insert_desc key a l'
  end.

Fixpoint sort_desc {A} (key : A -> Z) (l : list A) : list A :=
  match l with
  | [] => []
  | a :: l' => insert_desc key a (sort_desc key l')
  end.

Definition getUserById (db : option Db) (userId : string) : option UserDocument.t :=
  match db with
  | None => None
  | Some d => users d !! userId
  end.

Definition increment_scans (now : JS.Date) (u : UserDocument.t) : UserDocument.t :=
  let s := UserDocument.subscription u in
  {| UserDocument._id := UserDocument._id u;
     UserDocument.email := UserDocument.email u;
     UserDocument.role := UserDocument.role u;
     UserDocument.is_active := UserDocument.is_active u;
     UserDocument.isActive := UserDocument.isActive u;
     UserDocument.updated_at := now;
     UserDocument.subscription :=
       {| UserSubscription.plan := UserSubscription.plan s;
          UserSubscription.status := UserSubscription.status s;
          UserSubscription.scans_used := (UserSubscription.scans_used s + 1)%Z;
          UserSubscription.scans_limit := UserSubscription.scans_limit s;
          UserSubscription.has_report_access := UserSubscription.has_report_access s;
          UserSubscription.has_api_access := UserSubscription.has_api_access s;
          UserSubscription.max_projects := UserSubscription.max_projects s;
          UserSubscription.started_at := UserSubscription.started_at s |} |}.

(** [updateOne({_id}, {$inc: {'subscription.scans_used': 1}, $set: {updated_at}})];
    the result is [modifiedCount > 0]. *)
Definition incrementScanUsage (now : JS.Date) (userId : string) (db : option Db)
    : bool * option Db :=
  match db with
  | None => (false, None)
  | Some d =>
      match users d !! userId with
      | None => (false, Some d)
      | Some u =>
          (true, Some {| users := <[userId := increment_scans now u]> (users d);
                         projects := projects d;
                         analyses_history := analyses_history d |})
      end
  end.

Definition getProject (db : option Db) (projectId : string) : option ProjectDocument.t :=
  match db with
  | None => None
  | Some d => projects d !! projectId
  end.

Definition set_projects (d : Db) (ps : gmap string ProjectDocument.t) : Db :=
  {| users := users d; projects := ps; analyses_history := analyses_history d |}.

(** [find({user_id}).sort({created_at: -1}).skip(skip).limit(limit)] *)
Definition getUserProjects (db : option Db) (userId : string) (skip limit : nat)
    : list ProjectDocument.t :=
  match db with
  | None => []
  | Some d =>
      take limit (drop skip
        (sort_desc (fun p => JS.getTime (ProjectDocument.created_at p))
           (filter (fun p => ProjectDocument.user_id p = userId)
              (snd <$> map_to_list (projects d)))))
  end.

(** [$push: {analyses}], [$set: {project_data: analysisData.project_data || null,
    updated_at}], after [analysisData.created_at = new Date()]. *)
Definition addAnalysis (now : JS.Date) (projectId : string)
    (analysisData : AnalysisData.t) (db : option Db) : bool * option Db :=
  match db with
  | None => (false, None)
  | Some d =>
      match projects d !! projectId with
      | None => (false, Some d)
      | Some p =>
          let stamped :=
            {| AnalysisData.created_at := now;
               AnalysisData.stage := AnalysisData.stage analysisData;
               AnalysisData.progressPercentage := AnalysisData.progressPercentage analysisData;
               AnalysisData.confidence_score := AnalysisData.confidence_score analysisData;
               AnalysisData.insights := AnalysisData.insights analysisData;
               AnalysisData.project_data := AnalysisData.project_data analysisData;
               AnalysisData.raw_response := AnalysisData.raw_response analysisData;
               AnalysisData.is_valid := AnalysisData.is_valid analysisData |} in
          let p' :=
            {| ProjectDocument._id := ProjectDocument._id p;
               ProjectDocument.user_id := ProjectDocument.user_id p;
               ProjectDocument.name := ProjectDocument.name p;
               ProjectDocument.description := ProjectDocument.description p;
               ProjectDocument.location := ProjectDocument.location p;
               ProjectDocument.mode := ProjectDocument.mode p;
               ProjectDocument.status := ProjectDocument.status p;
               ProjectDocument.created_at := ProjectDocument.created_at p;
               ProjectDocument.updated_at := now;
               ProjectDocument.analyses := ProjectDocument.analyses p ++ [stamped];
               ProjectDocument.project_data := AnalysisData.project_data analysisData |} in
          (true, Some (set_projects d (<[projectId := p']> (projects d))))
      end
  end.

(** [updateProject(projectId, { project_data })], the one update the
    modelled handlers send: [$set: {project_data, updated_at}]. *)
Definition updateProject (now : JS.Date) (projectId : string)
    (project_data : ProjectData.t) (db : option Db) : bool * option Db :=
  match db with
  | None => (false, None)
  | Some d =>
      match projects d !! projectId with
      | None => (false, Some d)
      | Some p =>
          let p' :=
            {| ProjectDocument._id := ProjectDocument._id p;
               ProjectDocument.user_id := ProjectDocument.user_id p;
               ProjectDocument.name := ProjectDocument.name p;
               ProjectDocument.description := ProjectDocument.description p;
               ProjectDocument.location := ProjectDocument.location p;
               ProjectDocument.mode := ProjectDocument.mode p;
               ProjectDocument.status := ProjectDocument.status p;
               ProjectDocument.created_at := ProjectDocument.created_at p;
               ProjectDocument.updated_at := now;
               ProjectDocument.analyses := ProjectDocument.analyses p;
               ProjectDocument.project_data := Some project_data |} in
          (true, Some (set_projects d (<[projectId := p']> (projects d))))
      end
  end.

Definition createAnalysisHistory (now : JS.Date) (projectId userId : string)
    (snapshot : AnalysisSnapshot.t) (deltas : option AnalysisDelta.t)
    (db : option Db) : bool * option Db :=
  match db with
  | None => (false, None)
  | Some d =>
      let historyDoc :=
        {| AnalysisHistoryDocument.project_id := projectId;
           AnalysisHistoryDocument.user_id := userId;
           AnalysisHistoryDocument.analysis_date := now;
           AnalysisHistoryDocument.snapshot := snapshot;
           AnalysisHistoryDocument.deltas := deltas;
           AnalysisHistoryDocument.created_at := now |} in
      (true, Some {| users := users d;
                     projects := projects d;
                     analyses_history := analyses_history d ++ [historyDoc] |})
  end.

Definition project_history (d : Db) (projectId : string)
    : list AnalysisHistoryDocument.t :=
  sort_desc (fun h => JS.getTime (AnalysisHistoryDocument.analysis_date h))
    (filter (fun h => AnalysisHistoryDocument.project_id h = projectId)
       (analyses_history d)).

(** [find({project_id}).sort({analysis_date: -1}).limit(limit)] *)
Definition getAnalysisHistory (db : option Db) (projectId : string) (limit : nat)
    : list AnalysisHistoryDocument.t :=
  match db with
  | None => []
  | Some d => take limit (project_history d projectId)
  end.

(** [findOne({project_id}, {sort: {analysis_date: -1}})] *)
Definition getLatestAnalysis (db : option Db) (projectId : string)
    : option AnalysisHistoryDocument.t :=
  match db with
  | None => None
  | Some d => head (project_history d projectId)
  end.

(** *** The other operations on projects, users and the history

    [insertOne] files the new document under the [_id] the driver
    generated for it, the argument [insertedId]; an [_id] already in the
    collection is a duplicate-key error, which the operation catches. *)

Definition createProject (now : JS.Date) (insertedId : string)
    (userId name description location mode : string) (db : option Db)
    : option string * option Db :=
  match db with
  | None => (None, None)
  | Some d =>
      match projects d !! insertedId with
      | Some _ => (None, Some d)
      | None =>
          let projectDoc :=
            {| ProjectDocument._id := insertedId;
               ProjectDocument.user_id := userId;
               ProjectDocument.name := name;
               ProjectDocument.description := description;
               ProjectDocument.location := location;
               ProjectDocument.mode := mode;
               ProjectDocument.status := "active";
               ProjectDocument.created_at := now;
               ProjectDocument.updated_at := now;
               ProjectDocument.analyses := [];
               ProjectDocument.project_data := None |} in
          (Some insertedId, Some (set_projects d (<[insertedId := projectDoc]> (projects d))))
      end
  end.

(** [countDocuments({ user_id })] *)
Definition countUserProjects (db : option Db) (userId : string) : nat :=
  match db with
  | None => 0
  | Some d =>
      length (filter (fun p => ProjectDocument.user_id p = userId)
                (snd <$> map_to_list (projects d)))
  end.

(** [deleteOne({ _id })]; the result is [deletedCount > 0]. *)
Definition deleteProject (projectId : string) (db : option Db) : bool * option Db :=
  match db with
  | None => (false, None)
  | Some d =>
      match projects d !! projectId with
      | None => (false, Some d)
      | Some _ => (true, Some (set_projects d (delete projectId (projects d))))
      end
  end.

(** [modifiedCount > 0] of [updateSubscription]: one of the fields that
    are set changes. *)
Definition subscription_modified (now : JS.Date) (plan : string) (scansLimit : Z)
    (u : UserDocument.t) : bool :=
  let s := UserDocument.subscription u in
  negb (String.eqb (UserSubscription.plan s) plan
        && (UserSubscription.scans_limit s =? scansLimit)%Z
        && Bool.eqb (UserSubscription.has_report_access s) (negb (String.eqb plan "free"))
        && Bool.eqb (UserSubscription.has_api_access s) (String.eqb plan "enterprise")
        && (UserSubscription.max_projects s
            =? (if String.eqb plan "free" then 1
                else if String.eqb plan "pro" then 10 else 100))%Z
        && (JS.getTime (UserDocument.updated_at u) =? JS.getTime now)%Z).

(** [$set] of the plan, the limit and the entitlements derived from the
    plan, and of [updated_at]. *)
Definition updateSubscription (now : JS.Date) (userId plan : string) (scansLimit : Z)
    (db : option Db) : bool * option Db :=
  match db with
  | None => (false, None)
  | Some d =>
      match users d !! userId with
      | None => (false, Some d)
      | Some u =>
          let s := UserDocument.subscription u in
          let u' :=
            {| UserDocument._id := UserDocument._id u;
               UserDocument.email := UserDocument.email u;
               UserDocument.role := UserDocument.role u;
               UserDocument.is_active := UserDocument.is_active u;
               UserDocument.isActive := UserDocument.isActive u;
               UserDocument.updated_at := now;
               UserDocument.subscription :=
                 {| UserSubscription.plan := plan;
                    UserSubscription.status := UserSubscription.status s;
                    UserSubscription.scans_used := UserSubscription.scans_used s;
                    UserSubscription.scans_limit := scansLimit;
                    UserSubscription.has_report_access := negb (String.eqb plan "free");
                    UserSubscription.has_api_access := String.eqb plan "enterprise";
                    UserSubscription.max_projects :=
                      (if String.eqb plan "free" then 1
                       else if String.eqb plan "pro" then 10 else 100)%Z;
                    UserSubscription.started_at := UserSubscription.started_at s |} |} in
          (subscription_modified now plan scansLimit u,
           Some {| users := <[userId := u']> (users d);
                   projects := projects d;
                   analyses_history := analyses_history d |})
      end
  end.

(** [findOne({ project_id, analysis_date: { $lt: beforeDate } },
    { sort: { analysis_date: -1 } })] *)
Definition getPreviousAnalysis (db : option Db) (projectId : string) (beforeDate : JS.Date)
    : option AnalysisHistoryDocument.t :=
  match db with
  | None => None
  | Some d =>
      head (sort_desc (fun h => JS.getTime (AnalysisHistoryDocument.analysis_date h))
              (filter (fun h => AnalysisHistoryDocument.project_id h = projectId
                                /\ (JS.getTime (AnalysisHistoryDocument.analysis_date h)
                                    < JS.getTime beforeDate)%Z)
                 (analyses_history d)))
  end.

(** [countDocuments({ project_id })] *)
Definition getAnalysisCount (db : option Db) (projectId : string) : nat :=
  match db with
  | None => 0
  | Some d =>
      length (filter (fun h => AnalysisHistoryDocument.project_id h = projectId)
                (analyses_history d))
  end.

End MongoDB.

(** ** Request gates (auth.middleware.ts)

    [decodeToken] (utils/security.ts) is an argument.  A reply that was
    sent is [Some]; the request carries what [requireAuth] attached. *)

Module Auth.

Record TokenPayload := {
  sub : string;
  type : string;
}.

Record Reply := {
  status : Z;
  detail : string;
}.

Record Request := {
  authorization : option string;
  userId : option string;
  user : option UserDocument.t;
  subscription : option UserSubscription.t;
}.

Definition getDefaultSubscription (now : JS.Date) : UserSubscription.t :=
  {| UserSubscription.plan := "free";
     UserSubscription.status := "active";
     UserSubscription.scans_used := 0;
     UserSubscription.scans_limit := 3;
     UserSubscription.has_report_access := false;
     UserSubscription.has_api_access := false;
     UserSubscription.max_projects := 1;
     UserSubscription.started_at := now |}.

Section WithToken.
Variable decodeToken : string -> option TokenPayload.

Definition requireAuth (db : option MongoDB.Db) (request : Request)
    : option Reply * Request :=
  match authorization request with
  | None => (Some {| status := 401; detail := "Missing authorization header" |}, request)
  | Some authHeader =>
      if negb (String.prefix "Bearer " authHeader)
      then (Some {| status := 401; detail := "Missing authorization header" |}, request)
      else
        let token := String.substring 7 (String.length authHeader - 7) authHeader in
        match decodeToken token with
        | None => (Some {| status := 401; detail := "Invalid or expired token" |}, request)
        | Some payload =>
            if negb (String.eqb (type payload) "access")
            then (Some {| status := 401; detail := "Invalid token type" |}, request)
            else if String.eqb (sub payload) ""
            then (Some {| status := 401; detail := "Invalid token payload" |}, request)
            else
              match MongoDB.getUserById db (sub payload) with
              | None => (Some {| status := 401; detail := "User not found" |}, request)
              | Some u =>
                  (* user.isActive ?? user.is_active ?? true *)
                  let isActive :=
                    match UserDocument.isActive u with
                    | Some b => b
                    | None => UserDocument.is_active u
                    end in
                  if negb isActive
                  then (Some {| status := 403; detail := "User account is disabled" |},
                        request)
                  else
                    (None,
                     {| authorization := authorization request;
                        userId := Some (sub payload);
                        user := Some u;
                        subscription := Some (UserDocument.subscription u) |})
              end
        end
  end.

Definition checkScanLimit (now : JS.Date) (db : option MongoDB.Db) (request : Request)
    : option Reply * Request :=
  (* First run requireAuth *)
  let '(reply, request) := requireAuth db request in
  match reply with
  | Some sent => (Some sent, request)
  | None =>
      let subscription :=
        match subscription request with
        | Some s => s
        | None => getDefaultSubscription now
        end in
      let scansUsed := JS.int_or (UserSubscription.scans_used subscription) 0 in
      let scansLimit := JS.int_or (UserSubscription.scans_limit subscription) 3 in
      let plan := JS.str_or (UserSubscription.plan subscription) "free" in
      if String.eqb plan "free" && (scansLimit <=? scansUsed)%Z
      then (Some {| status := 403;
                    detail := "Scan limit reached. Please upgrade your plan." |}, request)
      else (None, request)
  end.

(** [requireAuthOptional]: the same checks, but a request that fails one
    goes on unauthenticated and no reply is sent. *)
Definition requireAuthOptional (db : option MongoDB.Db) (request : Request) : Request :=
  match authorization request with
  | None => request
  | Some authHeader =>
      if negb (String.prefix "Bearer " authHeader)
      then request (* No auth, but optional *)
      else
        let token := String.substring 7 (String.length authHeader - 7) authHeader in
        match decodeToken token with
        | None => request
        | Some payload =>
            if negb (String.eqb (type payload) "access") then request
            else if String.eqb (sub payload) "" then request
            else
              match MongoDB.getUserById db (sub payload) with
              | None => request
              | Some u =>
                  let isActive :=
                    match UserDocument.isActive u with
                    | Some b => b
                    | None => UserDocument.is_active u
                    end in
                  if negb isActive then request
                  else
                    {| authorization := authorization request;
                       userId := Some (sub payload);
                       user := Some u;
                       subscription := Some (UserDocument.subscription u) |}
              end
        end
  end.

Definition requirePremium (now : JS.Date) (db : option MongoDB.Db) (request : Request)
    : option Reply * Request :=
  (* First run requireAuth *)
  let '(reply, request) := requireAuth db request in
  match reply with
  | Some sent => (Some sent, request)
  | None =>
      let subscription :=
        match subscription request with
        | Some s => s
        | None => getDefaultSubscription now
        end in
      if String.eqb (UserSubscription.plan subscription) "free"
      then (Some {| status := 403; detail := "Premium subscription required" |}, request)
      else (None, request)
  end.

End WithToken.
End Auth.

(** ** Portfolio analytics (portfolio.service.ts) *)

Module Portfolio.

Inductive RiskLevel := low | medium | high.
Inductive Status := on_track | at_risk | delayed.

(** The template strings [`$${x.toFixed(1)}M`] and [`${x.toFixed(1)}%`]
    are represented by the number they render; ['$0'] and ['0%'] of the
    empty portfolio are constructors of their own. *)
Inductive Money := Dollars0 | DollarsM (millions : JS.value).
Inductive Percent := Percent0 | PercentOf (pct : JS.value).

Record PortfolioSummary := {
  total_projects : nat;
  total_value : Money;
  avg_progress : JS.value;
  projects_on_track : nat;
  projects_at_risk : nat;
  projects_delayed : nat;
  total_budget_spent : Money;
  portfolio_roi : Percent;
  total_workers : JS.value;
  avg_safety_score : JS.value;
}.

Record ProjectComparison := {
  project_id : string;
  name : string;
  progress : JS.value;
  budget_spent_pct : JS.value;
  safety_score : JS.value;
  risk_level : RiskLevel;
  status : Status;
}.

(** The local variables of the loop of [getPortfolioSummary]. *)
Record Totals := {
  totalValue : JS.value;
  totalProgress : JS.value;
  totalBudgetSpent : JS.value;
  totalWorkers : JS.value;
  totalSafetyScore : JS.value;
  projectsOnTrack : nat;
  projectsAtRisk : nat;
  projectsDelayed : nat;
  safetyScoreCount : nat;
}.

Definition zero_totals : Totals :=
  {| totalValue := JS.num 0; totalProgress := JS.num 0; totalBudgetSpent := JS.num 0;
     totalWorkers := JS.num 0; totalSafetyScore := JS.num 0;
     projectsOnTrack := 0; projectsAtRisk := 0; projectsDelayed := 0;
     safetyScoreCount := 0 |}.

Section WithRuntime.
Context `{JS.Runtime}.

(** The status classification inside the loop of [getPortfolioSummary]. *)
Definition summary_status (data : ProjectData.t) : Status :=
  if JS.truthy (ProjectData.delaysFlagged data)
     && JS.gt (ProjectData.delaysFlagged data) (JS.num 2)
  then delayed
  else if JS.lt (ProjectData.progressPercentage data) (JS.num 50)
          && JS.gt (JS.or_else (JS.get_opt (ProjectData.financials data) "budgetSpent")
                      (JS.num 0)) (JS.num 60)
  then at_risk
  else on_track.

(** One iteration of [for (const project of projects)]. *)
Definition summary_step (t : Totals) (project : ProjectDocument.t) : Totals :=
  match ProjectDocument.project_data project with
  | None => t
  | Some data =>
      (* Valuation *)
      let totalValue' :=
        if JS.truthy (JS.get_opt (ProjectData.valuation data) "current")
        then JS.add (totalValue t) (JS.get (ProjectData.valuation data) "current")
        else totalValue t in
      (* Progress, status classification *)
      let isnum := JS.typeof_number (ProjectData.progressPercentage data) in
      let totalProgress' :=
        if isnum then JS.add (totalProgress t) (ProjectData.progressPercentage data)
        else totalProgress t in
      let st := summary_status data in
      let projectsDelayed' :=
        if isnum then match st with delayed => S (projectsDelayed t) | _ => projectsDelayed t end
        else projectsDelayed t in
      let projectsAtRisk' :=
        if isnum then match st with at_risk => S (projectsAtRisk t) | _ => projectsAtRisk t end
        else projectsAtRisk t in
      let projectsOnTrack' :=
        if isnum then match st with on_track => S (projectsOnTrack t) | _ => projectsOnTrack t end
        else projectsOnTrack t in
      (* Budget *)
      let totalBudgetSpent' :=
        if JS.truthy (JS.get_opt (ProjectData.financials data) "budgetTotal")
           && JS.truthy (JS.get_opt (ProjectData.financials data) "budgetSpent")
        then
          let spent :=
            JS.div (JS.mul (JS.get (ProjectData.financials data) "budgetTotal")
                           (JS.get (ProjectData.financials data) "budgetSpent"))
                   (JS.num 100) in
          JS.add (totalBudgetSpent t) spent
        else totalBudgetSpent t in
      (* Workers *)
      let totalWorkers' :=
        if JS.truthy (JS.get_opt (ProjectData.manpower data) "total")
        then JS.add (totalWorkers t) (JS.get (ProjectData.manpower data) "total")
        else totalWorkers t in
      (* Safety *)
      let hasSafety := JS.truthy (JS.get_opt (ProjectData.manpower data) "safetyScore") in
      {| totalValue := totalValue';
         totalProgress := totalProgress';
         totalBudgetSpent := totalBudgetSpent';
         totalWorkers := totalWorkers';
         totalSafetyScore :=
           (if hasSafety
            then JS.add (totalSafetyScore t) (JS.get (ProjectData.manpower data) "safetyScore")
            else totalSafetyScore t);
         projectsOnTrack := projectsOnTrack';
         projectsAtRisk := projectsAtRisk';
         projectsDelayed := projectsDelayed';
         safetyScoreCount := (if hasSafety then S (safetyScoreCount t) else safetyScoreCount t) |}
  end.

Definition summary_totals (projects : list ProjectDocument.t) : Totals :=
  fold_left summary_step projects zero_totals.

Definition count (n : nat) : JS.value := JS.num (inject_Z (Z.of_nat n)).

Definition getPortfolioSummary (db : option MongoDB.Db) (userId : string)
    : PortfolioSummary :=
  let projects := MongoDB.getUserProjects db userId 0 10 in
  if (length projects =? 0)%nat then
    {| total_projects := 0; total_value := Dollars0; avg_progress := JS.num 0;
       projects_on_track := 0; projects_at_risk := 0; projects_delayed := 0;
       total_budget_spent := Dollars0; portfolio_roi := Percent0;
       total_workers := JS.num 0; avg_safety_score := JS.num 0 |}
  else
    let t := summary_totals projects in
    let avgProgress :=
      if (0 <? length projects)%nat
      then JS.div (totalProgress t) (count (length projects)) else JS.num 0 in
    let avgSafetyScore :=
      if (0 <? safetyScoreCount t)%nat
      then JS.div (totalSafetyScore t) (count (safetyScoreCount t)) else JS.num 0 in
    let portfolioROI :=
      if JS.gt (totalBudgetSpent t) (JS.num 0)
      then JS.mul (JS.div (JS.sub (totalValue t) (totalBudgetSpent t)) (totalBudgetSpent t))
                  (JS.num 100)
      else JS.num 0 in
    {| total_projects := length projects;
       total_value := DollarsM (JS.toFixed 1 (JS.div (totalValue t) (JS.num 1000000)));
       avg_progress := JS.toFixed 1 avgProgress;
       projects_on_track := projectsOnTrack t;
       projects_at_risk := projectsAtRisk t;
       projects_delayed := projectsDelayed t;
       total_budget_spent :=
         DollarsM (JS.toFixed 1 (JS.div (totalBudgetSpent t) (JS.num 1000000)));
       portfolio_roi := PercentOf (JS.toFixed 1 portfolioROI);
       total_workers := totalWorkers t;
       avg_safety_score := JS.toFixed 0 avgSafetyScore |}.

(** The callback of [projects.map] in [compareProjects]. *)
Definition compare_project (project : ProjectDocument.t) : ProjectComparison :=
  let data := ProjectDocument.project_data project in
  let progress := JS.or_else (ProjectData.field data ProjectData.progressPercentage) (JS.num 0) in
  let budgetSpent :=
    JS.or_else (JS.get_opt (ProjectData.field data ProjectData.financials) "budgetSpent")
               (JS.num 0) in
  let safetyScore :=
    JS.or_else (JS.get_opt (ProjectData.field data ProjectData.manpower) "safetyScore")
               (JS.num 0) in
  let delays := JS.or_else (ProjectData.field data ProjectData.delaysFlagged) (JS.num 0) in
  (* Risk assessment *)
  let riskLevel :=
    if JS.gt delays (JS.num 3) || JS.lt safetyScore (JS.num 70)
       || (JS.lt progress (JS.num 50) && JS.gt budgetSpent (JS.num 60))
    then high
    else if JS.gt delays (JS.num 1) || JS.lt safetyScore (JS.num 85)
            || (JS.lt progress (JS.num 70) && JS.gt budgetSpent (JS.num 80))
    then medium
    else low in
  (* Status determination *)
  let status :=
    if JS.gt delays (JS.num 2) then delayed
    else match riskLevel with
         | high | medium => at_risk
         | low => on_track
         end in
  {| project_id := ProjectDocument._id project;
     name := ProjectDocument.name project;
     progress := progress;
     budget_spent_pct := budgetSpent;
     safety_score := safetyScore;
     risk_level := riskLevel;
     status := status |}.

Definition compareProjects (db : option MongoDB.Db) (userId : string)
    (projectIds : option (list string)) : list ProjectComparison :=
  let projects := MongoDB.getUserProjects db userId 0 10 in
  let projects :=
    match projectIds with
    | Some ids =>
        if (0 <? length ids)%nat
        then filter (fun p => ProjectDocument._id p ∈ ids) projects
        else projects
    | None => projects
    end in
  map compare_project projects.

(** [riskOrder] of [getTopRiskProjects]. *)
Definition riskOrder (r : RiskLevel) : Z :=
  match r with
  | high => 3
  | medium => 2
  | low => 1
  end.

(** Sort by risk level (high first, then medium, then low), then
    [slice(0, limit)]. *)
Definition getTopRiskProjects (db : option MongoDB.Db) (userId : string) (limit : JS.number)
    : list ProjectComparison :=
  let comparisons := compareProjects db userId None in
  JS.slice_to limit
    (JS.sort (fun a b => (riskOrder (risk_level b) - riskOrder (risk_level a))%Z)
       comparisons).

End WithRuntime.
End Portfolio.

(** ** Project routes (project.routes.ts) *)

Module ProjectRoutes.

(** What a handler answers: a reply sent with a status code and a detail
    message (the other keys of an error body are left out), or the body it
    returns (status 200). *)
Inductive Response (A : Type) :=
| Sent (status : Z) (detail : string)
| Returned (body : A).
Arguments Sent {A} status detail.
Arguments Returned {A} body.

(** The body of a successful analysis, without its [id] (a rendering of
    [Date.now()]); [project_data] is [None] where the body carries [{}]. *)
Record AnalysisResponse := {
  project_id : string;
  is_valid : bool;
  stage_detected : string;
  progress_detected : Q;
  confidence_score : Q;
  insights : list string;
  project_data : option ProjectData.t;
  created_at : string;
}.

Record ForecastPoint := {
  x : Q;
  progress : Q;
  budget : JS.value;
}.

(** [`${daysTo100} days from latest analysis`] or ['Unable to estimate']. *)
Inductive CompletionEstimate :=
| DaysFromLatest (days : Z)
| UnableToEstimate.

Record Forecast := {
  completion_date_estimate : CompletionEstimate;
  completion_confidence : string;
  final_budget_projection : JS.value;
  budget_overrun_risk : string;
  risk_level : string;
  recommendations : list string;
}.

(** [based_on] is the count that [`${history.length} historical analyses`]
    renders. *)
Record ForecastResponse := {
  forecast_project_id : string;
  forecast : Forecast;
  based_on : nat;
}.

(** [[...].filter(Boolean)] on entries that are a string or [null]. *)
Definition filter_Boolean (l : list (option string)) : list string :=
  omap (fun o => match o with
                 | Some s => if String.eqb s "" then None else Some s
                 | None => None
                 end) l.

Definition resourcing_advice : string :=
  "Project velocity is slowing. Consider increasing resources.".
Definition cost_control_advice : string :=
  "Budget overrun projected. Review cost controls.".
Definition stakeholder_review_advice : string :=
  "High risk detected. Schedule review meeting with stakeholders.".

(** [history.reverse().map((h, idx) => ({x: idx, progress, budget}))] *)
Definition forecast_data (history : list AnalysisHistoryDocument.t) : list ForecastPoint :=
  imap (fun idx h =>
          let snap := AnalysisHistoryDocument.snapshot h in
          {| x := inject_Z (Z.of_nat idx);
             progress := AnalysisSnapshot.progressPercentage snap;
             budget := JS.or_else (JS.get_opt (AnalysisSnapshot.financials snap) "budgetSpent")
                                  (JS.num 0) |})
       (rev history).

Definition sumX (data : list ForecastPoint) : Q :=
  fold_left (fun sum d => sum + x d) data 0.
Definition sumY (data : list ForecastPoint) : Q :=
  fold_left (fun sum d => sum + progress d) data 0.
Definition sumXY (data : list ForecastPoint) : Q :=
  fold_left (fun sum d => sum + x d * progress d) data 0.
Definition sumX2 (data : list ForecastPoint) : Q :=
  fold_left (fun sum d => sum + x d * x d) data 0.

Definition size (data : list ForecastPoint) : Q := inject_Z (Z.of_nat (length data)).

(** The divisor of the slope, [n * sumX2 - sumX * sumX]. *)
Definition slope_divisor (data : list ForecastPoint) : Q :=
  size data * sumX2 data - sumX data * sumX data.

Definition slope (data : list ForecastPoint) : Q :=
  (size data * sumXY data - sumX data * sumY data) / slope_divisor data.

Definition intercept (data : list ForecastPoint) : Q :=
  (sumY data - slope data * sumX data) / size data.

(** [slope > 0 ? (100 - intercept) / slope : null] *)
Definition stepsTo100 (data : list ForecastPoint) : option Q :=
  if JS.Qlt_bool 0 (slope data)
  then Some ((100 - intercept data) / slope data)
  else None.

(** [stepsTo100 !== null ? Math.ceil(stepsTo100 * 7) : null] *)
Definition daysTo100 (data : list ForecastPoint) : option Z :=
  match stepsTo100 data with
  | Some steps => Some (Qceiling (steps * 7))
  | None => None
  end.

(** [daysTo100 ? ... : ...]: [null] and [0] are both falsy. *)
Definition days_truthy (d : option Z) : bool :=
  match d with
  | Some z => negb (z =? 0)%Z
  | None => false
  end.

Definition point0 : ForecastPoint := {| x := 0; progress := 0; budget := JS.VUndefined |}.

(** [data[i]]; the handler reads indices below [data.length] only. *)
Definition at_index (data : list ForecastPoint) (i : nat) : ForecastPoint :=
  nth i data point0.

Definition recentVelocity (data : list ForecastPoint) : Q :=
  if (3 <=? length data)%nat
  then progress (at_index data (length data - 1)) - progress (at_index data (length data - 3))
  else 0.

Definition riskLevel (data : list ForecastPoint) : string :=
  if JS.Qlt_bool (recentVelocity data) 5 then "high"
  else if JS.Qlt_bool (recentVelocity data) 10 then "medium"
  else "low".

Section WithRuntime.
Context `{JS.Runtime}.

Definition projectedFinalBudget (data : list ForecastPoint) : JS.value :=
  let currentBudget := budget (at_index data (length data - 1)) in
  let currentProgress := progress (at_index data (length data - 1)) in
  if JS.Qlt_bool 0 currentProgress
  then JS.mul (JS.div currentBudget (JS.num currentProgress)) (JS.num 100)
  else JS.num 0.

Definition build_forecast (data : list ForecastPoint) : Forecast :=
  let currentBudget := budget (at_index data (length data - 1)) in
  let currentProgress := progress (at_index data (length data - 1)) in
  {| completion_date_estimate :=
       (if days_truthy (daysTo100 data)
        then match daysTo100 data with
             | Some d => DaysFromLatest d
             | None => UnableToEstimate
             end
        else UnableToEstimate);
     completion_confidence :=
       (if days_truthy (daysTo100 data)
        then (if JS.Qlt_bool (5 # 10) (slope data) then "high"
              else if JS.Qlt_bool (2 # 10) (slope data) then "medium"
              else "low")
        else "insufficient data");
     final_budget_projection := JS.toFixed 2 (projectedFinalBudget data);
     budget_overrun_risk :=
       (if JS.Qlt_bool 0 currentProgress
           && JS.gt (JS.div currentBudget (JS.num currentProgress)) (JS.num 1)
        then "Yes" else "No");
     risk_level := riskLevel data;
     recommendations :=
       filter_Boolean [
         (if JS.Qlt_bool (recentVelocity data) 5 then Some resourcing_advice else None);
         (if JS.gt (projectedFinalBudget data) (JS.num 110)
          then Some cost_control_advice else None);
         (if String.eqb (riskLevel data) "high"
          then Some stakeholder_review_advice else None)] |}.

(** The handler of [GET /:projectId/forecast], after [requireAuth] has set
    [request.userId]. *)
Definition forecast_handler (db : option MongoDB.Db) (projectId : string)
    (userId : option string) : Response ForecastResponse :=
  match MongoDB.getProject db projectId with
  | None => Sent 404 "Project not found"
  | Some project =>
      if negb (bool_decide (Some (ProjectDocument.user_id project) = userId))
      then Sent 404 "Project not found"
      else
        (* Get recent history (last 10 analyses) *)
        let history := MongoDB.getAnalysisHistory db projectId 10 in
        if (length history <? 2)%nat
        then Sent 400 "Insufficient data for forecasting. Need at least 2 analyses."
        else
          Returned {| forecast_project_id := projectId;
                      forecast := build_forecast (forecast_data history);
                      based_on := length history |}
  end.

(** [GET /:projectId/forecast] with its [requireAuth] pre-handler. *)
Definition forecast_endpoint (decodeToken : string -> option Auth.TokenPayload)
    (db : option MongoDB.Db) (projectId : string) (request : Auth.Request)
    : Response ForecastResponse :=
  match Auth.requireAuth decodeToken db request with
  | (Some sent, _) => Sent (Auth.status sent) (Auth.detail sent)
  | (None, request') => forecast_handler db projectId (Auth.userId request')
  end.

(** [if (analysisResult.error)]: the adapter reports a failure by a
    non-empty [error] string. *)
Definition adapter_failed (analysisResult : AIAnalysisResult.t) : bool :=
  match AIAnalysisResult.error analysisResult with
  | Some msg => negb (String.eqb msg "")
  | None => false
  end.

Definition error_detail (analysisResult : AIAnalysisResult.t) : string :=
  match AIAnalysisResult.error analysisResult with
  | Some msg => msg
  | None => ""
  end.

(** The [deltas] of the analyze handler, from the result of the analysis
    and the latest history entry of the project. *)
Definition analysis_deltas (analysisResult : AIAnalysisResult.t)
    (previousAnalysis : option AnalysisHistoryDocument.t) : option AnalysisDelta.t :=
  match previousAnalysis with
  | None => None
  | Some previous =>
      let prev := AnalysisHistoryDocument.snapshot previous in
      let data := AIAnalysisResult.project_data analysisResult in
      let newBudgetSpent :=
        JS.get_opt (ProjectData.field data ProjectData.financials) "budgetSpent" in
      let newTotal :=
        JS.get_opt (ProjectData.field data ProjectData.manpower) "total" in
      let newSafetyScore :=
        JS.get_opt (ProjectData.field data ProjectData.manpower) "safetyScore" in
      Some {|
        AnalysisDelta.progress :=
          JS.num (AIAnalysisResult.progressPercentage analysisResult
                  - JS.num_or (AnalysisSnapshot.progressPercentage prev) 0);
        AnalysisDelta.budget_spent :=
          (if JS.truthy newBudgetSpent
           then JS.sub newBudgetSpent
                  (JS.or_else (JS.get_opt (AnalysisSnapshot.financials prev) "budgetSpent")
                              (JS.num 0))
           else JS.VUndefined);
        AnalysisDelta.workers :=
          (if JS.truthy newTotal
           then JS.sub newTotal
                  (JS.or_else (JS.get_opt (AnalysisSnapshot.manpower prev) "total")
                              (JS.num 0))
           else JS.VUndefined);
        AnalysisDelta.safety_score :=
          (if JS.truthy newSafetyScore
           then JS.sub newSafetyScore
                  (JS.or_else (JS.get_opt (AnalysisSnapshot.manpower prev) "safetyScore")
                              (JS.num 0))
           else JS.VUndefined);
        AnalysisDelta.delays :=
          JS.num (AIAnalysisResult.delaysFlagged analysisResult
                  - JS.num_or (AnalysisSnapshot.delaysFlagged prev) 0);
      |}
  end.

Definition analysis_snapshot (analysisResult : AIAnalysisResult.t) : AnalysisSnapshot.t :=
  let data := AIAnalysisResult.project_data analysisResult in
  {| AnalysisSnapshot.stage := AIAnalysisResult.stage analysisResult;
     AnalysisSnapshot.progressPercentage := AIAnalysisResult.progressPercentage analysisResult;
     AnalysisSnapshot.timeRemaining := AIAnalysisResult.timeRemaining analysisResult;
     AnalysisSnapshot.criticalPath := AIAnalysisResult.criticalPath analysisResult;
     AnalysisSnapshot.delaysFlagged := AIAnalysisResult.delaysFlagged analysisResult;
     AnalysisSnapshot.confidence_score := AIAnalysisResult.confidence_score analysisResult;
     AnalysisSnapshot.insights := AIAnalysisResult.insights analysisResult;
     AnalysisSnapshot.manpower := ProjectData.field data ProjectData.manpower;
     AnalysisSnapshot.machinery := ProjectData.field data ProjectData.machinery;
     AnalysisSnapshot.financials := ProjectData.field data ProjectData.financials;
     AnalysisSnapshot.project_data := data |}.

(** The handler of [POST /:projectId/analyze], after [checkScanLimit] has
    let the request through.  [analysisResult] is what
    [aiService.analyzeImage] resolved to for this request; the handler and
    the store operations it calls read the clock at the one instant [now]. *)
Definition analyze_handler (now : JS.Date) (analysisResult : AIAnalysisResult.t)
    (projectId : string) (userId : option string) (db : option MongoDB.Db)
    : Response AnalysisResponse * option MongoDB.Db :=
  match MongoDB.getProject db projectId, userId with
  | Some project, Some uid =>
      if negb (String.eqb (ProjectDocument.user_id project) uid)
      then (Sent 404 "Project not found", db)
      else
        (* Check if there was an error *)
        if adapter_failed analysisResult
        then (Sent 400 (error_detail analysisResult), db)
        else
          let analysisData :=
            {| AnalysisData.created_at := now;
               AnalysisData.stage := AIAnalysisResult.stage analysisResult;
               AnalysisData.progressPercentage :=
                 AIAnalysisResult.progressPercentage analysisResult;
               AnalysisData.confidence_score :=
                 AIAnalysisResult.confidence_score analysisResult;
               AnalysisData.insights := AIAnalysisResult.insights analysisResult;
               AnalysisData.project_data := AIAnalysisResult.project_data analysisResult;
               AnalysisData.raw_response := AIAnalysisResult.raw_response analysisResult;
               AnalysisData.is_valid := true |} in
          (* Add analysis to project *)
          let db1 := snd (MongoDB.addAnalysis now projectId analysisData db) in
          (* Update project with latest analysis data *)
          let db2 :=
            match AIAnalysisResult.project_data analysisResult with
            | Some data => snd (MongoDB.updateProject now projectId data db1)
            | None => db1
            end in
          (* Increment scan count only for successful analysis *)
          let db3 := snd (MongoDB.incrementScanUsage now uid db2) in
          (* Store analysis in history for trend tracking *)
          let previousAnalysis := MongoDB.getLatestAnalysis db3 projectId in
          let deltas := analysis_deltas analysisResult previousAnalysis in
          let snapshot := analysis_snapshot analysisResult in
          let db4 :=
            snd (MongoDB.createAnalysisHistory now projectId uid snapshot deltas db3) in
          (Returned {| project_id := projectId;
                       is_valid := true;
                       stage_detected := AIAnalysisResult.stage analysisResult;
                       progress_detected :=
                         AIAnalysisResult.progressPercentage analysisResult;
                       confidence_score :=
                         AIAnalysisResult.confidence_score analysisResult;
                       insights := AIAnalysisResult.insights analysisResult;
                       project_data := AIAnalysisResult.project_data analysisResult;
                       created_at := JS.toISOString now |},
           db4)
  | _, _ => (Sent 404 "Project not found", db)
  end.

(** [POST /:projectId/analyze] with its [checkScanLimit] pre-handler. *)
Definition analyze_endpoint (decodeToken : string -> option Auth.TokenPayload)
    (now : JS.Date) (analysisResult : AIAnalysisResult.t) (projectId : string)
    (request : Auth.Request) (db : option MongoDB.Db)
    : Response AnalysisResponse * option MongoDB.Db :=
  match Auth.checkScanLimit decodeToken now db request with
  | (Some sent, _) => (Sent (Auth.status sent) (Auth.detail sent), db)
  | (None, request') =>
      analyze_handler now analysisResult projectId (Auth.userId request') db
  end.

End WithRuntime.
(** *** The other project routes

    Each handler runs after [requireAuth] has set [request.userId].  A
    query parameter is the number the schema made of its text. *)

(** A reply sent with an explicit status: an error with its detail
    message, or a success with its body. *)
Inductive SentReply (A : Type) :=
| Failed (status : Z) (detail : string)
| Succeeded (status : Z) (body : A).
Arguments Failed {A} status detail.
Arguments Succeeded {A} status body.

Module ProjectResponse.
Record t := {
  id : string;
  name : string;
  description : string;
  location : string;
  mode : string;
  status : string;
  created_at : string;
  updated_at : string;
}.
End ProjectResponse.

(** Convert MongoDB project document to response format *)
Definition projectToResponse (project : ProjectDocument.t) : ProjectResponse.t :=
  {| ProjectResponse.id := ProjectDocument._id project;
     ProjectResponse.name := ProjectDocument.name project;
     ProjectResponse.description := JS.str_or (ProjectDocument.description project) "";
     ProjectResponse.location := JS.str_or (ProjectDocument.location project) "";
     ProjectResponse.mode := ProjectDocument.mode project;
     ProjectResponse.status := JS.str_or (ProjectDocument.status project) "active";
     ProjectResponse.created_at := JS.toISOString (ProjectDocument.created_at project);
     ProjectResponse.updated_at := JS.toISOString (ProjectDocument.updated_at project) |}.

Module ProjectListResponse.
Record t := {
  projects : list ProjectResponse.t;
  total : nat;
  page : nat;
  per_page : nat;
}.
End ProjectListResponse.

(** [GET /api/projects], for a page number and a page size that are
    positive integers. *)
Definition list_handler (db : option MongoDB.Db) (userId : string) (page per_page : nat)
    : ProjectListResponse.t :=
  let offset := ((page - 1) * per_page)%nat in
  (* Get total count *)
  let total := MongoDB.countUserProjects db userId in
  (* Get paginated projects *)
  let projects := MongoDB.getUserProjects db userId offset per_page in
  {| ProjectListResponse.projects := projectToResponse <$> projects;
     ProjectListResponse.total := total;
     ProjectListResponse.page := page;
     ProjectListResponse.per_page := per_page |}.

(** [POST /api/projects]; [subscription] is [request.subscription]. *)
Definition create_handler (now : JS.Date) (insertedId : string) (userId : string)
    (subscription : UserSubscription.t) (name description location mode : string)
    (db : option MongoDB.Db) : SentReply ProjectResponse.t * option MongoDB.Db :=
  (* Check project limit *)
  let projectCount := MongoDB.countUserProjects db userId in
  let maxProjects := JS.int_or (UserSubscription.max_projects subscription) 1 in
  if (maxProjects <=? Z.of_nat projectCount)%Z
  then (Failed 403 ("Project limit reached. Your plan allows "
                    ++ pretty maxProjects ++ " projects."), db)
  else
    let '(created, db1) :=
      MongoDB.createProject now insertedId userId name description location mode db in
    match created with
    | None => (Failed 500 "Failed to create project", db1)
    | Some projectId =>
        if String.eqb projectId "" then (Failed 500 "Failed to create project", db1)
        else
          match MongoDB.getProject db1 projectId with
          | None => (Failed 500 "Failed to retrieve created project", db1)
          | Some project => (Succeeded 201 (projectToResponse project), db1)
          end
    end.

(** [!project || project.user_id.toString() !== userId] *)
Definition not_found (project : option ProjectDocument.t) (userId : string) : bool :=
  match project with
  | None => true
  | Some p => negb (String.eqb (ProjectDocument.user_id p) userId)
  end.

(** [GET /api/projects/:projectId] *)
Definition get_handler (db : option MongoDB.Db) (projectId userId : string)
    : Response ProjectResponse.t :=
  let project := MongoDB.getProject db projectId in
  if not_found project userId then Sent 404 "Project not found"
  else
    match project with
    | Some p => Returned (projectToResponse p)
    | None => Sent 404 "Project not found"
    end.

(** [DELETE /api/projects/:projectId]; the success reply is 204 with no
    body. *)
Definition delete_handler (db : option MongoDB.Db) (projectId userId : string)
    : SentReply unit * option MongoDB.Db :=
  let project := MongoDB.getProject db projectId in
  if not_found project userId then (Failed 404 "Project not found", db)
  else
    let '(deleted, db1) := MongoDB.deleteProject projectId db in
    if negb deleted then (Failed 500 "Failed to delete project", db1)
    else (Succeeded 204 tt, db1).

(** An item of the analyses route; [project_data] is [None] for the empty
    object of [analysis.project_data || {}]. *)
Module AnalysisItem.
Record t := {
  id : string;
  project_id : string;
  is_valid : bool;
  stage_detected : option string;
  progress_detected : option Q;
  confidence_score : option Q;
  insights : list string;
  project_data : option ProjectData.t;
  created_at : string;
}.
End AnalysisItem.

(** [s || null] and [x || null] *)
Definition str_or_null (s : string) : option string :=
  if String.eqb s "" then None else Some s.
Definition num_or_null (q : Q) : option Q :=
  if Qeq_bool q 0 then None else Some q.

(** [GET /api/projects/:projectId/analyses]: the analyses of the project
    document, in the order they were pushed. *)
Definition analyses_handler (now : JS.Date) (db : option MongoDB.Db)
    (projectId userId : string) (limit : JS.number) : Response (list AnalysisItem.t) :=
  let project := MongoDB.getProject db projectId in
  if not_found project userId then Sent 404 "Project not found"
  else
    match project with
    | Some p =>
        Returned
          (imap (fun index analysis =>
                   {| AnalysisItem.id := "analysis-" ++ pretty index;
                      AnalysisItem.project_id := projectId;
                      AnalysisItem.is_valid := AnalysisData.is_valid analysis;
                      AnalysisItem.stage_detected := str_or_null (AnalysisData.stage analysis);
                      AnalysisItem.progress_detected :=
                        num_or_null (AnalysisData.progressPercentage analysis);
                      AnalysisItem.confidence_score :=
                        num_or_null (AnalysisData.confidence_score analysis);
                      AnalysisItem.insights := AnalysisData.insights analysis;
                      AnalysisItem.project_data := AnalysisData.project_data analysis;
                      AnalysisItem.created_at :=
                        JS.str_or (JS.toISOString (AnalysisData.created_at analysis))
                                  (JS.toISOString now) |})
                (JS.slice_to limit (ProjectDocument.analyses p)))
    | None => Sent 404 "Project not found"
    end.

(** A point of the time series of the trends route.  [date] is the Date
    whose ISO text the response carries; [new Date(t.date)] reads the same
    instant back from that text. *)
Module TrendPoint.
Record t := {
  date : JS.Date;
  progress : Q;
  stage : string;
  budget_spent : JS.value;
  budget_total : JS.value;
  workers : JS.value;
  safety_score : JS.value;
  productivity : JS.value;
  delays : Q;
  confidence : Q;
  deltas : option AnalysisDelta.t;
}.

Definition deltas_object (d : option AnalysisDelta.t) : JS.value :=
  match d with
  | Some d =>
      JS.VObj [("progress", AnalysisDelta.progress d);
               ("budget_spent", AnalysisDelta.budget_spent d);
               ("workers", AnalysisDelta.workers d);
               ("safety_score", AnalysisDelta.safety_score d);
               ("delays", AnalysisDelta.delays d)]
  | None => JS.VObj []
  end.

(** The keys of the object literal, for [t[key]]. *)
Definition entries (t : t) : list (string * JS.value) :=
  [("date", JS.VStr (JS.toISOString (date t)));
   ("progress", JS.num (progress t));
   ("stage", JS.VStr (stage t));
   ("budget_spent", budget_spent t);
   ("budget_total", budget_total t);
   ("workers", workers t);
   ("safety_score", safety_score t);
   ("productivity", productivity t);
   ("delays", JS.num (delays t));
   ("confidence", JS.num (confidence t));
   ("deltas", deltas_object (deltas t))].
End TrendPoint.

(** [trends] of the response: the points themselves for the metric
    ['all'], else [{ date, [metric]: t[metric] }] for each point. *)
Inductive TrendSeries :=
| AllMetrics (points : list TrendPoint.t)
| OneMetric (metric : string) (points : list (string * JS.value)).

Inductive TrendsResponse :=
| NoTrends (project_id : string)
| Trends (project_id : string) (data_points : nat) (velocity : JS.number)
    (trends : TrendSeries).

Definition trend_point (analysis : AnalysisHistoryDocument.t) : TrendPoint.t :=
  let snapshot := AnalysisHistoryDocument.snapshot analysis in
  {| TrendPoint.date := AnalysisHistoryDocument.analysis_date analysis;
     TrendPoint.progress := AnalysisSnapshot.progressPercentage snapshot;
     TrendPoint.stage := AnalysisSnapshot.stage snapshot;
     TrendPoint.budget_spent :=
       JS.or_else (JS.get_opt (AnalysisSnapshot.financials snapshot) "budgetSpent") (JS.num 0);
     TrendPoint.budget_total :=
       JS.or_else (JS.get_opt (AnalysisSnapshot.financials snapshot) "budgetTotal") (JS.num 0);
     TrendPoint.workers :=
       JS.or_else (JS.get_opt (AnalysisSnapshot.manpower snapshot) "total") (JS.num 0);
     TrendPoint.safety_score :=
       JS.or_else (JS.get_opt (AnalysisSnapshot.manpower snapshot) "safetyScore") (JS.num 0);
     TrendPoint.productivity :=
       JS.or_else (JS.get_opt (AnalysisSnapshot.manpower snapshot) "productivityIndex")
                  (JS.num 0);
     TrendPoint.delays := JS.num_or (AnalysisSnapshot.delaysFlagged snapshot) 0;
     TrendPoint.confidence := AnalysisSnapshot.confidence_score snapshot;
     TrendPoint.deltas := AnalysisHistoryDocument.deltas analysis |}.

(** Calculate velocity (progress per day) *)
Definition velocity (trends : list TrendPoint.t) : Q :=
  if (2 <=? length trends)%nat
  then
    match head trends, last trends with
    | Some first, Some last =>
        let daysDiff :=
          (inject_Z (JS.getTime (TrendPoint.date last))
           - inject_Z (JS.getTime (TrendPoint.date first)))
          / (1000 * 60 * 60 * 24) in
        let progressDiff := TrendPoint.progress last - TrendPoint.progress first in
        if JS.Qlt_bool 0 daysDiff then progressDiff / daysDiff else 0
    | _, _ => 0
    end
  else 0.

(** [GET /api/projects/:projectId/trends], for a limit that is a positive
    integer and a metric of the schema's enumeration. *)
Definition trends_handler (db : option MongoDB.Db) (projectId userId : string)
    (metric : string) (limit : nat) : Response TrendsResponse :=
  let project := MongoDB.getProject db projectId in
  if not_found project userId then Sent 404 "Project not found"
  else
    (* Get analysis history *)
    let history := MongoDB.getAnalysisHistory db projectId limit in
    if (length history =? 0)%nat then Returned (NoTrends projectId)
    else
      (* Build time-series data *)
      let trends := trend_point <$> rev history in
      Returned
        (Trends projectId (length trends) (JS.num_toFixed 2 (JS.Fin (velocity trends)))
           (if String.eqb metric "all" then AllMetrics trends
            else OneMetric metric
                   ((fun t => (JS.toISOString (TrendPoint.date t),
                               JS.lookup_field metric (TrendPoint.entries t))) <$> trends))).

Section DataRoute.
Context `{JS.Runtime}.

(** [GET /api/projects/:projectId/data]; an exception of the handler is
    answered by the server's error handler. *)
Definition data_handler (now : JS.Date) (db : option MongoDB.Db) (projectId userId : string)
    : Response ProjectData.t :=
  let project := MongoDB.getProject db projectId in
  if not_found project userId then Sent 404 "Project not found"
  else
    match project with
    | Some p =>
        match ProjectDocument.project_data p with
        | Some data => Returned data (* If we have latest analysis data, return it *)
        | None =>
            (* Otherwise return default/empty data *)
            match AIService.getDefaultProjectData now p with
            | JS.Ok data => Returned data
            | JS.Throw _ => Sent 500 "Internal server error"
            end
        end
    | None => Sent 404 "Project not found"
    end.

End DataRoute.

End ProjectRoutes.

(** ** The connection (mongodb.ts, [connectMongoDB])

    JavaScript runs a call up to its next [await] without interruption; at
    an [await] other calls may run.  A call of [connectMongoDB] is modelled
    by the [await] it is suspended at, and the four module-level variables
    are shared by all calls.  A client is named by the number of the
    attempt that created it; the constructor [new MongoClient] is taken
    to return one. *)

Module Connection.

Record Globals := {
  cachedClient : option nat;
  cachedDb : option nat;
  client : option nat;
  db : option nat;
}.

Inductive Call :=
| PingCached            (* await cachedDb.command({ ping: 1 }) *)
| Connecting (c : nat)  (* await newClient.connect() *)
| PingNew (c : nat)     (* await newDb.command({ ping: 1 }) *)
| Done.

Record System := {
  globals : Globals;
  attempts : nat;       (* clients created so far *)
  calls : list Call;
}.

Definition cleared : Globals :=
  {| cachedClient := None; cachedDb := None; client := None; db := None |}.

Definition drop_cache (g : Globals) : Globals :=
  {| cachedClient := None; cachedDb := None; client := client g; db := db g |}.

Definition use_cache (g : Globals) : Globals :=
  {| cachedClient := cachedClient g; cachedDb := cachedDb g;
     client := cachedClient g; db := cachedDb g |}.

Definition connected (c : nat) : Globals :=
  {| cachedClient := Some c; cachedDb := Some c; client := Some c; db := Some c |}.

(** [isMongoConnected]: [db !== null] *)
Definition isMongoConnected (g : Globals) : bool :=
  match db g with
  | Some _ => true
  | None => false
  end.

Section WithConfig.
Variable MONGODB_URI : option string.

Definition configured : bool :=
  match MONGODB_URI with
  | Some uri => negb (String.eqb uri "")
  | None => false
  end.

(** From the start of a call to its first [await]. *)
Definition enter (g : Globals) (n : nat) : Globals * nat * Call :=
  if negb configured then (g, n, Done)
  else
    match cachedClient g, cachedDb g with
    | Some _, Some _ => (g, n, PingCached)
    | _, _ => (g, S n, Connecting n)
    end.

(** From an [await] that resolved ([ok]) or rejected, to the next one. *)
Definition resume (ok : bool) (g : Globals) (n : nat) (c : Call)
    : Globals * nat * Call :=
  match c with
  | PingCached =>
      if ok then (use_cache g, n, Done)
      else (drop_cache g, S n, Connecting n)
  | Connecting c => if ok then (g, n, PingNew c) else (cleared, n, Done)
  | PingNew c => if ok then (connected c, n, Done) else (cleared, n, Done)
  | Done => (g, n, Done)
  end.

Definition awaiting (c : Call) : bool :=
  match c with
  | Done => false
  | _ => true
  end.

(** A connection attempt is in flight from [new MongoClient] to the end of
    the [try] block. *)
Definition attempting (c : Call) : bool :=
  match c with
  | Connecting _ | PingNew _ => true
  | _ => false
  end.

Definition in_flight (s : System) : nat := length (filter (fun c => attempting c = true) (calls s)).
Definition pending (s : System) : nat := length (filter (fun c => awaiting c = true) (calls s)).

Definition after_enter (s : System) : System :=
  let '(g, n, c) := enter (globals s) (attempts s) in
  {| globals := g; attempts := n; calls := calls s ++ [c] |}.

Definition after_resume (s : System) (i : nat) (c : Call) (ok : bool) : System :=
  let '(g, n, c') := resume ok (globals s) (attempts s) c in
  {| globals := g; attempts := n; calls := <[i := c']> (calls s) |}.

(** Requests may call [connectMongoDB] at any time. *)
Inductive step : System -> System -> Prop :=
| step_enter s : step s (after_enter s)
| step_resume s i c ok :
    calls s !! i = Some c -> awaiting c = true -> step s (after_resume s i c ok).


Definition cold : System := {| globals := cleared; attempts := 0; calls := [] |}.

End WithConfig.
End Connection.

(** ** The serverless entry point (server.ts): connect on first request

    The [onRequest] hook calls [connectMongoDB] when the store is not
    connected and no attempt is pending, keeps the promise of that call in
    [connectionPromise], and awaits it in every request that arrives
    meanwhile.  The promise is named by the position of its call in the
    list of calls.  The callback of [finally] runs in the microtask that
    follows the end of the call, before another request can run: the
    model runs it in the step in which the call ends. *)

Module Server.

Record State := {
  system : Connection.System;
  connectionPromise : option nat;
}.

(** [() => { if (!isMongoConnected()) connectionPromise = null }] *)
Definition on_finally (g : Connection.Globals) (connectionPromise : option nat)
    : option nat :=
  if negb (Connection.isMongoConnected g) then None else connectionPromise.

(** [finally] after a step of the call at position [i]: the callback runs
    once that call has ended. *)
Definition settle (s : Connection.System) (i : nat) (connectionPromise : option nat)
    : option nat :=
  match Connection.calls s !! i with
  | Some Connection.Done => on_finally (Connection.globals s) connectionPromise
  | _ => connectionPromise
  end.

Section WithConfig.
Variable MONGODB_URI : option string.

(** The hook from its start to its [await] (or to its end, when the store
    is connected). *)
Definition onRequest (st : State) : State :=
  if negb (Connection.isMongoConnected (Connection.globals (system st)))
  then
    match connectionPromise st with
    | None =>
        let i := length (Connection.calls (system st)) in
        let s := Connection.after_enter MONGODB_URI (system st) in
        {| system := s; connectionPromise := settle s i (Some i) |}
    | Some _ => st
    end
  else st.

(** A call of [connectMongoDB] goes on from the [await] it is suspended
    at. *)
Definition onResume (st : State) (i : nat) (c : Connection.Call) (ok : bool) : State :=
  let s := Connection.after_resume (system st) i c ok in
  {| system := s; connectionPromise := settle s i (connectionPromise st) |}.

Inductive step : State -> State -> Prop :=
| step_request st : step st (onRequest st)
| step_resume st i c ok :
    Connection.calls (system st) !! i = Some c -> Connection.awaiting c = true ->
    step st (onResume st i c ok).

Definition cold : State := {| system := Connection.cold; connectionPromise := None |}.

End WithConfig.
End Server.

(** * Concrete data and the predicates the properties are stated with *)

(** The runtime the closed examples are evaluated under.  It agrees with
    JavaScript on a string that is no numeric literal and on a plain
    object (both convert to NaN); the examples coerce nothing else and
    never add a string, an array or an object. *)
#[local] Instance example_runtime : JS.Runtime :=
  {| JS.StringToNumber := fun _ => JS.NaN;
     JS.ObjectToNumber := fun _ => JS.NaN;
     JS.Concat := fun _ _ => JS.VUndefined |}.

Definition example_date (t : Z) : JS.Date :=
  {| JS.getTime := t; JS.toISOString := "2026-11-01T00:00:00.000Z"; JS.getFullYear := "2026" |}.

(** The budget example of the specification: a total of 5,000,000 of which
    45 percent is spent, with a cost overrun of [overrun] percent. *)
Definition budget_raw (overrun : Q) : JS.value :=
  JS.VObj [("financials",
            JS.VObj [("budgetTotal", JS.num 5000000);
                     ("budgetSpent", JS.num 45);
                     ("costOverrun", JS.num overrun)])].

(** The project data [buildProjectData] returns, or [None] when it throws. *)
Definition built (r : JS.result ProjectData.t) : option ProjectData.t :=
  match r with
  | JS.Ok pd => Some pd
  | JS.Throw _ => None
  end.

(** [financials.k] of the normalized record of [raw]. *)
Definition financial_field (raw : JS.value) (k : string) : JS.value :=
  match built (AIService.buildProjectData (example_date 0) raw None) with
  | Some pd => JS.get (ProjectData.financials pd) k
  | None => JS.VUndefined
  end.

(** ** The shape of the normalizer's input and output

    [Schema.raw_analysis] holds of an object whose present fields have the
    types the casts of [buildProjectData] name: a number where it casts to
    [number], a string where it casts to [string], an object for each
    sub-record, and an array of named entries for [materials]. *)

Module Schema.

Definition is_number (v : JS.value) : bool :=
  match v with
  | JS.VNum (JS.Fin _) => true
  | _ => false
  end.

Definition is_string (v : JS.value) : bool :=
  match v with
  | JS.VStr _ => true
  | _ => false
  end.

Definition opt_number (v : JS.value) : bool := JS.nullish v || is_number v.
Definition opt_string (v : JS.value) : bool := JS.nullish v || is_string v.

Definition numbers_at (keys : list string) (o : JS.value) : bool :=
  forallb (fun k => opt_number (JS.get o k)) keys.

Definition strings_at (keys : list string) (o : JS.value) : bool :=
  forallb (fun k => opt_string (JS.get o k)) keys.

Definition opt_object (fields_ok : JS.value -> bool) (v : JS.value) : bool :=
  match v with
  | JS.VUndefined | JS.VNull => true
  | JS.VObj _ => fields_ok v
  | _ => false
  end.

Definition opt_array (entry_ok : JS.value -> bool) (v : JS.value) : bool :=
  match v with
  | JS.VUndefined | JS.VNull => true
  | JS.VArr elems => forallb entry_ok elems
  | _ => false
  end.

Definition material (m : JS.value) : bool :=
  match m with
  | JS.VObj _ => is_string (JS.get m "name") && opt_number (JS.get m "used")
  | _ => false
  end.

Definition raw_analysis (raw : JS.value) : bool :=
  match raw with
  | JS.VObj _ =>
      numbers_at ["progressPercentage"; "delaysFlagged"] raw
      && strings_at ["stage"; "timeRemaining"; "criticalPath"] raw
      && opt_object
           (numbers_at ["total"; "skilled"; "unskilled"; "productivityIndex"; "safetyScore"])
           (JS.get raw "manpower")
      && opt_object (numbers_at ["utilization"; "activeUnits"; "maintenanceAlerts"])
           (JS.get raw "machinery")
      && opt_array material (JS.get raw "materials")
      && opt_object (numbers_at ["budgetTotal"; "budgetSpent"; "costOverrun"])
           (JS.get raw "financials")
      && opt_object (numbers_at ["current"; "landValue"; "projectedCompletedValue"])
           (JS.get raw "valuation")
      && opt_object
           (fun o => numbers_at ["structuralScore"] o && strings_at ["sustainabilityRating"] o)
           (JS.get raw "compliance")
      && opt_object
           (fun o => numbers_at ["climateScore"] o && strings_at ["soilType"; "floodRisk"] o)
           (JS.get raw "geo")
      && opt_array is_string (JS.get raw "insights")
  | _ => false
  end.

(** The output: every field of the record is defined and has its type. *)

Definition all_numbers (keys : list string) (o : JS.value) : bool :=
  forallb (fun k => is_number (JS.get o k)) keys.

Definition all_strings (keys : list string) (o : JS.value) : bool :=
  forallb (fun k => is_string (JS.get o k)) keys.

Definition array_of (entry_ok : JS.value -> bool) (v : JS.value) : bool :=
  match v with
  | JS.VArr elems => forallb entry_ok elems
  | _ => false
  end.

Definition fully_shaped (pd : ProjectData.t) : bool :=
  is_string (ProjectData.stage pd)
  && is_number (ProjectData.progressPercentage pd)
  && is_string (ProjectData.timeRemaining pd)
  && is_string (ProjectData.criticalPath pd)
  && is_number (ProjectData.delaysFlagged pd)
  && is_number (ProjectData.burnRate pd)
  && all_numbers ["total"; "skilled"; "unskilled"; "productivityIndex"; "safetyScore";
                  "idleWorkers"] (ProjectData.manpower pd)
  && array_of (fun e => all_strings ["name"] e && all_numbers ["count"] e)
       (JS.get (ProjectData.manpower pd) "skillDistribution")
  && all_numbers ["utilization"; "activeUnits"; "maintenanceAlerts"; "fuelConsumption";
                  "efficiencyRatio"] (ProjectData.machinery pd)
  && array_of material (ProjectData.materials pd)
  && all_numbers ["budgetTotal"; "budgetSpent"; "budgetRemaining"; "costOverrun";
                  "projectedFinalCost"; "roiProjection"] (ProjectData.financials pd)
  && all_strings ["cashFlowHealth"] (ProjectData.financials pd)
  && JS.is_array (JS.get (ProjectData.financials pd) "monthlyCashFlow")
  && all_numbers ["current"; "landValue"; "projectedCompletedValue";
                  "appreciationForecast"; "rentalYield"] (ProjectData.valuation pd)
  && JS.is_array (JS.get (ProjectData.valuation pd) "nearbyTransactions")
  && all_numbers ["structuralScore"; "fsiUsed"; "codeViolations"] (ProjectData.compliance pd)
  && all_strings ["sustainabilityRating"; "embodiedCarbon"] (ProjectData.compliance pd)
  && all_strings ["soilType"; "floodRisk"; "seismicZone"; "groundwaterLevel"; "windLoad"]
       (ProjectData.geo pd)
  && all_numbers ["climateScore"] (ProjectData.geo pd)
  && array_of (fun e => all_strings ["name"] e && all_numbers ["actual"; "projected"] e)
       (JS.get (ProjectData.charts pd) "progressOverTime")
  && array_of (fun e => all_strings ["year"] e && all_numbers ["value"] e)
       (JS.get (ProjectData.charts pd) "valuationGrowth")
  && array_of (fun e => all_strings ["name"] e && all_numbers ["value"] e)
       (JS.get (ProjectData.charts pd) "budgetDistribution")
  && array_of is_string (ProjectData.insights pd).

(** The sub-record of the output that is built from the sub-record [o] of
    the input. *)
Definition sub_record (pd : ProjectData.t) (o : string) : JS.value :=
  if String.eqb o "manpower" then ProjectData.manpower pd
  else if String.eqb o "machinery" then ProjectData.machinery pd
  else if String.eqb o "financials" then ProjectData.financials pd
  else if String.eqb o "valuation" then ProjectData.valuation pd
  else if String.eqb o "compliance" then ProjectData.compliance pd
  else if String.eqb o "geo" then ProjectData.geo pd
  else JS.VUndefined.

(** The numeric fields the normalizer copies, as (sub-record, key). *)
Definition copied_numbers : list (string * string) :=
  [("manpower", "total"); ("manpower", "skilled"); ("manpower", "unskilled");
   ("manpower", "productivityIndex"); ("manpower", "safetyScore");
   ("machinery", "utilization"); ("machinery", "activeUnits");
   ("machinery", "maintenanceAlerts");
   ("financials", "budgetTotal"); ("financials", "costOverrun");
   ("valuation", "current"); ("valuation", "landValue");
   ("valuation", "projectedCompletedValue");
   ("compliance", "structuralScore"); ("geo", "climateScore")].

(** The string fields it copies, with the sentinel each defaults to. *)
Definition copied_strings : list (string * string * string) :=
  [("compliance", "sustainabilityRating", "N/A");
   ("geo", "soilType", "Unknown"); ("geo", "floodRisk", "Unknown")].

End Schema.

(** Two objects outside [Schema.raw_analysis]: a [materials] entry that is
    text, and a budget total that is text. *)
Definition text_materials_raw : JS.value :=
  JS.VObj [("materials", JS.VStr "steel")].

Definition text_budget_raw : JS.value :=
  JS.VObj [("financials", JS.VObj [("budgetTotal", JS.VStr "unknown");
                                   ("budgetSpent", JS.num 45)])].

(** ** A small world for the closed examples: one user, one project *)

Definition example_decodeToken (token : string) : option Auth.TokenPayload :=
  if String.eqb token "token-of-ann"
  then Some {| Auth.sub := "ann"; Auth.type := "access" |}
  else None.

Definition example_user (plan : string) (used limit : Z) : UserDocument.t :=
  {| UserDocument._id := "ann";
     UserDocument.email := "ann@example.org";
     UserDocument.role := "client";
     UserDocument.is_active := true;
     UserDocument.isActive := None;
     UserDocument.updated_at := example_date 0;
     UserDocument.subscription :=
       {| UserSubscription.plan := plan;
          UserSubscription.status := "active";
          UserSubscription.scans_used := used;
          UserSubscription.scans_limit := limit;
          UserSubscription.has_report_access := false;
          UserSubscription.has_api_access := false;
          UserSubscription.max_projects := 1;
          UserSubscription.started_at := example_date 0 |} |}.

Definition example_project (data : option ProjectData.t) : ProjectDocument.t :=
  {| ProjectDocument._id := "p1";
     ProjectDocument.user_id := "ann";
     ProjectDocument.name := "Tower";
     ProjectDocument.description := "";
     ProjectDocument.location := "Pune";
     ProjectDocument.mode := "under-construction";
     ProjectDocument.status := "active";
     ProjectDocument.created_at := example_date 0;
     ProjectDocument.updated_at := example_date 0;
     ProjectDocument.analyses := [];
     ProjectDocument.project_data := data |}.

Definition example_db (u : UserDocument.t) (p : ProjectDocument.t)
    (history : list AnalysisHistoryDocument.t) : option MongoDB.Db :=
  Some {| MongoDB.users := {[ "ann" := u ]};
          MongoDB.projects := {[ "p1" := p ]};
          MongoDB.analyses_history := history |}.

Definition example_request : Auth.Request :=
  {| Auth.authorization := Some "Bearer token-of-ann";
     Auth.userId := None;
     Auth.user := None;
     Auth.subscription := None |}.

Definition scan_limit_reached : Auth.Reply :=
  {| Auth.status := 403; Auth.detail := "Scan limit reached. Please upgrade your plan." |}.

(** [example_request] after [requireAuth] found the user [u]. *)
Definition example_authenticated (u : UserDocument.t) : Auth.Request :=
  {| Auth.authorization := Some "Bearer token-of-ann";
     Auth.userId := Some "ann";
     Auth.user := Some u;
     Auth.subscription := Some (UserDocument.subscription u) |}.

(** The record the normalizer stores for [raw] ([null] if it throws). *)
Definition normalized (raw : JS.value) : option ProjectData.t :=
  built (AIService.buildProjectData (example_date 0) raw None).

(** The project of the specification's independence example: safety score
    65, no delay flagged, progress 80. *)
Definition unsafe_on_schedule_raw : JS.value :=
  JS.VObj [("progressPercentage", JS.num 80);
           ("delaysFlagged", JS.num 0);
           ("manpower", JS.VObj [("safetyScore", JS.num 65)])].

Definition portfolio_db (raw : JS.value) : option MongoDB.Db :=
  example_db (example_user "free" 0 3) (example_project (normalized raw)) [].

(** A history entry of project p1 recorded at instant [t] with the given
    progress and stored project data. *)
Definition example_entry (t : Z) (progress : Q) (data : option ProjectData.t)
    : AnalysisHistoryDocument.t :=
  {| AnalysisHistoryDocument.project_id := "p1";
     AnalysisHistoryDocument.user_id := "ann";
     AnalysisHistoryDocument.analysis_date := example_date t;
     AnalysisHistoryDocument.snapshot :=
       {| AnalysisSnapshot.stage := "Framing";
          AnalysisSnapshot.progressPercentage := progress;
          AnalysisSnapshot.timeRemaining := "3 months";
          AnalysisSnapshot.criticalPath := None;
          AnalysisSnapshot.delaysFlagged := 0;
          AnalysisSnapshot.confidence_score := 75;
          AnalysisSnapshot.insights := [];
          AnalysisSnapshot.manpower := ProjectData.field data ProjectData.manpower;
          AnalysisSnapshot.machinery := ProjectData.field data ProjectData.machinery;
          AnalysisSnapshot.financials := ProjectData.field data ProjectData.financials;
          AnalysisSnapshot.project_data := data |};
     AnalysisHistoryDocument.deltas := None;
     AnalysisHistoryDocument.created_at := example_date t |}.

Definition history_db (history : list AnalysisHistoryDocument.t) : option MongoDB.Db :=
  example_db (example_user "pro" 0 (-1)) (example_project None) history.

(** Progress 10 then 30: the fitted line rises by 20 per analysis. *)
Definition rising_history : list AnalysisHistoryDocument.t :=
  [example_entry 1 10 None; example_entry 2 30 None].


(** Three analyses of the budget example (5,000,000 total, 2,250,000
    spent) at progress 40, 45 and 50. *)
Definition budget_history : list AnalysisHistoryDocument.t :=
  [example_entry 1 40 (normalized (budget_raw 0));
   example_entry 2 45 (normalized (budget_raw 0));
   example_entry 3 50 (normalized (budget_raw 0))].

(** The number of history entries stored for a project. *)
Definition history_count (db : option MongoDB.Db) (projectId : string) : nat :=
  match db with
  | Some d =>
      length (filter (fun h => AnalysisHistoryDocument.project_id h = projectId)
                (MongoDB.analyses_history d))
  | None => 0
  end.



(** ** The metrics of a delta record *)





(** The history collection of a store, and a user's scan counter. *)
Definition history_of (db : option MongoDB.Db) : list AnalysisHistoryDocument.t :=
  match db with
  | Some d => MongoDB.analyses_history d
  | None => []
  end.

Definition scans_used_of (db : option MongoDB.Db) (userId : string) : option Z :=
  match MongoDB.getUserById db userId with
  | Some u => Some (UserSubscription.scans_used (UserDocument.subscription u))
  | None => None
  end.

Definition analyses_of (db : option MongoDB.Db) (projectId : string)
    : option (list AnalysisData.t) :=
  match MongoDB.getProject db projectId with
  | Some p => Some (ProjectDocument.analyses p)
  | None => None
  end.

(** A successful analysis reporting the given progress, with the project
    data normalized from [raw]. *)
Definition example_result (progress : Q) (raw : JS.value) : AIAnalysisResult.t :=
  {| AIAnalysisResult.valid := true;
     AIAnalysisResult.stage := "Framing";
     AIAnalysisResult.progressPercentage := progress;
     AIAnalysisResult.timeRemaining := "3 months";
     AIAnalysisResult.criticalPath := None;
     AIAnalysisResult.delaysFlagged := 0;
     AIAnalysisResult.confidence_score := 75;
     AIAnalysisResult.insights := [];
     AIAnalysisResult.raw_response := raw;
     AIAnalysisResult.project_data := normalized raw;
     AIAnalysisResult.error := None |}.

(** The result [analyzeImage] returns when the model call fails. *)
Definition example_failure : AIAnalysisResult.t :=
  {| AIAnalysisResult.valid := false;
     AIAnalysisResult.stage := "Error";
     AIAnalysisResult.progressPercentage := 0;
     AIAnalysisResult.timeRemaining := "N/A";
     AIAnalysisResult.criticalPath := None;
     AIAnalysisResult.delaysFlagged := 0;
     AIAnalysisResult.confidence_score := 0;
     AIAnalysisResult.insights := [];
     AIAnalysisResult.raw_response := JS.VObj [];
     AIAnalysisResult.project_data := None;
     AIAnalysisResult.error := Some "AI analysis failed: Error: model unavailable" |}.

Definition crew_raw (total : Q) : JS.value :=
  JS.VObj [("manpower", JS.VObj [("total", JS.num total)])].

Definition scans_db (history : list AnalysisHistoryDocument.t) : option MongoDB.Db :=
  example_db (example_user "free" 1 3) (example_project None) history.

(** The entry the analyze handler appends to the history. *)
Definition recorded_entry `{JS.Runtime} (now : JS.Date) (r : AIAnalysisResult.t)
    (projectId uid : string) (previous : option AnalysisHistoryDocument.t)
    : AnalysisHistoryDocument.t :=
  {| AnalysisHistoryDocument.project_id := projectId;
     AnalysisHistoryDocument.user_id := uid;
     AnalysisHistoryDocument.analysis_date := now;
     AnalysisHistoryDocument.snapshot := ProjectRoutes.analysis_snapshot r;
     AnalysisHistoryDocument.deltas := ProjectRoutes.analysis_deltas r previous;
     AnalysisHistoryDocument.created_at := now |}.

Definition example_uri : option string := Some "mongodb://localhost:27017".

(** Splits every hypothesis [a && b = true]. *)
Ltac split_andb :=
  repeat match goal with
         | [ Hb : (_ && _)%bool = true |- _ ] => apply andb_prop in Hb; destruct Hb
         end.

(** * Predicates of the store, route and connection properties *)

(** ** Order of a query result *)

(** The elements come with the greatest [key] first. *)
Definition descending {A} (key : A -> Z) (l : list A) : Prop :=
  forall i j a b, (i < j)%nat -> l !! i = Some a -> l !! j = Some b -> (key b <= key a)%Z.

(** ** Requests to the analyze route, served one after the other *)

Module AnalyzeRequest.
Record t := {
  now : JS.Date;
  analysisResult : AIAnalysisResult.t;
  projectId : string;
  request : Auth.Request;
}.
End AnalyzeRequest.

Section Serving.
Context `{JS.Runtime}.
Variable decodeToken : string -> option Auth.TokenPayload.

Definition serve (db : option MongoDB.Db) (r : AnalyzeRequest.t) : option MongoDB.Db :=
  snd (ProjectRoutes.analyze_endpoint decodeToken (AnalyzeRequest.now r)
         (AnalyzeRequest.analysisResult r) (AnalyzeRequest.projectId r)
         (AnalyzeRequest.request r) db).

Definition serve_all (requests : list AnalyzeRequest.t) (db : option MongoDB.Db)
    : option MongoDB.Db :=
  fold_left serve requests db.

End Serving.

(** The limit [checkScanLimit] enforces: [scans_limit || 3]. *)
Definition effective_limit (s : UserSubscription.t) : Z :=
  JS.int_or (UserSubscription.scans_limit s) 3.

(** The plan [checkScanLimit] reads: [plan || 'free']. *)
Definition counts_as_free (s : UserSubscription.t) : Prop :=
  JS.str_or (UserSubscription.plan s) "free" = "free".

(** A request of the example user to analyze project p1, served at
    instant [t]; the adapter succeeds. *)
Definition example_analyze_request (t : Z) : AnalyzeRequest.t :=
  {| AnalyzeRequest.now := example_date t;
     AnalyzeRequest.analysisResult := example_result 40 (crew_raw 12);
     AnalyzeRequest.projectId := "p1";
     AnalyzeRequest.request := example_request |}.

(** ** The portfolio *)

(** The summary classifies a project when its data reports a progress
    that is a number. *)
Definition classified (project : ProjectDocument.t) : bool :=
  match ProjectDocument.project_data project with
  | Some data => JS.typeof_number (ProjectData.progressPercentage data)
  | None => false
  end.

(** The projects the loop of the summary has classified so far. *)
Definition classified_count (t : Portfolio.Totals) : nat :=
  (Portfolio.projectsOnTrack t + Portfolio.projectsAtRisk t + Portfolio.projectsDelayed t)%nat.

(** [limit] as the number the query text [n] stands for. *)
Definition count_limit (n : nat) : JS.number := JS.Fin (inject_Z (Z.of_nat n)).

(** ** The project routes *)

(** The document [createProject] stores. *)
Definition created_project (now : JS.Date) (insertedId userId name description location
    mode : string) : ProjectDocument.t :=
  {| ProjectDocument._id := insertedId;
     ProjectDocument.user_id := userId;
     ProjectDocument.name := name;
     ProjectDocument.description := description;
     ProjectDocument.location := location;
     ProjectDocument.mode := mode;
     ProjectDocument.status := "active";
     ProjectDocument.created_at := now;
     ProjectDocument.updated_at := now;
     ProjectDocument.analyses := [];
     ProjectDocument.project_data := None |}.

(** [max_projects || 1] *)
Definition project_limit (s : UserSubscription.t) : Z :=
  JS.int_or (UserSubscription.max_projects s) 1.

(** The project is missing or belongs to someone else. *)
Definition not_owned_by (db : option MongoDB.Db) (projectId userId : string) : Prop :=
  forall project,
    MongoDB.getProject db projectId = Some project ->
    ProjectDocument.user_id project <> userId.

(** The analysis the analyze handler pushes to the project document. *)
Definition pushed_analysis (now : JS.Date) (r : AIAnalysisResult.t) : AnalysisData.t :=
  {| AnalysisData.created_at := now;
     AnalysisData.stage := AIAnalysisResult.stage r;
     AnalysisData.progressPercentage := AIAnalysisResult.progressPercentage r;
     AnalysisData.confidence_score := AIAnalysisResult.confidence_score r;
     AnalysisData.insights := AIAnalysisResult.insights r;
     AnalysisData.project_data := AIAnalysisResult.project_data r;
     AnalysisData.raw_response := AIAnalysisResult.raw_response r;
     AnalysisData.is_valid := true |}.

(** The example store read by a user who owns nothing in it. *)
Definition stranger : string := "bob".

(** The project document after a completed analysis. *)
Definition analyzed_project (now : JS.Date) (r : AIAnalysisResult.t)
    (project : ProjectDocument.t) : ProjectDocument.t :=
  {| ProjectDocument._id := ProjectDocument._id project;
     ProjectDocument.user_id := ProjectDocument.user_id project;
     ProjectDocument.name := ProjectDocument.name project;
     ProjectDocument.description := ProjectDocument.description project;
     ProjectDocument.location := ProjectDocument.location project;
     ProjectDocument.mode := ProjectDocument.mode project;
     ProjectDocument.status := ProjectDocument.status project;
     ProjectDocument.created_at := ProjectDocument.created_at project;
     ProjectDocument.updated_at := now;
     ProjectDocument.analyses := ProjectDocument.analyses project ++ [pushed_analysis now r];
     ProjectDocument.project_data := AIAnalysisResult.project_data r |}.

(** An item of the analyses route, for the analysis at position [index]. *)
Definition analysis_item (now : JS.Date) (projectId : string) (index : nat)
    (analysis : AnalysisData.t) : ProjectRoutes.AnalysisItem.t :=
  {| ProjectRoutes.AnalysisItem.id := "analysis-" ++ pretty index;
     ProjectRoutes.AnalysisItem.project_id := projectId;
     ProjectRoutes.AnalysisItem.is_valid := AnalysisData.is_valid analysis;
     ProjectRoutes.AnalysisItem.stage_detected :=
       ProjectRoutes.str_or_null (AnalysisData.stage analysis);
     ProjectRoutes.AnalysisItem.progress_detected :=
       ProjectRoutes.num_or_null (AnalysisData.progressPercentage analysis);
     ProjectRoutes.AnalysisItem.confidence_score :=
       ProjectRoutes.num_or_null (AnalysisData.confidence_score analysis);
     ProjectRoutes.AnalysisItem.insights := AnalysisData.insights analysis;
     ProjectRoutes.AnalysisItem.project_data := AnalysisData.project_data analysis;
     ProjectRoutes.AnalysisItem.created_at :=
       JS.str_or (JS.toISOString (AnalysisData.created_at analysis)) (JS.toISOString now) |}.


(** The time series the trends route builds from the history it fetched. *)
Definition trend_points (db : option MongoDB.Db) (projectId : string) (limit : nat)
    : list ProjectRoutes.TrendPoint.t :=
  ProjectRoutes.trend_point <$> rev (MongoDB.getAnalysisHistory db projectId limit).


(** Two analyses a day apart, at progress 10 and 30. *)
Definition daily_history : list AnalysisHistoryDocument.t :=
  [example_entry 0 10 None; example_entry 86400000 30 None].

(** [{ date, [metric]: t[metric] }] *)
Definition metric_of (metric : string) (t : ProjectRoutes.TrendPoint.t) : string * JS.value :=
  (JS.toISOString (ProjectRoutes.TrendPoint.date t),
   JS.lookup_field metric (ProjectRoutes.TrendPoint.entries t)).

(** ** The forecast on a straight line *)


(** ** The result of [analyzeImage] at its declared interface

    The analyze handler is compiled against [AIAnalysisResult]; a result
    is read at that interface when every field holds a value of its
    declared type. *)

Definition declared_string (v : JS.value) : option string :=
  match v with
  | JS.VStr s => Some s
  | _ => None
  end.

Definition declared_number (v : JS.value) : option Q :=
  match v with
  | JS.VNum (JS.Fin q) => Some q
  | _ => None
  end.

Definition declared_strings (v : JS.value) : option (list string) :=
  match v with
  | JS.VArr elems => mapM declared_string elems
  | _ => None
  end.

(** [criticalPath?: string] *)
Definition declared_optional_string (v : JS.value) : option (option string) :=
  match v with
  | JS.VUndefined => Some None
  | JS.VStr s => Some (Some s)
  | _ => None
  end.

Definition as_declared (a : AIService.Analysis.t) : option AIAnalysisResult.t :=
  stage ← declared_string (AIService.Analysis.stage a);
  progressPercentage ← declared_number (AIService.Analysis.progressPercentage a);
  timeRemaining ← declared_string (AIService.Analysis.timeRemaining a);
  criticalPath ← declared_optional_string (AIService.Analysis.criticalPath a);
  delaysFlagged ← declared_number (AIService.Analysis.delaysFlagged a);
  confidence_score ← declared_number (AIService.Analysis.confidence_score a);
  insights ← declared_strings (AIService.Analysis.insights a);
  Some {| AIAnalysisResult.valid := AIService.Analysis.valid a;
          AIAnalysisResult.stage := stage;
          AIAnalysisResult.progressPercentage := progressPercentage;
          AIAnalysisResult.timeRemaining := timeRemaining;
          AIAnalysisResult.criticalPath := criticalPath;
          AIAnalysisResult.delaysFlagged := delaysFlagged;
          AIAnalysisResult.confidence_score := confidence_score;
          AIAnalysisResult.insights := insights;
          AIAnalysisResult.raw_response := AIService.Analysis.raw_response a;
          AIAnalysisResult.project_data := AIService.Analysis.project_data a;
          AIAnalysisResult.error := AIService.Analysis.error a |}.

(** The failure result at the interface. *)
Definition declared_failure (error : string) : AIAnalysisResult.t :=
  {| AIAnalysisResult.valid := false;
     AIAnalysisResult.stage := "Error";
     AIAnalysisResult.progressPercentage := 0;
     AIAnalysisResult.timeRemaining := "N/A";
     AIAnalysisResult.criticalPath := None;
     AIAnalysisResult.delaysFlagged := 0;
     AIAnalysisResult.confidence_score := 0;
     AIAnalysisResult.insights := [];
     AIAnalysisResult.raw_response := JS.VObj [];
     AIAnalysisResult.project_data := None;
     AIAnalysisResult.error := Some error |}.

(** ** The connection hook *)

(** No call of [connectMongoDB] is suspended, or one is, its promise is
    kept and the store is not connected. *)
Definition single_flight (st : Server.State) : Prop :=
  Connection.pending (Server.system st) = 0%nat
  \/ (Connection.pending (Server.system st) = 1%nat
      /\ Server.connectionPromise st <> None
      /\ Connection.isMongoConnected (Connection.globals (Server.system st)) = false).

(** The module's four handles name at most one client, one that was
    created: [client] goes with [db], [cachedClient] with [cachedDb], and a
    cached connection is the current one. *)
Definition paired (g : Connection.Globals) (n : nat) : Prop :=
  Connection.cachedClient g = Connection.cachedDb g
  /\ Connection.client g = Connection.db g
  /\ (Connection.cachedDb g = None \/ Connection.cachedDb g = Connection.db g)
  /\ (forall c, Connection.db g = Some c -> (c < n)%nat).

Definition paired_handles (s : Connection.System) : Prop :=
  paired (Connection.globals s) (Connection.attempts s).

(** The client a call is connecting. *)
Definition client_of (call : Connection.Call) : option nat :=
  match call with
  | Connection.Connecting c | Connection.PingNew c => Some c
  | _ => None
  end.

(** The clients of the suspended calls were created. *)
Definition clients_created (s : Connection.System) : Prop :=
  forall i call c,
    Connection.calls s !! i = Some call -> client_of call = Some c ->
    (c < Connection.attempts s)%nat.

(** Two calls overlap and both connect; the first call's ping resolves
    last. *)
Definition example_overlap : Connection.System :=
  Connection.after_resume
    (Connection.after_resume
       (Connection.after_resume
          (Connection.after_resume
             (Connection.after_enter example_uri
                (Connection.after_enter example_uri Connection.cold))
             0 (Connection.Connecting 0) true)
          1 (Connection.Connecting 1) true)
       1 (Connection.PingNew 1) true)
    0 (Connection.PingNew 0) true.

(** * Properties *)

(** ** The normalizer's financial fields *)

Section NormalizerFinancials.
Context `{JS.Runtime}.


End NormalizerFinancials.


(** The boundaries of the cash-flow health: 0 is Positive, 9.9 is Neutral,
    10 is Negative. *)
Example cash_flow_health_boundaries :
  financial_field (budget_raw 0) "cashFlowHealth" = JS.VStr "Positive"
  /\ financial_field (budget_raw (99 # 10)) "cashFlowHealth" = JS.VStr "Neutral"
  /\ financial_field (budget_raw 10) "cashFlowHealth" = JS.VStr "Negative".
Proof. repeat split; reflexivity. Qed.

Section NormalizerReturns.
Context `{JS.Runtime}.

Lemma budgetDistribution_mapM elems :
  (exists entries, JS.mapM AIService.budgetDistribution_entry elems = JS.Ok entries)
  <-> Forall (fun m => JS.nullish m = false) elems.
Proof.
  induction elems as [|m elems IH]; cbn [JS.mapM].
  - split; [constructor|now eexists].
  - unfold AIService.budgetDistribution_entry at 1.
    destruct (JS.nullish m) eqn:Hm; cbn [JS.bind].
    + split; [intros [entries Hc]; discriminate Hc|].
      intros Hall. apply Forall_inv in Hall. congruence.
    + destruct (JS.mapM AIService.budgetDistribution_entry elems) as [entries|e];
        cbn [JS.bind].
      * split; [|now eexists].
        intros _. constructor; [exact Hm|]. apply IH. now eexists.
      * split; [intros [entries Hc]; discriminate Hc|].
        intros Hall. apply Forall_inv_tail, IH in Hall as [entries Hc]. discriminate Hc.
Qed.

(** The normalizer returns a record unless its argument is [null] or
    [undefined], or the [materials] it reads report a positive [length]
    without being an array of entries none of which is [null]. *)
Lemma normalizer_returns_iff now raw project :
  (exists pd, AIService.buildProjectData now raw project = JS.Ok pd)
  <-> JS.nullish raw = false
      /\ let materials := JS.or_else (JS.get raw "materials") (JS.VArr []) in
         JS.gt (JS.get materials "length") (JS.num 0) = false
         \/ exists elems, materials = JS.VArr elems
                          /\ Forall (fun m => JS.nullish m = false) elems.
Proof.
  unfold AIService.buildProjectData.
  destruct (JS.nullish raw).
  { split; [intros [pd Hc]; discriminate Hc|intros [Hc _]; discriminate Hc]. }
  cbv zeta.
  set (materials := JS.or_else (JS.get raw "materials") (JS.VArr [])).
  destruct (JS.gt (JS.get materials "length") (JS.num 0)) eqn:Hlen.
  - destruct materials as [| | | | |elems|] eqn:Hm;
      try (split; [intros [pd Hc]; discriminate Hc
                  |intros [_ [Hc|(elems & Hc & _)]]; discriminate Hc]).
    cbn [JS.array_map].
    destruct (JS.mapM AIService.budgetDistribution_entry elems) as [entries|e] eqn:Hmap;
      cbn [JS.bind].
    + split; [|now eexists]. intros _. split; [reflexivity|]. right.
      exists elems. split; [reflexivity|]. apply budgetDistribution_mapM.
      exists entries. exact Hmap.
    + split; [intros [pd Hc]; discriminate Hc|].
      intros [_ [Hc|(elems' & [= <-] & Hall)]]; [discriminate Hc|].
      apply budgetDistribution_mapM in Hall as [entries Hc]. congruence.
  - cbn [JS.bind]. split; [|now eexists]. intros _. split; [reflexivity|now left].
Qed.

End NormalizerReturns.

(** ** The normalizer on shaped input *)

Section NormalizerShape.
Context `{JS.Runtime}.

#[local] Arguments JS.or_else : simpl never.
#[local] Arguments Schema.array_of : simpl never.

Lemma or_else_falsy v d : JS.truthy v = false -> JS.or_else v d = d.
Proof. unfold JS.or_else. now intros ->. Qed.

Lemma or_else_nullish v d : JS.nullish v = true -> JS.or_else v d = d.
Proof. intros Hn. apply or_else_falsy. now destruct v. Qed.

Lemma is_number_inv v : Schema.is_number v = true -> exists q, v = JS.num q.
Proof. destruct v as [| | |[q|]| | |]; try discriminate. now exists q. Qed.

Lemma is_string_inv v : Schema.is_string v = true -> exists s, v = JS.VStr s.
Proof. destruct v as [| | | |s| |]; try discriminate. now exists s. Qed.

Lemma or_else_opt_number v :
  Schema.opt_number v = true -> Schema.is_number (JS.or_else v (JS.num 0)) = true.
Proof.
  unfold JS.or_else.
  destruct v as [| | |[q|]| | |]; try discriminate; try reflexivity.
  intros _. cbn. now destruct (Qeq_bool q 0).
Qed.

Lemma or_else_opt_string v s :
  Schema.opt_string v = true -> Schema.is_string (JS.or_else v (JS.VStr s)) = true.
Proof.
  unfold JS.or_else.
  destruct v as [| | |[q|]|s'| |]; try discriminate; try reflexivity.
  intros _. cbn. now destruct (negb (String.eqb s' "")).
Qed.

Lemma or_else_opt_object P v :
  Schema.opt_object P v = true -> P (JS.VObj []) = true ->
  P (JS.or_else v (JS.VObj [])) = true.
Proof. destruct v; try discriminate; auto. Qed.

Lemma or_else_opt_array P v :
  Schema.opt_array P v = true -> Schema.array_of P (JS.or_else v (JS.VArr [])) = true.
Proof. destruct v; try discriminate; auto. Qed.

Lemma budgetDistribution_entries elems :
  forallb Schema.material elems = true ->
  exists entries,
    JS.mapM AIService.budgetDistribution_entry elems = JS.Ok entries
    /\ forallb (fun e => Schema.all_strings ["name"] e && Schema.all_numbers ["value"] e)
         entries = true.
Proof.
  induction elems as [|m elems IH]; intros Hall.
  - exists []. now split.
  - cbn [forallb] in Hall. apply andb_prop in Hall as [Hm Hrest].
    destruct (IH Hrest) as (entries & Hmap & Hshape).
    destruct m as [| | | | | |fields]; try discriminate.
    unfold Schema.material in Hm. apply andb_prop in Hm as [Hname Hused].
    eexists. cbn [JS.mapM]. rewrite Hmap.
    unfold AIService.budgetDistribution_entry. cbn [JS.nullish JS.bind].
    split; [reflexivity|].
    cbn [forallb]. rewrite Hshape.
    unfold Schema.all_strings, Schema.all_numbers. cbn [forallb].
    change (JS.get (JS.VObj [("name", JS.get (JS.VObj fields) "name");
                             ("value", JS.or_else (JS.get (JS.VObj fields) "used") (JS.num 0))])
              "name") with (JS.get (JS.VObj fields) "name").
    change (JS.get (JS.VObj [("name", JS.get (JS.VObj fields) "name");
                             ("value", JS.or_else (JS.get (JS.VObj fields) "used") (JS.num 0))])
              "value") with (JS.or_else (JS.get (JS.VObj fields) "used") (JS.num 0)).
    now rewrite Hname, (or_else_opt_number _ Hused).
Qed.

Lemma budgetDistribution_ok v :
  Schema.opt_array Schema.material v = true ->
  exists bd,
    (if JS.gt (JS.get (JS.or_else v (JS.VArr [])) "length") (JS.num 0)
     then JS.array_map AIService.budgetDistribution_entry (JS.or_else v (JS.VArr []))
     else JS.Ok (JS.VArr [])) = JS.Ok bd
    /\ Schema.array_of
         (fun e => Schema.all_strings ["name"] e && Schema.all_numbers ["value"] e) bd = true.
Proof.
  destruct v as [| | | | |elems|]; try discriminate;
    try (intros _; exists (JS.VArr []); now split).
  intros Hall. cbn in Hall.
  destruct (budgetDistribution_entries _ Hall) as (entries & Hmap & Hshape).
  change (JS.or_else (JS.VArr elems) (JS.VArr [])) with (JS.VArr elems).
  destruct (JS.gt _ _).
  - exists (JS.VArr entries). cbn [JS.array_map]. rewrite Hmap. now split.
  - exists (JS.VArr []). now split.
Qed.

(** C7 (as amended).  On an object whose present fields have the types
    the normalizer's casts name -- the empty object included -- the
    normalizer throws nothing and returns a record every field of which is
    defined and typed; a copied numeric field that is absent or null in
    the input is 0, a copied string field that is absent or null is its
    sentinel, and absent collections are empty. *)
Theorem normalizer_total_on_shaped_input now raw project :
  Schema.raw_analysis raw = true ->
  exists pd,
    AIService.buildProjectData now raw project = JS.Ok pd
    /\ Schema.fully_shaped pd = true
    /\ (forall o k, In (o, k) Schema.copied_numbers ->
          JS.nullish (JS.get (JS.or_else (JS.get raw o) (JS.VObj [])) k) = true ->
          JS.get (Schema.sub_record pd o) k = JS.num 0)
    /\ (forall o k d, In (o, k, d) Schema.copied_strings ->
          JS.nullish (JS.get (JS.or_else (JS.get raw o) (JS.VObj [])) k) = true ->
          JS.get (Schema.sub_record pd o) k = JS.VStr d)
    /\ (JS.nullish (JS.get raw "progressPercentage") = true ->
          ProjectData.progressPercentage pd = JS.num 0)
    /\ (JS.nullish (JS.get raw "delaysFlagged") = true ->
          ProjectData.delaysFlagged pd = JS.num 0)
    /\ (JS.nullish (JS.get raw "stage") = true -> ProjectData.stage pd = JS.VStr "Unknown")
    /\ (JS.nullish (JS.get raw "materials") = true -> ProjectData.materials pd = JS.VArr [])
    /\ (JS.nullish (JS.get raw "insights") = true -> ProjectData.insights pd = JS.VArr []).
Proof.
  intros Hraw.
  destruct raw as [| | | | | |fields]; try discriminate.
  unfold Schema.raw_analysis in Hraw. split_andb.
  repeat match goal with
         | [ Ho : Schema.opt_object _ _ = true |- _ ] =>
             apply or_else_opt_object in Ho; [|reflexivity]
         end.
  unfold Schema.numbers_at, Schema.strings_at in *. cbn [forallb] in *. split_andb.
  match goal with
  | [ Hm : Schema.opt_array Schema.material _ = true |- _ ] =>
      pose proof (or_else_opt_array _ _ Hm) as Hmaterials;
      destruct (budgetDistribution_ok _ Hm) as (bd & Hbd & Hbdshape)
  end.
  match goal with
  | [ Hi : Schema.opt_array Schema.is_string _ = true |- _ ] =>
      pose proof (or_else_opt_array _ _ Hi) as Hinsights
  end.
  unfold AIService.buildProjectData.
  cbn [JS.nullish]. rewrite Hbd. cbn [JS.bind].
  eexists. split; [reflexivity|].
  split.
  - unfold Schema.fully_shaped.
    cbn [ProjectData.stage ProjectData.progressPercentage ProjectData.timeRemaining
         ProjectData.criticalPath ProjectData.delaysFlagged ProjectData.burnRate
         ProjectData.manpower ProjectData.machinery ProjectData.materials
         ProjectData.financials ProjectData.valuation ProjectData.compliance
         ProjectData.geo ProjectData.charts ProjectData.insights].
    repeat match goal with
           | [ Hn : Schema.opt_number ?v = true |- _ ] =>
               apply or_else_opt_number in Hn;
               let q := fresh "q" in let E := fresh "E" in
               destruct (is_number_inv _ Hn) as [q E]; rewrite ?E; clear Hn E
           end.
    repeat match goal with
           | [ Hs : Schema.opt_string ?v = true
               |- context [JS.or_else ?v (JS.VStr ?s)] ] =>
               let s' := fresh "s" in let E := fresh "E" in
               destruct (is_string_inv _ (or_else_opt_string v s Hs)) as [s' E];
               rewrite ?E; clear Hs E
           end.
    rewrite Hmaterials, Hinsights.
    cbn. cbn in Hbdshape. rewrite Hbdshape.
    unfold Schema.array_of.
    change (Qeq_bool 100 0) with false. cbn.
    repeat match goal with
           | [ |- context [Qeq_bool ?a 0] ] =>
               change (Qeq_bool a 0) with false; cbn
           | [ |- context [if ?b then _ else _] ] => destruct b; cbn
           end; reflexivity.
  - repeat split.
    + intros o k Hin Hnull.
      cbn [Schema.copied_numbers In] in Hin.
      repeat (destruct Hin as [Hin|Hin];
              [injection Hin as <- <-; cbn; now rewrite (or_else_nullish _ _ Hnull)|]).
      destruct Hin.
    + intros o k d Hin Hnull.
      cbn [Schema.copied_strings In] in Hin.
      repeat (destruct Hin as [Hin|Hin];
              [injection Hin as <- <- <-; cbn; now rewrite (or_else_nullish _ _ Hnull)|]).
      destruct Hin.
    + intros Hnull. cbn. now rewrite (or_else_nullish _ _ Hnull).
    + intros Hnull. cbn. now rewrite (or_else_nullish _ _ Hnull).
    + intros Hnull. cbn. now rewrite (or_else_nullish _ _ Hnull).
    + intros Hnull. cbn. now rewrite (or_else_nullish _ _ Hnull).
    + intros Hnull. cbn. now rewrite (or_else_nullish _ _ Hnull).
Qed.

End NormalizerShape.

(** The empty object: every field of the record takes its default. *)
Lemma normalizer_total_on_shaped_input_witness :
  Schema.raw_analysis (JS.VObj []) = true
  /\ exists pd,
       AIService.buildProjectData (example_date 0) (JS.VObj []) None = JS.Ok pd
       /\ Schema.fully_shaped pd = true
       /\ ProjectData.progressPercentage pd = JS.num 0
       /\ ProjectData.materials pd = JS.VArr [].
Proof.
  split; [reflexivity|].
  destruct (normalizer_total_on_shaped_input (example_date 0) (JS.VObj []) None eq_refl)
    as (pd & Hb & Hs & _ & _ & Hp & _ & _ & Hm & _).
  exists pd. repeat split; auto.
Defined.

(** C7 as stated fails: on an object whose [materials] is a text the
    normalizer throws a TypeError, and a budget total that is a text is
    copied to the output (not replaced by 0) and makes budgetSpent NaN. *)
Lemma normalizer_not_total :
  AIService.buildProjectData (example_date 0) text_materials_raw None
  = JS.Throw (JS.TypeError "materials.map is not a function")
  /\ exists pd,
       AIService.buildProjectData (example_date 0) text_budget_raw None = JS.Ok pd
       /\ JS.get (ProjectData.financials pd) "budgetTotal" = JS.VStr "unknown"
       /\ JS.get (ProjectData.financials pd) "budgetSpent" = JS.VNum JS.NaN.
Proof.
  split; [reflexivity|].
  eexists. split; [reflexivity|]. split; reflexivity.
Qed.

(** ** The scan-limit gate *)

Section ScanLimit.
Variable decodeToken : string -> option Auth.TokenPayload.

(** What [requireAuth] attaches to a request it lets through. *)
Lemma requireAuth_passes db request request' :
  Auth.requireAuth decodeToken db request = (None, request') ->
  exists uid u,
    Auth.userId request' = Some uid
    /\ MongoDB.getUserById db uid = Some u
    /\ Auth.user request' = Some u
    /\ Auth.subscription request' = Some (UserDocument.subscription u).
Proof.
  unfold Auth.requireAuth. intros Hauth.
  destruct (Auth.authorization request) as [authHeader|]; [|discriminate].
  destruct (negb (String.prefix "Bearer " authHeader)); [discriminate|].
  destruct (decodeToken _) as [payload|]; [|discriminate].
  destruct (negb (String.eqb (Auth.type payload) "access")); [discriminate|].
  destruct (String.eqb (Auth.sub payload) ""); [discriminate|].
  destruct (MongoDB.getUserById db (Auth.sub payload)) as [u|] eqn:Hu; [|discriminate].
  destruct (negb _); [discriminate|].
  injection Hauth as <-. exists (Auth.sub payload), u. now cbn.
Qed.

(** C10 (as amended).  For an authenticated user the gate answers 403
    "Scan limit reached" iff the plan is free -- an empty plan counts as
    free -- and scans_used has reached the limit, where a limit of 0 counts
    as 3; otherwise it lets the request through.  In particular a user on
    a plan that is neither free nor empty is never blocked, and when the
    limit is not 0 and the plan is not empty the gate rejects iff the plan
    is free and scans_used >= scans_limit. *)
Theorem scan_limit_gate now db request request' s :
  Auth.requireAuth decodeToken db request = (None, request') ->
  Auth.subscription request' = Some s ->
  let reply := fst (Auth.checkScanLimit decodeToken now db request) in
  let used := UserSubscription.scans_used s in
  let limit := UserSubscription.scans_limit s in
  let plan := UserSubscription.plan s in
  (reply = Some scan_limit_reached
   <-> JS.str_or plan "free" = "free" /\ (JS.int_or limit 3 <= used)%Z)
  /\ (reply = None \/ reply = Some scan_limit_reached)
  /\ (plan <> "free" -> plan <> "" -> reply = None)
  /\ (limit <> 0%Z -> plan <> "" ->
      (reply = Some scan_limit_reached <-> plan = "free" /\ (limit <= used)%Z)).
Proof.
  intros Hauth Hsub reply used limit plan.
  assert (Hreply : reply =
            if String.eqb (JS.str_or plan "free") "free"
               && (JS.int_or limit 3 <=? JS.int_or used 0)%Z
            then Some scan_limit_reached else None).
  { subst reply. unfold Auth.checkScanLimit. rewrite Hauth, Hsub.
    fold used limit plan. now destruct (_ && _). }
  assert (Hused : JS.int_or used 0 = used).
  { unfold JS.int_or. destruct (Z.eqb_spec used 0); congruence. }
  rewrite Hused in Hreply. clear Hused.
  assert (Hgate : reply = Some scan_limit_reached
                  <-> JS.str_or plan "free" = "free" /\ (JS.int_or limit 3 <= used)%Z).
  { rewrite Hreply.
    destruct (String.eqb_spec (JS.str_or plan "free") "free") as [Hp|Hp];
      destruct (Z.leb_spec (JS.int_or limit 3) used) as [Hl|Hl]; cbn;
      split; try discriminate; try tauto; intros [? ?]; try contradiction; lia. }
  split; [exact Hgate|]. split.
  { rewrite Hreply. destruct (_ && _); auto. }
  split.
  { intros Hnf Hne.
    destruct reply as [r|] eqn:Er; [|reflexivity].
    assert (Hr : Some r = Some scan_limit_reached).
    { rewrite Hreply. rewrite Hreply in Er. destruct (_ && _); congruence. }
    apply Hgate in Hr as [Hp _]. unfold JS.str_or in Hp.
    destruct (String.eqb_spec plan ""); congruence. }
  intros Hl Hp. rewrite Hgate. unfold JS.str_or, JS.int_or.
  destruct (String.eqb_spec plan ""); [contradiction|].
  destruct (Z.eqb_spec limit 0); [contradiction|]. tauto.
Qed.

End ScanLimit.

(** A free user who has used 3 of 3 scans is answered 403. *)
Lemma scan_limit_gate_witness :
  Auth.requireAuth example_decodeToken
    (example_db (example_user "free" 3 3) (example_project None) []) example_request
  = (None, example_authenticated (example_user "free" 3 3))
  /\ fst (Auth.checkScanLimit example_decodeToken (example_date 5)
            (example_db (example_user "free" 3 3) (example_project None) [])
            example_request)
     = Some scan_limit_reached.
Proof.
  split; [reflexivity|].
  pose proof (scan_limit_gate example_decodeToken (example_date 5)
                (example_db (example_user "free" 3 3) (example_project None) [])
                example_request (example_authenticated (example_user "free" 3 3))
                (UserDocument.subscription (example_user "free" 3 3))
                eq_refl eq_refl) as Hgate.
  cbv zeta in Hgate. destruct Hgate as [Hgate _].
  apply Hgate. split; [reflexivity|]. cbn. lia.
Defined.

(** C10 as stated fails: a free user with scans_used = 1 and
    scans_limit = 0 has reached the limit, and the gate lets the request
    through, because [scans_limit || 3] reads the limit as 3. *)
Lemma scan_limit_zero_counts_as_three :
  let s := UserDocument.subscription (example_user "free" 1 0) in
  UserSubscription.plan s = "free"
  /\ (UserSubscription.scans_limit s <= UserSubscription.scans_used s)%Z
  /\ fst (Auth.checkScanLimit example_decodeToken (example_date 5)
            (example_db (example_user "free" 1 0) (example_project None) [])
            example_request)
     = None.
Proof. cbn zeta. split; [reflexivity|]. split; [cbn; lia|reflexivity]. Qed.

(** ** Status and risk level *)

Section StatusClassifiers.
Context `{JS.Runtime}.

(** The classification inside the portfolio summary is the first-match
    precedence: delayed when more than two delays are flagged, else at
    risk when progress is below 50 with budgetSpent above 60, else on
    track. *)
Lemma summary_status_precedence data :
  let delays := ProjectData.delaysFlagged data in
  let late := JS.truthy delays && JS.gt delays (JS.num 2) in
  let strained :=
    JS.lt (ProjectData.progressPercentage data) (JS.num 50)
    && JS.gt (JS.or_else (JS.get_opt (ProjectData.financials data) "budgetSpent")
                (JS.num 0)) (JS.num 60) in
  (Portfolio.summary_status data = Portfolio.delayed <-> late = true)
  /\ (Portfolio.summary_status data = Portfolio.at_risk
      <-> late = false /\ strained = true)
  /\ (Portfolio.summary_status data = Portfolio.on_track
      <-> late = false /\ strained = false).
Proof.
  intros delays late strained. unfold Portfolio.summary_status.
  fold delays. fold late. fold strained.
  destruct late, strained; repeat split; intros; try discriminate; try tauto;
    match goal with
    | [ Hc : _ /\ _ |- _ ] => destruct Hc; discriminate
    end.
Qed.

(** The status of a compared project is not that precedence: when at most
    two delays are flagged it is at risk exactly when the risk level is
    high or medium. *)
Lemma compare_status_from_risk_level project :
  let c := Portfolio.compare_project project in
  Portfolio.status c <> Portfolio.delayed ->
  (Portfolio.status c = Portfolio.at_risk <-> Portfolio.risk_level c <> Portfolio.low).
Proof.
  unfold Portfolio.compare_project.
  cbn [Portfolio.status Portfolio.risk_level].
  match goal with
  | [ |- context [if JS.gt ?d (JS.num 2) then _ else _] ] =>
      destruct (JS.gt d (JS.num 2))
  end; [congruence|].
  intros _.
  match goal with
  | [ |- context [match ?r with Portfolio.low => _ | _ => _ end] ] => destruct r
  end; split; intros; congruence.
Qed.

End StatusClassifiers.

(** C1 fails on [compareProjects].  For the project with safety score 65,
    no delay flagged and progress 80, the summary counts it on track (none
    at risk), while the comparison reports risk level high together with
    status at_risk: the comparison derives the status from the risk level. *)
Theorem comparison_status_conflated_with_risk :
  exists data,
    normalized unsafe_on_schedule_raw = Some data
    /\ Portfolio.summary_status data = Portfolio.on_track
    /\ Portfolio.projects_on_track
         (Portfolio.getPortfolioSummary (portfolio_db unsafe_on_schedule_raw) "ann") = 1%nat
    /\ Portfolio.projects_at_risk
         (Portfolio.getPortfolioSummary (portfolio_db unsafe_on_schedule_raw) "ann") = 0%nat
    /\ map (fun c => (Portfolio.risk_level c, Portfolio.status c))
         (Portfolio.compareProjects (portfolio_db unsafe_on_schedule_raw) "ann" None)
       = [(Portfolio.high, Portfolio.at_risk)].
Proof.
  eexists. split; [reflexivity|].
  split; [reflexivity|].
  split; [vm_compute; reflexivity|].
  split; vm_compute; reflexivity.
Qed.

(** ** The portfolio's budget total *)

Section SummaryBudget.
Context `{JS.Runtime}.

(** What one project adds to [totalBudgetSpent]: nothing unless both
    [budgetTotal] and [budgetSpent] are truthy, and then
    [budgetTotal * budgetSpent / 100], with the stored [budgetSpent] read
    as a percentage. *)
Lemma summary_step_budget t project data :
  ProjectDocument.project_data project = Some data ->
  let total := JS.get_opt (ProjectData.financials data) "budgetTotal" in
  let spent := JS.get_opt (ProjectData.financials data) "budgetSpent" in
  Portfolio.totalBudgetSpent (Portfolio.summary_step t project)
  = if JS.truthy total && JS.truthy spent
    then JS.add (Portfolio.totalBudgetSpent t)
           (JS.div (JS.mul (JS.get (ProjectData.financials data) "budgetTotal")
                           (JS.get (ProjectData.financials data) "budgetSpent"))
                   (JS.num 100))
    else Portfolio.totalBudgetSpent t.
Proof. intros Hd. unfold Portfolio.summary_step. now rewrite Hd. Qed.

End SummaryBudget.

(** C4 fails on the code.  The normalizer stores budgetSpent as a currency
    amount (2,250,000 for 45 percent of 5,000,000); the summary multiplies
    it by the budget total and divides by 100 once more, so the portfolio
    of this one project reports 112,500,000,000 spent (rendered
    "$112500.0M") where the claim gives 2,250,000 ("$2.3M"). *)
Theorem summary_budget_spent_scaled_twice :
  exists data spent shown,
    normalized (budget_raw 0) = Some data
    /\ JS.get (ProjectData.financials data) "budgetTotal" = JS.num 5000000
    /\ JS.get (ProjectData.financials data) "budgetSpent" = JS.num 2250000
    /\ Portfolio.totalBudgetSpent
         (Portfolio.summary_totals
            (MongoDB.getUserProjects (portfolio_db (budget_raw 0)) "ann" 0 10))
       = JS.num spent
    /\ spent == 112500000000
    /\ Portfolio.total_budget_spent
         (Portfolio.getPortfolioSummary (portfolio_db (budget_raw 0)) "ann")
       = Portfolio.DollarsM (JS.num shown)
    /\ shown == 112500
    /\ ~ spent == 5000000 * 45 / 100.
Proof.
  eexists. eexists. eexists.
  split; [reflexivity|].
  split; [reflexivity|].
  split; [reflexivity|].
  split; [vm_compute; reflexivity|].
  split; [reflexivity|].
  split; [vm_compute; reflexivity|].
  split; [reflexivity|].
  intros Heq. discriminate Heq.
Qed.

(** ** The forecast *)

Section RegressionSums.











End RegressionSums.

Section ForecastData.

Lemma Qlt_bool_iff x y : JS.Qlt_bool x y = true <-> x < y.
Proof.
  unfold JS.Qlt_bool. rewrite negb_true_iff.
  destruct (Qle_bool y x) eqn:Hle.
  - apply Qle_bool_iff in Hle. split; [discriminate|]. intros Hlt.
    now apply Qlt_not_le in Hlt.
  - split; [intros _|reflexivity]. apply Qnot_le_lt. intros Hc.
    apply Qle_bool_iff in Hc. congruence.
Qed.

Lemma length_insert_desc {A} (key : A -> Z) a l :
  length (MongoDB.insert_desc key a l) = S (length l).
Proof.
  induction l as [|b l IH]; [reflexivity|]. cbn.
  destruct (key b <=? key a)%Z; cbn; congruence.
Qed.

Lemma length_sort_desc {A} (key : A -> Z) (l : list A) :
  length (MongoDB.sort_desc key l) = length l.
Proof.
  induction l as [|a l IH]; [reflexivity|].
  cbn. now rewrite length_insert_desc, IH.
Qed.

Lemma length_getAnalysisHistory db projectId limit :
  length (MongoDB.getAnalysisHistory db projectId limit)
  = Nat.min limit (history_count db projectId).
Proof.
  destruct db as [d|]; cbn; [|now rewrite Nat.min_0_r].
  unfold MongoDB.project_history. now rewrite length_take, length_sort_desc.
Qed.

Lemma length_forecast_data history :
  length (ProjectRoutes.forecast_data history) = length history.
Proof. unfold ProjectRoutes.forecast_data. now rewrite length_imap, length_rev. Qed.







End ForecastData.

Section ForecastGating.
Context `{JS.Runtime}.




End ForecastGating.



(** ** The forecast's recommendations *)

Section Recommendations.
Context `{JS.Runtime}.

(** Which advisories the forecast lists: resourcing iff the recent
    velocity is below 5, cost control iff the projected final budget is
    above the number 110, stakeholder review iff the risk level is high. *)
Lemma forecast_recommendations data :
  let recs := ProjectRoutes.recommendations (ProjectRoutes.build_forecast data) in
  (In ProjectRoutes.resourcing_advice recs <-> ProjectRoutes.recentVelocity data < 5)
  /\ (In ProjectRoutes.cost_control_advice recs
      <-> JS.gt (ProjectRoutes.projectedFinalBudget data) (JS.num 110) = true)
  /\ (In ProjectRoutes.stakeholder_review_advice recs
      <-> ProjectRoutes.riskLevel data = "high").
Proof.
  unfold ProjectRoutes.build_forecast. cbn [ProjectRoutes.recommendations].
  rewrite <- Qlt_bool_iff.
  assert (Hrisk : String.eqb (ProjectRoutes.riskLevel data) "high" = true
                  <-> ProjectRoutes.riskLevel data = "high") by apply String.eqb_eq.
  rewrite <- Hrisk. clear Hrisk.
  destruct (JS.Qlt_bool (ProjectRoutes.recentVelocity data) 5),
           (JS.gt (ProjectRoutes.projectedFinalBudget data) (JS.num 110)),
           (String.eqb (ProjectRoutes.riskLevel data) "high");
    cbn; repeat split; intros Hin; try reflexivity; try discriminate;
    try (now left); try (now right; left); try (now right; right; left);
    repeat (destruct Hin as [Hin|Hin]; try discriminate Hin); try contradiction.
Qed.

End Recommendations.

(** C3 fails on the code for the cost-control advisory.  After three
    analyses of a project with a budget of 5,000,000 of which 2,250,000 is
    spent, at progress 40, 45 and 50, the projected final budget is
    4,500,000 -- below 110 percent of the total, 5,500,000 -- and the
    forecast still lists the cost-control advisory (and nothing else): the
    projection is compared with the number 110. *)
Theorem cost_advice_compares_with_110 :
  exists data total projected f,
    normalized (budget_raw 0) = Some data
    /\ JS.get (ProjectData.financials data) "budgetTotal" = JS.num total
    /\ ProjectRoutes.projectedFinalBudget
         (ProjectRoutes.forecast_data
            (MongoDB.getAnalysisHistory (history_db budget_history) "p1" 10))
       = JS.num projected
    /\ projected == 4500000
    /\ projected <= (110 # 100) * total
    /\ ProjectRoutes.forecast_handler (history_db budget_history) "p1" (Some "ann")
       = ProjectRoutes.Returned
           {| ProjectRoutes.forecast_project_id := "p1";
              ProjectRoutes.forecast := f;
              ProjectRoutes.based_on := 3 |}
    /\ ProjectRoutes.risk_level f = "low"
    /\ ProjectRoutes.recommendations f = [ProjectRoutes.cost_control_advice].
Proof.
  eexists. eexists. eexists. eexists.
  split; [reflexivity|].
  split; [reflexivity|].
  split; [vm_compute; reflexivity|].
  split; [reflexivity|].
  split; [discriminate|].
  split; [vm_compute; reflexivity|].
  split; reflexivity.
Qed.

(** ** The analyze handler and the store *)

Section StoreFrames.

Lemma addAnalysis_users now projectId a db uid :
  MongoDB.getUserById (snd (MongoDB.addAnalysis now projectId a db)) uid
  = MongoDB.getUserById db uid.
Proof.
  unfold MongoDB.addAnalysis. destruct db as [d|]; [|reflexivity].
  now destruct (MongoDB.projects d !! projectId).
Qed.

Lemma addAnalysis_history now projectId a db :
  history_of (snd (MongoDB.addAnalysis now projectId a db)) = history_of db.
Proof.
  unfold MongoDB.addAnalysis. destruct db as [d|]; [|reflexivity].
  now destruct (MongoDB.projects d !! projectId).
Qed.

Lemma updateProject_users now projectId data db uid :
  MongoDB.getUserById (snd (MongoDB.updateProject now projectId data db)) uid
  = MongoDB.getUserById db uid.
Proof.
  unfold MongoDB.updateProject. destruct db as [d|]; [|reflexivity].
  now destruct (MongoDB.projects d !! projectId).
Qed.

Lemma updateProject_history now projectId data db :
  history_of (snd (MongoDB.updateProject now projectId data db)) = history_of db.
Proof.
  unfold MongoDB.updateProject. destruct db as [d|]; [|reflexivity].
  now destruct (MongoDB.projects d !! projectId).
Qed.

Lemma incrementScanUsage_history now uid db :
  history_of (snd (MongoDB.incrementScanUsage now uid db)) = history_of db.
Proof.
  unfold MongoDB.incrementScanUsage. destruct db as [d|]; [|reflexivity].
  now destruct (MongoDB.users d !! uid).
Qed.

Lemma incrementScanUsage_user now uid db u :
  MongoDB.getUserById db uid = Some u ->
  MongoDB.getUserById (snd (MongoDB.incrementScanUsage now uid db)) uid
  = Some (MongoDB.increment_scans now u).
Proof.
  unfold MongoDB.incrementScanUsage, MongoDB.getUserById.
  destruct db as [d|]; [|discriminate]. intros ->. cbn.
  apply lookup_insert_eq.
Qed.

Lemma incrementScanUsage_others now uid db other :
  other <> uid ->
  MongoDB.getUserById (snd (MongoDB.incrementScanUsage now uid db)) other
  = MongoDB.getUserById db other.
Proof.
  intros Hne. unfold MongoDB.incrementScanUsage, MongoDB.getUserById.
  destruct db as [d|]; [|reflexivity].
  destruct (MongoDB.users d !! uid); [|reflexivity]. cbn.
  now apply lookup_insert_ne.
Qed.

Lemma createAnalysisHistory_users now projectId userId snapshot deltas db uid :
  MongoDB.getUserById
    (snd (MongoDB.createAnalysisHistory now projectId userId snapshot deltas db)) uid
  = MongoDB.getUserById db uid.
Proof. now destruct db. Qed.

Lemma getLatestAnalysis_history db db' projectId :
  history_of db = history_of db' -> (db = None <-> db' = None) ->
  MongoDB.getLatestAnalysis db projectId = MongoDB.getLatestAnalysis db' projectId.
Proof.
  destruct db as [d|], db' as [d'|]; cbn; intros Hh Hn; try reflexivity.
  - unfold MongoDB.project_history. now rewrite Hh.
  - destruct Hn as [_ Hn]. now specialize (Hn eq_refl).
  - destruct Hn as [Hn _]. now specialize (Hn eq_refl).
Qed.

Lemma In_insert_desc {A} (key : A -> Z) a l x :
  In x (MongoDB.insert_desc key a l) -> x = a \/ In x l.
Proof.
  induction l as [|b l IH]; cbn.
  - intros [->|[]]; auto.
  - destruct (key b <=? key a)%Z; cbn.
    + intros [->|[->|Hx]]; auto.
    + intros [->|Hx]; auto. destruct (IH Hx); auto.
Qed.

Lemma In_sort_desc {A} (key : A -> Z) (l : list A) x :
  In x (MongoDB.sort_desc key l) -> In x l.
Proof.
  induction l as [|a l IH]; cbn; [tauto|].
  intros Hx. destruct (In_insert_desc _ _ _ _ Hx) as [->|Hin]; auto.
Qed.

Lemma sort_desc_head {A} (key : A -> Z) (l : list A) a rest :
  MongoDB.sort_desc key l = a :: rest -> forall x, In x l -> (key x <= key a)%Z.
Proof.
  revert a rest. induction l as [|b l IH]; intros a rest; [discriminate|].
  cbn [MongoDB.sort_desc].
  destruct (MongoDB.sort_desc key l) as [|a0 rest0] eqn:Hs.
  - cbn. intros [= <- <-] x [->|Hx]; [lia|].
    destruct l; [destruct Hx|]. cbn in Hs.
    apply (f_equal length) in Hs. rewrite length_insert_desc in Hs. discriminate Hs.
  - specialize (IH a0 rest0 eq_refl). cbn [MongoDB.insert_desc].
    destruct (Z.leb_spec (key a0) (key b)).
    + intros [= <- <-] x [->|Hx]; [lia|]. specialize (IH x Hx). lia.
    + intros [= <- <-] x [->|Hx]; [lia|]. now apply IH.
Qed.

Lemma getLatestAnalysis_None db projectId :
  history_count db projectId = 0%nat -> MongoDB.getLatestAnalysis db projectId = None.
Proof.
  destruct db as [d|]; [|reflexivity]. cbn. unfold MongoDB.project_history.
  intros Hc. apply length_zero_iff_nil in Hc. now rewrite Hc.
Qed.

Lemma getLatestAnalysis_Some db projectId :
  (0 < history_count db projectId)%nat ->
  exists previous,
    MongoDB.getLatestAnalysis db projectId = Some previous
    /\ In previous (history_of db)
    /\ AnalysisHistoryDocument.project_id previous = projectId
    /\ (forall h, In h (history_of db) ->
          AnalysisHistoryDocument.project_id h = projectId ->
          (JS.getTime (AnalysisHistoryDocument.analysis_date h)
           <= JS.getTime (AnalysisHistoryDocument.analysis_date previous))%Z).
Proof.
  destruct db as [d|]; cbn; [|lia]. intros Hc.
  unfold MongoDB.project_history.
  set (entries := filter _ (MongoDB.analyses_history d)) in *.
  destruct (MongoDB.sort_desc _ entries) as [|previous rest] eqn:Hs.
  - apply (f_equal length) in Hs. rewrite length_sort_desc in Hs. cbn in Hs. lia.
  - exists previous. split; [reflexivity|].
    assert (Hin : In previous entries).
    { eapply In_sort_desc. rewrite Hs. now left. }
    split.
    { subst entries. apply list_elem_of_In, list_elem_of_filter in Hin as [_ Hin].
      now apply list_elem_of_In. }
    split.
    { subst entries. now apply list_elem_of_In, list_elem_of_filter in Hin as [Hpid _]. }
    intros h Hh Hpid.
    apply (sort_desc_head _ entries previous rest Hs).
    subst entries. apply list_elem_of_In, list_elem_of_filter.
    split; [exact Hpid|now apply list_elem_of_In].
Qed.

End StoreFrames.

Section AnalyzeHandler.
Context `{JS.Runtime}.

Lemma addAnalysis_connected now projectId a db :
  snd (MongoDB.addAnalysis now projectId a db) = None <-> db = None.
Proof.
  unfold MongoDB.addAnalysis. destruct db as [d|]; [|tauto].
  destruct (MongoDB.projects d !! projectId); cbn; split; discriminate.
Qed.

Lemma updateProject_connected now projectId data db :
  snd (MongoDB.updateProject now projectId data db) = None <-> db = None.
Proof.
  unfold MongoDB.updateProject. destruct db as [d|]; [|tauto].
  destruct (MongoDB.projects d !! projectId); cbn; split; discriminate.
Qed.

Lemma incrementScanUsage_connected now uid db :
  snd (MongoDB.incrementScanUsage now uid db) = None <-> db = None.
Proof.
  unfold MongoDB.incrementScanUsage. destruct db as [d|]; [|tauto].
  destruct (MongoDB.users d !! uid); cbn; split; discriminate.
Qed.

(** A completed analysis: the handler returns a body, appends one history
    entry whose deltas compare with the latest entry stored before, and
    increments the caller's scan counter. *)
Lemma analyze_handler_success now r projectId uid db project :
  MongoDB.getProject db projectId = Some project ->
  ProjectDocument.user_id project = uid ->
  ProjectRoutes.adapter_failed r = false ->
  let out := ProjectRoutes.analyze_handler now r projectId (Some uid) db in
  (exists body, fst out = ProjectRoutes.Returned body)
  /\ history_of (snd out)
     = history_of db
       ++ [recorded_entry now r projectId uid (MongoDB.getLatestAnalysis db projectId)]
  /\ (forall u, MongoDB.getUserById db uid = Some u ->
        MongoDB.getUserById (snd out) uid = Some (MongoDB.increment_scans now u))
  /\ (forall other, other <> uid ->
        MongoDB.getUserById (snd out) other = MongoDB.getUserById db other).
Proof.
  intros Hproject Howner Hok out.
  subst out. unfold ProjectRoutes.analyze_handler.
  rewrite Hproject, Howner, String.eqb_refl, Hok. cbn [negb fst snd].
  set (a := {| AnalysisData.created_at := now |}).
  set (db1 := snd (MongoDB.addAnalysis now projectId a db)).
  set (db2 := match AIAnalysisResult.project_data r with
              | Some data => snd (MongoDB.updateProject now projectId data db1)
              | None => db1
              end).
  set (db3 := snd (MongoDB.incrementScanUsage now uid db2)).
  assert (Hdb : db <> None).
  { destruct db; [discriminate|]. discriminate Hproject. }
  assert (H1 : db1 = None <-> db = None) by apply addAnalysis_connected.
  assert (H2 : db2 = None <-> db = None).
  { subst db2. destruct (AIAnalysisResult.project_data r); [|exact H1].
    rewrite updateProject_connected. exact H1. }
  assert (H3 : db3 = None <-> db = None).
  { subst db3. rewrite incrementScanUsage_connected. exact H2. }
  assert (Hh1 : history_of db1 = history_of db) by apply addAnalysis_history.
  assert (Hh2 : history_of db2 = history_of db).
  { subst db2. destruct (AIAnalysisResult.project_data r); [|exact Hh1].
    now rewrite updateProject_history. }
  assert (Hh3 : history_of db3 = history_of db).
  { subst db3. now rewrite incrementScanUsage_history. }
  assert (Hu2 : forall x, MongoDB.getUserById db2 x = MongoDB.getUserById db x).
  { intros x. subst db2 db1. destruct (AIAnalysisResult.project_data r).
    - now rewrite updateProject_users, addAnalysis_users.
    - apply addAnalysis_users. }
  rewrite (getLatestAnalysis_history db3 db projectId Hh3 H3).
  split; [now eexists|].
  split.
  { destruct db3 as [d3|] eqn:E3; [|tauto]. cbn. cbn in Hh3. now rewrite Hh3. }
  split.
  - intros u Hu. rewrite createAnalysisHistory_users. subst db3.
    apply incrementScanUsage_user. now rewrite Hu2.
  - intros other Hne. rewrite createAnalysisHistory_users. subst db3.
    rewrite incrementScanUsage_others by exact Hne. apply Hu2.
Qed.

End AnalyzeHandler.

(** ** The delta record *)

Section Deltas.
Context `{JS.Runtime}.



End Deltas.



(** ** Scan usage *)

Section ScanUsage.
Context `{JS.Runtime}.
Variable decodeToken : string -> option Auth.TokenPayload.

Lemma requireAuth_reply db request sent request' :
  Auth.requireAuth decodeToken db request = (Some sent, request') ->
  Auth.status sent = 401%Z \/ Auth.status sent = 403%Z.
Proof.
  unfold Auth.requireAuth.
  destruct (Auth.authorization request) as [authHeader|];
    [|intros [= <- _]; cbn; tauto].
  destruct (negb (String.prefix "Bearer " authHeader)); [intros [= <- _]; cbn; tauto|].
  destruct (decodeToken _) as [payload|]; [|intros [= <- _]; cbn; tauto].
  destruct (negb (String.eqb (Auth.type payload) "access"));
    [intros [= <- _]; cbn; tauto|].
  destruct (String.eqb (Auth.sub payload) ""); [intros [= <- _]; cbn; tauto|].
  destruct (MongoDB.getUserById db (Auth.sub payload)) as [u|];
    [|intros [= <- _]; cbn; tauto].
  destruct (negb _); [intros [= <- _]; cbn; tauto|discriminate].
Qed.

Lemma checkScanLimit_cases now db request reply request' :
  Auth.checkScanLimit decodeToken now db request = (reply, request') ->
  match reply with
  | Some sent => Auth.status sent = 401%Z \/ Auth.status sent = 403%Z
  | None => Auth.requireAuth decodeToken db request = (None, request')
  end.
Proof.
  unfold Auth.checkScanLimit.
  destruct (Auth.requireAuth decodeToken db request) as [[sent|] request0] eqn:Hauth.
  - intros [= <- <-]. eapply requireAuth_reply, Hauth.
  - destruct (_ && _); intros [= <- <-]; [now right|reflexivity].
Qed.

(** When the handler answers with an error it has written nothing. *)
Lemma analyze_handler_sent now r projectId userId db status detail :
  fst (ProjectRoutes.analyze_handler now r projectId userId db)
  = ProjectRoutes.Sent status detail ->
  snd (ProjectRoutes.analyze_handler now r projectId userId db) = db
  /\ (status = 404%Z
      \/ status = 400%Z /\ detail = ProjectRoutes.error_detail r
         /\ ProjectRoutes.adapter_failed r = true).
Proof.
  unfold ProjectRoutes.analyze_handler.
  destruct (MongoDB.getProject db projectId) as [project|], userId as [uid|];
    try (intros [= <- <-]; now auto).
  destruct (negb _); [intros [= <- <-]; now auto|].
  destruct (ProjectRoutes.adapter_failed r) eqn:Hfail; [|discriminate].
  intros [= <- <-]. auto.
Qed.

Lemma analyze_handler_failed now r projectId userId db :
  ProjectRoutes.adapter_failed r = true ->
  exists status detail,
    fst (ProjectRoutes.analyze_handler now r projectId userId db)
    = ProjectRoutes.Sent status detail.
Proof.
  intros Hfail. unfold ProjectRoutes.analyze_handler.
  destruct (MongoDB.getProject db projectId) as [project|], userId as [uid|];
    try (now eexists; eexists).
  destruct (negb _); [now eexists; eexists|].
  rewrite Hfail. now eexists; eexists.
Qed.


End ScanUsage.


(** ** The connection under overlapping and non-overlapping calls *)

Section ConnectionAttempts.
Variable MONGODB_URI : option string.


Lemma in_flight_le_pending s : (Connection.in_flight s <= Connection.pending s)%nat.
Proof.
  unfold Connection.in_flight, Connection.pending.
  induction (Connection.calls s) as [|c l IH]; [reflexivity|].
  rewrite !filter_cons.
  destruct c; cbn; repeat case_decide; cbn; try congruence; lia.
Qed.




Hypothesis Hconfigured : Connection.configured MONGODB_URI = true.


End ConnectionAttempts.



(** * Properties of the store, the routes and the connection hook *)

(** ** The document store: creating and deleting projects *)

Section StoreCounts.

Lemma count_insert_new {A} (P : A -> Prop) `{!forall a, Decision (P a)}
    (m : gmap string A) k a :
  m !! k = None ->
  length (filter P (snd <$> map_to_list (<[k := a]> m)))
  = (if decide (P a) then S (length (filter P (snd <$> map_to_list m)))
     else length (filter P (snd <$> map_to_list m))).
Proof.
  intros Hk. rewrite (map_to_list_insert m k a Hk).
  cbn [fmap list_fmap snd]. rewrite filter_cons. now destruct (decide (P a)).
Qed.

Lemma count_delete {A} (P : A -> Prop) `{!forall a, Decision (P a)}
    (m : gmap string A) k a :
  m !! k = Some a ->
  length (filter P (snd <$> map_to_list m))
  = (if decide (P a) then S (length (filter P (snd <$> map_to_list (delete k m))))
     else length (filter P (snd <$> map_to_list (delete k m)))).
Proof.
  intros Hk. rewrite <- (map_to_list_delete m k a Hk).
  cbn [fmap list_fmap snd]. rewrite filter_cons. now destruct (decide (P a)).
Qed.

Lemma count_replace_same {A} (P : A -> Prop) `{!forall a, Decision (P a)}
    (m : gmap string A) k a a' :
  m !! k = Some a -> (P a <-> P a') ->
  length (filter P (snd <$> map_to_list (<[k := a']> m)))
  = length (filter P (snd <$> map_to_list m)).
Proof.
  intros Hk Hiff. rewrite <- insert_delete_eq.
  rewrite count_insert_new by apply lookup_delete_eq.
  rewrite (count_delete P m k a Hk).
  destruct (decide (P a)), (decide (P a')); tauto.
Qed.

End StoreCounts.

Section ProjectStore.

Lemma getUserById_set_projects d ps uid :
  MongoDB.getUserById (Some (MongoDB.set_projects d ps)) uid = MongoDB.getUserById (Some d) uid.
Proof. reflexivity. Qed.

(** What [createProject] stores under an id that is not in use. *)
Lemma createProject_stored now insertedId userId name description location mode db :
  MongoDB.getProject db insertedId = None -> db <> None ->
  let out :=
    MongoDB.createProject now insertedId userId name description location mode db in
  fst out = Some insertedId
  /\ MongoDB.getProject (snd out) insertedId
     = Some (created_project now insertedId userId name description location mode)
  /\ MongoDB.countUserProjects (snd out) userId = S (MongoDB.countUserProjects db userId).
Proof.
  intros Hfresh Hdb out. subst out.
  destruct db as [d|]; [clear Hdb|contradiction]. cbn in Hfresh.
  unfold MongoDB.createProject. rewrite Hfresh. cbn [fst snd].
  split; [reflexivity|].
  split; [cbn; apply lookup_insert_eq|].
  cbn. rewrite count_insert_new by exact Hfresh. cbn.
  destruct (decide (userId = userId)); [reflexivity|contradiction].
Qed.

(** [createProject] and [getProject] round trip.  When the generated id is
    not in use, the new project is stored under it as an active project of
    the caller with no analyses and no project data; every other project,
    every user and the history are left as they were; and the caller owns
    one project more, every other user as many as before. *)
Theorem createProject_getProject now insertedId userId name description location mode db :
  MongoDB.getProject db insertedId = None -> db <> None ->
  let out :=
    MongoDB.createProject now insertedId userId name description location mode db in
  fst out = Some insertedId
  /\ MongoDB.getProject (snd out) insertedId
     = Some (created_project now insertedId userId name description location mode)
  /\ (forall other, other <> insertedId ->
        MongoDB.getProject (snd out) other = MongoDB.getProject db other)
  /\ MongoDB.countUserProjects (snd out) userId = S (MongoDB.countUserProjects db userId)
  /\ (forall other, other <> userId ->
        MongoDB.countUserProjects (snd out) other = MongoDB.countUserProjects db other)
  /\ (forall uid, MongoDB.getUserById (snd out) uid = MongoDB.getUserById db uid)
  /\ history_of (snd out) = history_of db.
Proof.
  intros Hfresh Hdb out. subst out.
  destruct db as [d|]; [clear Hdb|contradiction]. cbn in Hfresh.
  unfold MongoDB.createProject. rewrite Hfresh. cbn [fst snd].
  split; [reflexivity|].
  split; [cbn; apply lookup_insert_eq|].
  split; [intros other Hne; cbn; now apply lookup_insert_ne|].
  split.
  { cbn. rewrite count_insert_new by exact Hfresh. cbn.
    destruct (decide (userId = userId)); [reflexivity|contradiction]. }
  split; [|split; reflexivity].
  intros other Hne. cbn. rewrite count_insert_new by exact Hfresh. cbn.
  destruct (decide (userId = other)); [congruence|reflexivity].
Qed.

End ProjectStore.

(** A second project for the example user: the id p2 is not in use, and
    afterwards the user owns two projects. *)
Lemma createProject_getProject_witness :
  MongoDB.getProject (scans_db []) "p2" = None
  /\ MongoDB.countUserProjects (scans_db []) "ann" = 1%nat
  /\ MongoDB.countUserProjects
       (snd (MongoDB.createProject (example_date 3) "p2" "ann" "Annex" "" "Pune"
               "completed" (scans_db []))) "ann" = 2%nat.
Proof.
  split; [reflexivity|]. split; [reflexivity|].
  pose proof (createProject_getProject (example_date 3) "p2" "ann" "Annex" "" "Pune"
                "completed" (scans_db []) eq_refl) as Hcreate.
  cbv zeta in Hcreate.
  destruct Hcreate as (_ & _ & _ & Hcount & _); [discriminate|].
  rewrite Hcount. reflexivity.
Defined.

Section DeleteProject.

(** [deleteProject].  Deleting a project that is not stored changes
    nothing and reports [false].  Deleting a stored project reports [true]
    and removes that project and no other; its owner has one project less;
    every user document is kept; and so is the history collection: the
    history entries of the deleted project stay in it and are still
    returned by [getAnalysisHistory]. *)
Theorem deleteProject_removes_only_the_project db projectId :
  let out := MongoDB.deleteProject projectId db in
  (MongoDB.getProject db projectId = None -> out = (false, db))
  /\ (forall project,
        MongoDB.getProject db projectId = Some project ->
        fst out = true
        /\ MongoDB.getProject (snd out) projectId = None
        /\ (forall other, other <> projectId ->
              MongoDB.getProject (snd out) other = MongoDB.getProject db other)
        /\ S (MongoDB.countUserProjects (snd out) (ProjectDocument.user_id project))
           = MongoDB.countUserProjects db (ProjectDocument.user_id project)
        /\ (forall other, other <> ProjectDocument.user_id project ->
              MongoDB.countUserProjects (snd out) other = MongoDB.countUserProjects db other)
        /\ (forall uid, MongoDB.getUserById (snd out) uid = MongoDB.getUserById db uid)
        /\ history_of (snd out) = history_of db
        /\ (forall limit,
              MongoDB.getAnalysisHistory (snd out) projectId limit
              = MongoDB.getAnalysisHistory db projectId limit)).
Proof.
  intros out. subst out. unfold MongoDB.deleteProject.
  destruct db as [d|]; cbn [MongoDB.getProject].
  2: { split; [reflexivity|]. intros project Hp. discriminate Hp. }
  split.
  { intros Hnone. now rewrite Hnone. }
  intros project Hp. rewrite Hp. cbn [fst snd].
  split; [reflexivity|].
  split; [cbn; apply lookup_delete_eq|].
  split; [intros other Hne; cbn; now apply lookup_delete_ne|].
  split.
  { cbn. rewrite (count_delete _ (MongoDB.projects d) projectId project Hp).
    destruct (decide _); [reflexivity|contradiction]. }
  split; [|repeat split].
  intros other Hne. cbn.
  rewrite (count_delete _ (MongoDB.projects d) projectId project Hp).
  destruct (decide _); [congruence|reflexivity].
Qed.

End DeleteProject.

(** The project of the example is deleted; the entry recorded for it stays
    in the history. *)
Lemma deleteProject_removes_only_the_project_witness :
  MongoDB.getProject (scans_db [example_entry 1 40 None]) "p1" = Some (example_project None)
  /\ MongoDB.getProject
       (snd (MongoDB.deleteProject "p1" (scans_db [example_entry 1 40 None]))) "p1" = None
  /\ MongoDB.getAnalysisHistory
       (snd (MongoDB.deleteProject "p1" (scans_db [example_entry 1 40 None]))) "p1" 10
     = [example_entry 1 40 None].
Proof.
  split; [reflexivity|].
  pose proof (deleteProject_removes_only_the_project
                (scans_db [example_entry 1 40 None]) "p1") as Hdelete.
  cbv zeta in Hdelete. destruct Hdelete as [_ Hdelete].
  destruct (Hdelete (example_project None) eq_refl)
    as (_ & Hgone & _ & _ & _ & _ & _ & Hhistory).
  split; [exact Hgone|]. rewrite Hhistory. reflexivity.
Defined.

(** ** Queries in date order *)

Section SortDesc.
Context {A : Type} (key : A -> Z).

Lemma descending_cons a l :
  descending key (a :: l)
  <-> (forall x, In x l -> (key x <= key a)%Z) /\ descending key l.
Proof.
  split.
  - intros Hl. split.
    + intros x Hx. apply list_elem_of_In, list_elem_of_lookup_1 in Hx as [j Hj].
      apply (Hl 0%nat (S j) a x); [lia|reflexivity|exact Hj].
    + intros i j x y Hij Hi Hj. apply (Hl (S i) (S j)); [lia|assumption..].
  - intros [Ha Hl] i j x y Hij Hi Hj.
    destruct j as [|j]; [lia|]. cbn in Hj.
    destruct i as [|i]; cbn in Hi.
    + injection Hi as <-. apply Ha.
      eapply list_elem_of_In, list_elem_of_lookup_2, Hj.
    + apply (Hl i j); [lia|assumption..].
Qed.

Lemma insert_desc_descending a l :
  descending key l -> descending key (MongoDB.insert_desc key a l).
Proof.
  induction l as [|b l IH]; intros Hl; cbn.
  - apply descending_cons. split; [intros x []|]. intros i j x y _ Hi. discriminate Hi.
  - apply descending_cons in Hl as [Hb Hl].
    destruct (Z.leb_spec (key b) (key a)).
    + apply descending_cons. split.
      * intros x [->|Hx]; [assumption|]. specialize (Hb x Hx). lia.
      * now apply descending_cons.
    + apply descending_cons. split; [|now apply IH].
      intros x Hx. apply In_insert_desc in Hx as [->|Hx]; [lia|now apply Hb].
Qed.

Lemma sort_desc_descending l : descending key (MongoDB.sort_desc key l).
Proof.
  induction l as [|a l IH]; cbn.
  - intros i j x y _ Hi. discriminate Hi.
  - now apply insert_desc_descending.
Qed.

Lemma descending_take n l : descending key l -> descending key (take n l).
Proof.
  intros Hl i j a b Hij Hi Hj.
  apply lookup_take_Some in Hi as [Hi _]. apply lookup_take_Some in Hj as [Hj _].
  now apply (Hl i j).
Qed.

Lemma descending_drop n l : descending key l -> descending key (drop n l).
Proof.
  intros Hl i j a b Hij Hi Hj.
  rewrite lookup_drop in Hi, Hj. apply (Hl (n + i)%nat (n + j)%nat); [lia|assumption..].
Qed.

Lemma insert_desc_Permutation a l : MongoDB.insert_desc key a l ≡ₚ a :: l.
Proof.
  induction l as [|b l IH]; cbn; [reflexivity|].
  destruct (key b <=? key a)%Z; [reflexivity|].
  rewrite IH. apply Permutation_swap.
Qed.

Lemma sort_desc_Permutation l : MongoDB.sort_desc key l ≡ₚ l.
Proof.
  induction l as [|a l IH]; cbn; [reflexivity|].
  now rewrite insert_desc_Permutation, IH.
Qed.

End SortDesc.

Section Queries.

Lemma getUserProjects_spec db userId skip limit :
  let page := MongoDB.getUserProjects db userId skip limit in
  (forall p, In p page ->
     ProjectDocument.user_id p = userId /\ exists k, MongoDB.getProject db k = Some p)
  /\ descending (fun p => JS.getTime (ProjectDocument.created_at p)) page
  /\ length page = Nat.min limit (MongoDB.countUserProjects db userId - skip).
Proof.
  intros page. subst page. destruct db as [d|]; cbn.
  2: { split; [intros p []|]. split; [|now rewrite Nat.min_0_r].
       intros i j a b _ Hi. discriminate Hi. }
  set (owned := filter _ (snd <$> map_to_list (MongoDB.projects d))).
  split; [|split].
  - intros p Hp. apply list_elem_of_In in Hp.
    apply subseteq_take, subseteq_drop, list_elem_of_In, In_sort_desc in Hp.
    subst owned. apply list_elem_of_In, list_elem_of_filter in Hp as [Howner Hp].
    split; [exact Howner|].
    apply list_elem_of_fmap in Hp as [[k p'] [-> Hkp]].
    exists k. now apply elem_of_map_to_list in Hkp.
  - apply descending_take, descending_drop, sort_desc_descending.
  - now rewrite length_take, length_drop, length_sort_desc.
Qed.

(** The list route.  For a positive page number and page size: [total]
    is the number of the caller's projects; the page holds
    min(per_page, total - (page - 1) * per_page) projects, so a page past
    the end is empty; and the projects listed are stored projects of the
    caller, the most recently created first. *)
Theorem list_handler_page db userId page per_page :
  (1 <= page)%nat -> (1 <= per_page)%nat ->
  let response := ProjectRoutes.list_handler db userId page per_page in
  let total := ProjectRoutes.ProjectListResponse.total response in
  total = MongoDB.countUserProjects db userId
  /\ length (ProjectRoutes.ProjectListResponse.projects response)
     = Nat.min per_page (total - (page - 1) * per_page)
  /\ ((total <= (page - 1) * per_page)%nat ->
        ProjectRoutes.ProjectListResponse.projects response = [])
  /\ exists documents,
       ProjectRoutes.ProjectListResponse.projects response
       = ProjectRoutes.projectToResponse <$> documents
       /\ descending (fun p => JS.getTime (ProjectDocument.created_at p)) documents
       /\ forall p, In p documents ->
            ProjectDocument.user_id p = userId
            /\ exists k, MongoDB.getProject db k = Some p.
Proof.
  intros _ _ response total. subst total response. unfold ProjectRoutes.list_handler.
  cbn [ProjectRoutes.ProjectListResponse.total ProjectRoutes.ProjectListResponse.projects].
  destruct (getUserProjects_spec db userId ((page - 1) * per_page) per_page)
    as (Howned & Hsorted & Hlen).
  split; [reflexivity|].
  split; [now rewrite length_fmap|].
  split.
  { intros Hpast.
    destruct (MongoDB.getUserProjects db userId ((page - 1) * per_page) per_page);
      [reflexivity|]. cbn in Hlen. lia. }
  eexists. split; [reflexivity|]. now split.
Qed.

End Queries.

(** The one project of the example is on page 1; page 2 is empty. *)
Lemma list_handler_page_witness :
  (1 <= 2)%nat /\ (1 <= 10)%nat
  /\ ProjectRoutes.ProjectListResponse.total
       (ProjectRoutes.list_handler (scans_db []) "ann" 2 10) = 1%nat
  /\ ProjectRoutes.ProjectListResponse.projects
       (ProjectRoutes.list_handler (scans_db []) "ann" 2 10) = [].
Proof.
  assert (H2 : (1 <= 2)%nat) by lia. assert (H10 : (1 <= 10)%nat) by lia.
  split; [exact H2|]. split; [exact H10|].
  pose proof (list_handler_page (scans_db []) "ann" 2 10 H2 H10) as Hpage.
  cbv zeta in Hpage. destruct Hpage as (Htotal & _ & Hpast & _).
  split; [reflexivity|]. apply Hpast. rewrite Htotal. vm_compute. lia.
Defined.

Section HistoryQueries.

Lemma head_sort_desc_None {A} (key : A -> Z) (l : list A) :
  head (MongoDB.sort_desc key l) = None -> l = [].
Proof.
  intros Hh. destruct l as [|a l]; [reflexivity|].
  destruct (MongoDB.sort_desc key (a :: l)) eqn:Hs; [|discriminate Hh].
  apply (f_equal length) in Hs. rewrite length_sort_desc in Hs. discriminate Hs.
Qed.

Lemma getAnalysisHistory_descending db projectId limit :
  descending (fun h => JS.getTime (AnalysisHistoryDocument.analysis_date h))
    (MongoDB.getAnalysisHistory db projectId limit).
Proof.
  destruct db as [d|]; cbn.
  - apply descending_take, sort_desc_descending.
  - intros i j a b _ Hi. discriminate Hi.
Qed.

(** The history queries.  [getAnalysisHistory] returns entries of the
    project only, the latest analysis first, and for a positive limit
    min(limit, count) of them, where count is what [getAnalysisCount]
    reports; [getLatestAnalysis] finds nothing exactly when that count is
    0, and otherwise an entry of the project that no entry of the project
    is later than. *)
Theorem history_queries db projectId limit :
  let history := MongoDB.getAnalysisHistory db projectId limit in
  let count := MongoDB.getAnalysisCount db projectId in
  let time h := JS.getTime (AnalysisHistoryDocument.analysis_date h) in
  (forall h, In h history ->
     AnalysisHistoryDocument.project_id h = projectId /\ In h (history_of db))
  /\ descending time history
  /\ ((0 < limit)%nat -> length history = Nat.min limit count)
  /\ (MongoDB.getLatestAnalysis db projectId = None <-> count = 0%nat)
  /\ (forall latest, MongoDB.getLatestAnalysis db projectId = Some latest ->
        AnalysisHistoryDocument.project_id latest = projectId
        /\ In latest (history_of db)
        /\ forall h, In h (history_of db) ->
             AnalysisHistoryDocument.project_id h = projectId ->
             (time h <= time latest)%Z).
Proof.
  intros history count time. subst history count.
  split; [|split; [|split; [|split]]].
  - intros h Hh. destruct db as [d|]; [|destruct Hh].
    cbn in Hh. apply list_elem_of_In, subseteq_take, list_elem_of_In, In_sort_desc in Hh.
    apply list_elem_of_In, list_elem_of_filter in Hh as [Hpid Hh].
    split; [exact Hpid|]. now apply list_elem_of_In.
  - apply getAnalysisHistory_descending.
  - intros _. apply length_getAnalysisHistory.
  - split.
    + intros Hnone. destruct db as [d|]; [|reflexivity]. cbn in *.
      unfold MongoDB.project_history in Hnone.
      apply head_sort_desc_None in Hnone. now rewrite Hnone.
    + apply getLatestAnalysis_None.
  - intros latest Hlatest.
    destruct (Nat.eq_dec (history_count db projectId) 0%nat) as [Hz|Hnz].
    { rewrite (getLatestAnalysis_None db projectId Hz) in Hlatest. discriminate Hlatest. }
    destruct (getLatestAnalysis_Some db projectId) as (previous & Hp & Hin & Hpid & Hmax);
      [lia|].
    rewrite Hp in Hlatest. injection Hlatest as <-. auto.
Qed.

(** [getPreviousAnalysis] returns an entry of the project dated before
    [beforeDate] that no such entry is later than, and finds nothing
    exactly when the project has no entry dated before [beforeDate]. *)
Theorem getPreviousAnalysis_latest_before db projectId beforeDate :
  let time h := JS.getTime (AnalysisHistoryDocument.analysis_date h) in
  match MongoDB.getPreviousAnalysis db projectId beforeDate with
  | Some previous =>
      In previous (history_of db)
      /\ AnalysisHistoryDocument.project_id previous = projectId
      /\ (time previous < JS.getTime beforeDate)%Z
      /\ forall h, In h (history_of db) ->
           AnalysisHistoryDocument.project_id h = projectId ->
           (time h < JS.getTime beforeDate)%Z ->
           (time h <= time previous)%Z
  | None =>
      forall h, In h (history_of db) ->
        AnalysisHistoryDocument.project_id h = projectId ->
        (JS.getTime beforeDate <= time h)%Z
  end.
Proof.
  intros time. destruct db as [d|]; cbn; [|intros h []].
  set (earlier := filter _ (MongoDB.analyses_history d)).
  destruct (MongoDB.sort_desc _ earlier) as [|previous rest] eqn:Hs; cbn.
  - intros h Hh Hpid.
    assert (Hnil : earlier = []).
    { eapply head_sort_desc_None. now rewrite Hs. }
    destruct (Z.le_gt_cases (JS.getTime beforeDate) (time h)) as [Hle|Hlt]; [exact Hle|].
    assert (Hin : h ∈ earlier).
    { subst earlier. apply list_elem_of_filter. split; [split; [exact Hpid|]|].
      - subst time. cbn in Hlt. lia.
      - now apply list_elem_of_In. }
    rewrite Hnil in Hin. now apply not_elem_of_nil in Hin.
  - assert (Hin : In previous earlier).
    { eapply In_sort_desc. rewrite Hs. now left. }
    subst earlier.
    apply list_elem_of_In, list_elem_of_filter in Hin as [[Hpid Hlt] Hin].
    split; [now apply list_elem_of_In|]. split; [exact Hpid|]. split; [exact Hlt|].
    intros h Hh Hhpid Hhlt.
    apply (sort_desc_head time _ previous rest Hs).
    apply list_elem_of_In, list_elem_of_filter.
    split; [split; assumption|now apply list_elem_of_In].
Qed.

End HistoryQueries.

(** ** The scan quota over a run of requests *)

Section Quota.
Context `{JS.Runtime}.
Variable decodeToken : string -> option Auth.TokenPayload.

(** What a request that passed [checkScanLimit] says about its caller. *)
Lemma checkScanLimit_passes now db request request' :
  Auth.checkScanLimit decodeToken now db request = (None, request') ->
  exists caller u,
    Auth.userId request' = Some caller
    /\ MongoDB.getUserById db caller = Some u
    /\ (counts_as_free (UserDocument.subscription u) ->
        (UserSubscription.scans_used (UserDocument.subscription u)
         < effective_limit (UserDocument.subscription u))%Z).
Proof.
  intros Hgate. pose proof (checkScanLimit_cases decodeToken now db request _ _ Hgate) as Hauth.
  cbn in Hauth.
  destruct (requireAuth_passes decodeToken db request request' Hauth)
    as (caller & u & Hcaller & Hu & _ & Hsub).
  exists caller, u. split; [exact Hcaller|]. split; [exact Hu|].
  unfold Auth.checkScanLimit in Hgate. rewrite Hauth, Hsub in Hgate.
  unfold counts_as_free, effective_limit. intros Hfree.
  destruct (String.eqb_spec (JS.str_or (UserSubscription.plan (UserDocument.subscription u))
                               "free") "free") as [_|Hne]; [|contradiction].
  cbn [andb] in Hgate.
  destruct (Z.leb_spec
              (JS.int_or (UserSubscription.scans_limit (UserDocument.subscription u)) 3)
              (JS.int_or (UserSubscription.scans_used (UserDocument.subscription u)) 0))
    as [Hle|Hlt]; [discriminate Hgate|].
  unfold JS.int_or in Hlt at 1.
  destruct (Z.eqb_spec (UserSubscription.scans_used (UserDocument.subscription u)) 0);
    lia.
Qed.

(** One request to the analyze route either leaves the store as it is, or
    was let through by [checkScanLimit] and adds one scan to its caller and
    to no one else. *)
Lemma analyze_endpoint_effect now r projectId request db :
  let out := ProjectRoutes.analyze_endpoint decodeToken now r projectId request db in
  snd out = db
  \/ exists caller u,
       MongoDB.getUserById db caller = Some u
       /\ (counts_as_free (UserDocument.subscription u) ->
           (UserSubscription.scans_used (UserDocument.subscription u)
            < effective_limit (UserDocument.subscription u))%Z)
       /\ MongoDB.getUserById (snd out) caller = Some (MongoDB.increment_scans now u)
       /\ forall other, other <> caller ->
            MongoDB.getUserById (snd out) other = MongoDB.getUserById db other.
Proof.
  intros out. subst out. unfold ProjectRoutes.analyze_endpoint.
  destruct (Auth.checkScanLimit decodeToken now db request) as [[sent|] request'] eqn:Hgate;
    [now left|].
  destruct (checkScanLimit_passes now db request request' Hgate)
    as (caller & u & Hcaller & Hu & Hquota).
  rewrite Hcaller.
  destruct (fst (ProjectRoutes.analyze_handler now r projectId (Some caller) db))
    as [status detail|body] eqn:Hout.
  { left. now apply analyze_handler_sent in Hout as [-> _]. }
  right. exists caller, u. split; [exact Hu|]. split; [exact Hquota|].
  destruct (ProjectRoutes.adapter_failed r) eqn:Hfail.
  { destruct (analyze_handler_failed now r projectId (Some caller) db Hfail)
      as (status & detail & Hs). congruence. }
  assert (Hproject : exists project,
             MongoDB.getProject db projectId = Some project
             /\ ProjectDocument.user_id project = caller).
  { unfold ProjectRoutes.analyze_handler in Hout.
    destruct (MongoDB.getProject db projectId) as [project|]; [|discriminate].
    exists project. split; [reflexivity|].
    destruct (String.eqb_spec (ProjectDocument.user_id project) caller); [assumption|].
    discriminate. }
  destruct Hproject as (project & Hproject & Howner).
  destruct (analyze_handler_success now r projectId caller db project Hproject Howner Hfail)
    as (_ & _ & Hcaller' & Hothers).
  split; [now apply Hcaller'|exact Hothers].
Qed.

(** The scan quota.  Whatever requests the analyze route serves, one after
    the other, a user's plan and limit stay as they are and the scans used
    never go down and go up by at most one per request; and for a user
    whose plan counts as free they never pass the limit the gate enforces
    (or the number they started from, if that was above it). *)
Theorem analyze_quota requests db uid u :
  MongoDB.getUserById db uid = Some u ->
  let s := UserDocument.subscription u in
  exists u',
    MongoDB.getUserById (serve_all decodeToken requests db) uid = Some u'
    /\ let s' := UserDocument.subscription u' in
       UserSubscription.plan s' = UserSubscription.plan s
       /\ UserSubscription.scans_limit s' = UserSubscription.scans_limit s
       /\ (UserSubscription.scans_used s <= UserSubscription.scans_used s'
           <= UserSubscription.scans_used s + Z.of_nat (length requests))%Z
       /\ (counts_as_free s ->
           (UserSubscription.scans_used s'
            <= Z.max (UserSubscription.scans_used s) (effective_limit s))%Z).
Proof.
  revert db u. unfold serve_all.
  induction requests as [|r requests IH]; intros db u Hu;
    set (s := UserDocument.subscription u).
  - exists u. split; [exact Hu|]. subst s. cbn. repeat split; try lia; intros _; lia.
  - cbn [fold_left length].
    assert (Hstep : exists u1,
               MongoDB.getUserById (serve decodeToken db r) uid = Some u1
               /\ UserSubscription.plan (UserDocument.subscription u1)
                  = UserSubscription.plan s
               /\ UserSubscription.scans_limit (UserDocument.subscription u1)
                  = UserSubscription.scans_limit s
               /\ (UserSubscription.scans_used s
                   <= UserSubscription.scans_used (UserDocument.subscription u1)
                   <= UserSubscription.scans_used s + 1)%Z
               /\ (counts_as_free s ->
                   (UserSubscription.scans_used (UserDocument.subscription u1)
                    <= Z.max (UserSubscription.scans_used s) (effective_limit s))%Z)).
    { unfold serve. subst s.
      destruct (analyze_endpoint_effect (AnalyzeRequest.now r)
                  (AnalyzeRequest.analysisResult r) (AnalyzeRequest.projectId r)
                  (AnalyzeRequest.request r) db)
        as [->|(caller & uc & Huc & Hquota & Hcaller & Hothers)].
      - exists u. split; [exact Hu|]. repeat split; try lia; intros _; lia.
      - destruct (String.eqb_spec uid caller) as [->|Hne].
        + rewrite Hu in Huc. injection Huc as <-.
          exists (MongoDB.increment_scans (AnalyzeRequest.now r) u).
          split; [exact Hcaller|]. cbn.
          repeat split; try lia. intros Hfree. specialize (Hquota Hfree). lia.
        + exists u. rewrite (Hothers uid Hne). split; [exact Hu|].
          repeat split; try lia; intros _; lia. }
    destruct Hstep as (u1 & Hu1 & Hplan1 & Hlimit1 & Hused1 & Hfree1).
    destruct (IH (serve decodeToken db r) u1 Hu1) as (u' & Hu' & Hplan & Hlimit & Hused & Hfree).
    exists u'. split; [exact Hu'|]. cbv zeta.
    split; [congruence|]. split; [congruence|]. split; [lia|].
    intros Hs.
    assert (Hs1 : counts_as_free (UserDocument.subscription u1)).
    { unfold counts_as_free in *. now rewrite Hplan1. }
    specialize (Hfree Hs1). specialize (Hfree1 Hs).
    assert (Heff : effective_limit (UserDocument.subscription u1) = effective_limit s).
    { unfold effective_limit. now rewrite Hlimit1. }
    rewrite Heff in Hfree. lia.
Qed.

End Quota.

(** The free user of the example has used 1 of 3 scans; of four further
    requests two complete, and the counter stops at 3. *)
Lemma analyze_quota_witness :
  MongoDB.getUserById (scans_db []) "ann" = Some (example_user "free" 1 3)
  /\ scans_used_of
       (serve_all example_decodeToken
          [example_analyze_request 5; example_analyze_request 6;
           example_analyze_request 7; example_analyze_request 8] (scans_db []))
       "ann" = Some 3%Z
  /\ exists u',
       MongoDB.getUserById
         (serve_all example_decodeToken
            [example_analyze_request 5; example_analyze_request 6;
             example_analyze_request 7; example_analyze_request 8] (scans_db []))
         "ann" = Some u'
       /\ (UserSubscription.scans_used (UserDocument.subscription u') <= 3)%Z.
Proof.
  split; [reflexivity|]. split; [vm_compute; reflexivity|].
  destruct (analyze_quota example_decodeToken
              [example_analyze_request 5; example_analyze_request 6;
               example_analyze_request 7; example_analyze_request 8]
              (scans_db []) "ann" (example_user "free" 1 3) eq_refl)
    as (u' & Hu' & _ & _ & _ & Hfree).
  exists u'. split; [exact Hu'|]. exact (Hfree eq_refl).
Defined.

(** ** The optional gate, the premium gate and a change of subscription *)

Section SubscriptionGates.
Variable decodeToken : string -> option Auth.TokenPayload.

(** [requireAuthOptional] and [requireAuth] agree: the optional check
    attaches to the request exactly what [requireAuth] attaches when it
    lets the request through, and leaves the request as it came when
    [requireAuth] would answer an error. *)
Theorem requireAuthOptional_agrees db request :
  Auth.requireAuthOptional decodeToken db request
  = match Auth.requireAuth decodeToken db request with
    | (None, authenticated) => authenticated
    | (Some _, _) => request
    end.
Proof.
  unfold Auth.requireAuthOptional, Auth.requireAuth.
  destruct (Auth.authorization request) as [authHeader|]; [|reflexivity].
  destruct (negb (String.prefix "Bearer " authHeader)); [reflexivity|].
  destruct (decodeToken _) as [payload|]; [|reflexivity].
  destruct (negb (String.eqb (Auth.type payload) "access")); [reflexivity|].
  destruct (String.eqb (Auth.sub payload) ""); [reflexivity|].
  destruct (MongoDB.getUserById db (Auth.sub payload)) as [u|]; [|reflexivity].
  now destruct (negb _).
Qed.

(** A request that authenticates as [uid] still does after the user
    document changed, if the account is as active as before. *)
Lemma requireAuth_user_change db db' request authenticated uid u u' :
  Auth.requireAuth decodeToken db request = (None, authenticated) ->
  Auth.userId authenticated = Some uid ->
  MongoDB.getUserById db uid = Some u ->
  MongoDB.getUserById db' uid = Some u' ->
  UserDocument.isActive u' = UserDocument.isActive u ->
  UserDocument.is_active u' = UserDocument.is_active u ->
  Auth.requireAuth decodeToken db' request
  = (None, {| Auth.authorization := Auth.authorization request;
              Auth.userId := Some uid;
              Auth.user := Some u';
              Auth.subscription := Some (UserDocument.subscription u') |}).
Proof.
  unfold Auth.requireAuth. intros Hauth Huid Hu Hu' Hactive Hactive'.
  destruct (Auth.authorization request) as [authHeader|]; [|discriminate].
  destruct (negb (String.prefix "Bearer " authHeader)); [discriminate|].
  destruct (decodeToken _) as [payload|]; [|discriminate].
  destruct (negb (String.eqb (Auth.type payload) "access")); [discriminate|].
  destruct (String.eqb (Auth.sub payload) ""); [discriminate|].
  destruct (MongoDB.getUserById db (Auth.sub payload)) as [u0|] eqn:Hu0; [|discriminate].
  destruct (negb _) eqn:Hact; [discriminate|].
  injection Hauth as <-. cbn in Huid. injection Huid as Huid. subst uid.
  rewrite Hu in Hu0. injection Hu0 as <-.
  rewrite Hu', Hactive, Hactive', Hact. reflexivity.
Qed.

(** A change of subscription and the gates.  [updateSubscription] sets the
    plan and the limit, derives the entitlements from the plan (reports
    for every plan but free, the API for enterprise only, 1, 10 or 100
    projects) and keeps the scans used; it reports [true] when
    [updated_at] moves.  For a request of that user after
    the change: [requirePremium] answers 403 exactly when the new plan is
    free; [checkScanLimit] lets every plan through that is neither free
    nor empty, whatever the usage; and on the free plan with a limit other
    than 0 it answers 403 exactly when the scans used before the change
    have reached the new limit. *)
Theorem updateSubscription_and_gates now now' userId plan scansLimit db request
    authenticated u :
  Auth.requireAuth decodeToken db request = (None, authenticated) ->
  Auth.userId authenticated = Some userId ->
  MongoDB.getUserById db userId = Some u ->
  let out := MongoDB.updateSubscription now userId plan scansLimit db in
  let used := UserSubscription.scans_used (UserDocument.subscription u) in
  (JS.getTime (UserDocument.updated_at u) <> JS.getTime now -> fst out = true)
  /\ (exists u',
        MongoDB.getUserById (snd out) userId = Some u'
        /\ let s' := UserDocument.subscription u' in
           UserSubscription.plan s' = plan
           /\ UserSubscription.scans_limit s' = scansLimit
           /\ UserSubscription.scans_used s' = used
           /\ (UserSubscription.has_report_access s' = true <-> plan <> "free")
           /\ (UserSubscription.has_api_access s' = true <-> plan = "enterprise")
           /\ UserSubscription.max_projects s'
              = (if String.eqb plan "free" then 1
                 else if String.eqb plan "pro" then 10 else 100)%Z)
  /\ (forall other, other <> userId ->
        MongoDB.getUserById (snd out) other = MongoDB.getUserById db other)
  /\ (fst (Auth.requirePremium decodeToken now' (snd out) request)
      = Some {| Auth.status := 403; Auth.detail := "Premium subscription required" |}
      <-> plan = "free")
  /\ (plan <> "free" ->
      fst (Auth.requirePremium decodeToken now' (snd out) request) = None)
  /\ (plan <> "free" -> plan <> "" ->
      fst (Auth.checkScanLimit decodeToken now' (snd out) request) = None)
  /\ (plan = "free" -> scansLimit <> 0%Z ->
      (fst (Auth.checkScanLimit decodeToken now' (snd out) request)
       = Some scan_limit_reached
       <-> (scansLimit <= used)%Z)).
Proof.
  intros Hauth Huid Hu out used.
  assert (Hd : exists d, db = Some d /\ MongoDB.users d !! userId = Some u).
  { destruct db as [d|]; [|discriminate Hu]. now exists d. }
  destruct Hd as (d & -> & Hud).
  subst out. unfold MongoDB.updateSubscription. rewrite Hud. cbn [fst snd].
  match goal with
  | |- context [<[userId := ?x]> (MongoDB.users d)] => set (u' := x)
  end.
  set (db' := Some _).
  assert (Hu' : MongoDB.getUserById db' userId = Some u') by apply lookup_insert_eq.
  pose proof (requireAuth_user_change (Some d) db' request authenticated userId u u'
                Hauth Huid Hu Hu' eq_refl eq_refl) as Hauth'.
  split.
  { intros Hlater. unfold MongoDB.subscription_modified.
    destruct (Z.eqb_spec (JS.getTime (UserDocument.updated_at u)) (JS.getTime now));
      [contradiction|].
    now rewrite andb_false_r. }
  split.
  { exists u'. split; [exact Hu'|]. cbn.
    split; [reflexivity|]. split; [reflexivity|]. split; [reflexivity|].
    split; [|split; [|reflexivity]].
    - destruct (String.eqb_spec plan "free"); cbn; split; congruence.
    - destruct (String.eqb_spec plan "enterprise"); split; congruence. }
  split.
  { intros other Hne. cbn. now apply lookup_insert_ne. }
  assert (Hpremium :
            fst (Auth.requirePremium decodeToken now' db' request)
            = if String.eqb plan "free"
              then Some {| Auth.status := 403; Auth.detail := "Premium subscription required" |}
              else None).
  { unfold Auth.requirePremium. rewrite Hauth'. cbn. now destruct (String.eqb plan "free"). }
  assert (Hscan :
            fst (Auth.checkScanLimit decodeToken now' db' request)
            = if String.eqb (JS.str_or plan "free") "free"
                 && (JS.int_or scansLimit 3 <=? JS.int_or used 0)%Z
              then Some scan_limit_reached else None).
  { unfold Auth.checkScanLimit. rewrite Hauth'. cbn. now destruct (_ && _). }
  split.
  { rewrite Hpremium. destruct (String.eqb_spec plan "free"); split; congruence. }
  split.
  { intros Hne. rewrite Hpremium. destruct (String.eqb_spec plan "free"); congruence. }
  split.
  { intros Hne Hne'. rewrite Hscan. unfold JS.str_or.
    destruct (String.eqb_spec plan ""); [contradiction|].
    destruct (String.eqb_spec plan "free"); [contradiction|]. reflexivity. }
  intros -> Hl. rewrite Hscan. cbn [JS.str_or String.eqb andb].
  change (String.eqb (JS.str_or "free" "free") "free") with true. cbn [andb].
  assert (Hused : JS.int_or used 0 = used).
  { unfold JS.int_or. destruct (Z.eqb_spec used 0); congruence. }
  rewrite Hused. unfold JS.int_or. destruct (Z.eqb_spec scansLimit 0); [contradiction|].
  destruct (Z.leb_spec scansLimit used); split; try discriminate; try lia; reflexivity.
Qed.

End SubscriptionGates.

(** The example user, with 3 of 3 free scans used, is upgraded to the pro
    plan: the scan gate lets the next request through. *)
Lemma updateSubscription_and_gates_witness :
  Auth.requireAuth example_decodeToken
    (example_db (example_user "free" 3 3) (example_project None) []) example_request
  = (None, example_authenticated (example_user "free" 3 3))
  /\ fst (Auth.checkScanLimit example_decodeToken (example_date 9)
            (snd (MongoDB.updateSubscription (example_date 8) "ann" "pro" (-1)
                    (example_db (example_user "free" 3 3) (example_project None) [])))
            example_request)
     = None.
Proof.
  split; [reflexivity|].
  pose proof (updateSubscription_and_gates example_decodeToken (example_date 8)
                (example_date 9) "ann" "pro" (-1)%Z
                (example_db (example_user "free" 3 3) (example_project None) [])
                example_request (example_authenticated (example_user "free" 3 3))
                (example_user "free" 3 3) eq_refl eq_refl eq_refl) as Hgates.
  cbv zeta in Hgates. destruct Hgates as (_ & _ & _ & _ & _ & Hscan & _).
  apply Hscan; discriminate.
Defined.

(** ** The portfolio: counts, comparisons and the projects most at risk *)

Section PortfolioCounts.
Context `{JS.Runtime}.

Lemma summary_step_classified t project :
  classified_count (Portfolio.summary_step t project)
  = (if classified project then S (classified_count t) else classified_count t).
Proof.
  unfold Portfolio.summary_step, classified, classified_count.
  destruct (ProjectDocument.project_data project) as [data|]; [|reflexivity].
  cbn [Portfolio.projectsOnTrack Portfolio.projectsAtRisk Portfolio.projectsDelayed].
  destruct (JS.typeof_number (ProjectData.progressPercentage data)); [|reflexivity].
  destruct (Portfolio.summary_status data); lia.
Qed.

Lemma fold_summary_step_classified projects t :
  classified_count (fold_left Portfolio.summary_step projects t)
  = (classified_count t + length (filter (fun p => classified p = true) projects))%nat.
Proof.
  revert t. induction projects as [|p projects IH]; intros t; cbn [fold_left].
  - cbn. lia.
  - rewrite IH, summary_step_classified, filter_cons.
    destruct (classified p); cbn.
    + destruct (decide (true = true)); [cbn; lia|contradiction].
    + destruct (decide (false = true)); [discriminate|lia].
Qed.

(** The counts of the portfolio summary.  The summary covers the caller's
    ten most recently created projects at most; the projects counted on
    track, at risk and delayed are together exactly those of them whose
    data reports a progress that is a number; a project without data, or
    with a progress that is no number, is in [total_projects] and in none
    of the three counts. *)
Theorem summary_counts db userId :
  let summary := Portfolio.getPortfolioSummary db userId in
  let projects := MongoDB.getUserProjects db userId 0 10 in
  Portfolio.total_projects summary = length projects
  /\ Portfolio.total_projects summary = Nat.min 10 (MongoDB.countUserProjects db userId)
  /\ (Portfolio.projects_on_track summary + Portfolio.projects_at_risk summary
      + Portfolio.projects_delayed summary
      = length (filter (fun p => classified p = true) projects))%nat
  /\ (Portfolio.projects_on_track summary + Portfolio.projects_at_risk summary
      + Portfolio.projects_delayed summary <= Portfolio.total_projects summary)%nat.
Proof.
  intros summary projects.
  assert (Htotal : Portfolio.total_projects summary = length projects).
  { subst summary projects. unfold Portfolio.getPortfolioSummary.
    destruct (Nat.eqb_spec (length (MongoDB.getUserProjects db userId 0 10)) 0) as [->|_];
      reflexivity. }
  assert (Hcounts : (Portfolio.projects_on_track summary + Portfolio.projects_at_risk summary
                     + Portfolio.projects_delayed summary
                     = length (filter (fun p => classified p = true) projects))%nat).
  { subst summary. unfold Portfolio.getPortfolioSummary. fold projects.
    destruct (Nat.eqb_spec (length projects) 0) as [Hz|_].
    - apply length_zero_iff_nil in Hz. now rewrite Hz.
    - cbn [Portfolio.projects_on_track Portfolio.projects_at_risk
           Portfolio.projects_delayed].
      pose proof (fold_summary_step_classified projects Portfolio.zero_totals) as Hfold.
      unfold classified_count in Hfold. cbn in Hfold. exact Hfold. }
  split; [exact Htotal|]. split.
  { rewrite Htotal. subst projects.
    destruct (getUserProjects_spec db userId 0 10) as (_ & _ & Hlen).
    rewrite Hlen. now rewrite Nat.sub_0_r. }
  split; [exact Hcounts|].
  rewrite Hcounts, Htotal. apply length_filter.
Qed.

End PortfolioCounts.

Section Comparisons.
Context `{JS.Runtime}.

(** [compareProjects] compares the caller's own projects only: every
    comparison is of a stored project of the caller, and when ids are
    requested, of one whose id was requested; ids of other users' projects
    select nothing.  An empty list of ids selects like no list at all. *)
Theorem compareProjects_own_projects db userId projectIds :
  (forall c, In c (Portfolio.compareProjects db userId projectIds) ->
     exists project k,
       MongoDB.getProject db k = Some project
       /\ ProjectDocument.user_id project = userId
       /\ c = Portfolio.compare_project project
       /\ match projectIds with
          | Some (id :: ids) => In (ProjectDocument._id project) (id :: ids)
          | _ => True
          end)
  /\ (length (Portfolio.compareProjects db userId projectIds) <= 10)%nat
  /\ Portfolio.compareProjects db userId (Some [])
     = Portfolio.compareProjects db userId None.
Proof.
  destruct (getUserProjects_spec db userId 0 10) as (Howned & _ & Hlen).
  cbv zeta in Howned, Hlen.
  unfold Portfolio.compareProjects.
  split; [|split; [|reflexivity]].
  - intros c Hc. apply in_map_iff in Hc as (project & <- & Hp).
    assert (Hsel : In project (MongoDB.getUserProjects db userId 0 10)
                   /\ match projectIds with
                      | Some (id :: ids) => In (ProjectDocument._id project) (id :: ids)
                      | _ => True
                      end).
    { destruct projectIds as [[|id ids]|]; cbn in Hp; try (split; [exact Hp|exact I]).
      apply list_elem_of_In, list_elem_of_filter in Hp as [Hid Hp].
      split; [now apply list_elem_of_In|now apply list_elem_of_In]. }
    destruct Hsel as [Hin Hsel].
    destruct (Howned project Hin) as [Howner [k Hk]].
    exists project, k. auto.
  - rewrite length_map.
    assert (Hfetched : (length (MongoDB.getUserProjects db userId 0 10) <= 10)%nat) by lia.
    destruct projectIds as [[|id ids]|]; cbn; try exact Hfetched.
    etransitivity; [apply length_filter|exact Hfetched].
Qed.

(** Status and risk level of a compared project go together: the status is
    on_track exactly when the risk level is low, and a delayed project is
    never of low risk. *)
Theorem compare_project_status_and_risk project :
  let c := Portfolio.compare_project project in
  (Portfolio.status c = Portfolio.on_track <-> Portfolio.risk_level c = Portfolio.low)
  /\ (Portfolio.status c = Portfolio.delayed -> Portfolio.risk_level c <> Portfolio.low).
Proof.
  unfold Portfolio.compare_project.
  cbn [Portfolio.status Portfolio.risk_level].
  set (delays := JS.or_else _ (JS.num 0)).
  set (safe70 := JS.lt _ (JS.num 70)). set (safe85 := JS.lt _ (JS.num 85)).
  set (strained := _ && _). set (strained' := _ && _).
  assert (Hdelays : JS.gt delays (JS.num 2) = true -> JS.gt delays (JS.num 1) = true).
  { unfold JS.gt, JS.lt, JS.num_gt, JS.num_lt. cbn [JS.ToNumber JS.num].
    destruct (JS.ToNumber delays) as [q|]; cbn; [|discriminate].
    rewrite !Qlt_bool_iff. intros Hq. lra. }
  set (over1 := JS.gt delays (JS.num 1)) in *.
  set (over2 := JS.gt delays (JS.num 2)) in *.
  set (over3 := JS.gt delays (JS.num 3)).
  destruct over2.
  - rewrite (Hdelays eq_refl).
    destruct (over3 || safe70 || strained); cbn [orb]; repeat split; intros; congruence.
  - destruct (over3 || safe70 || strained); [repeat split; intros; congruence|].
    destruct (over1 || safe85 || strained'); repeat split; intros; congruence.
Qed.

End Comparisons.

Section ArraySort.
Context {A : Type} (key : A -> Z).

Lemma sort_insert_Permutation (compareFn : A -> A -> Z) a l :
  JS.sort_insert compareFn a l ≡ₚ a :: l.
Proof.
  induction l as [|b l IH]; cbn; [reflexivity|].
  destruct (compareFn a b <=? 0)%Z; [reflexivity|].
  rewrite IH. apply Permutation_swap.
Qed.

Lemma sort_Permutation (compareFn : A -> A -> Z) l : JS.sort compareFn l ≡ₚ l.
Proof.
  induction l as [|a l IH]; cbn; [reflexivity|].
  now rewrite sort_insert_Permutation, IH.
Qed.

Lemma sort_insert_descending a l :
  descending key l ->
  descending key (JS.sort_insert (fun x y => (key y - key x)%Z) a l).
Proof.
  induction l as [|b l IH]; intros Hl; cbn.
  - apply descending_cons. split; [intros x []|]. intros i j x y _ Hi. discriminate Hi.
  - apply descending_cons in Hl as [Hb Hl].
    destruct (Z.leb_spec (key b - key a) 0).
    + apply descending_cons. split.
      * intros x [->|Hx]; [lia|]. specialize (Hb x Hx). lia.
      * now apply descending_cons.
    + apply descending_cons. split; [|now apply IH].
      intros x Hx.
      apply list_elem_of_In in Hx. rewrite sort_insert_Permutation in Hx.
      apply list_elem_of_In in Hx as [->|Hx]; [lia|now apply Hb].
Qed.

Lemma sort_descending l : descending key (JS.sort (fun x y => (key y - key x)%Z) l).
Proof.
  induction l as [|a l IH]; cbn.
  - intros i j x y _ Hi. discriminate Hi.
  - now apply sort_insert_descending.
Qed.

Lemma slice_to_take (limit : JS.number) (l : list A) :
  exists m, JS.slice_to limit l = take m l.
Proof. unfold JS.slice_to. destruct (_ <? 0)%Z; eexists; reflexivity. Qed.

Lemma slice_to_count n (l : list A) : JS.slice_to (count_limit n) l = take n l.
Proof.
  unfold JS.slice_to, count_limit, JS.ToInteger. cbn [inject_Z Qnum Qden].
  rewrite Z.quot_1_r.
  destruct (Z.ltb_spec (Z.of_nat n) 0); [lia|]. now rewrite Nat2Z.id.
Qed.

End ArraySort.

Section TopRisks.
Context `{JS.Runtime}.

(** [getTopRiskProjects] returns comparisons of the caller's projects from
    the highest risk level down; a comparison it leaves out is of no
    higher risk than any it returns; for a limit that is a natural number
    it returns min(limit, all) of them, and for a limit that is no number
    it returns none. *)
Theorem getTopRiskProjects_highest_first db userId limit :
  let top := Portfolio.getTopRiskProjects db userId limit in
  let all := Portfolio.compareProjects db userId None in
  let risk c := Portfolio.riskOrder (Portfolio.risk_level c) in
  descending risk top
  /\ (forall c, In c top -> In c all)
  /\ (forall c c', In c all -> ~ In c top -> In c' top -> (risk c <= risk c')%Z)
  /\ (forall n, limit = count_limit n -> length top = Nat.min n (length all))
  /\ (limit = JS.NaN -> top = []).
Proof.
  intros top all risk. subst top. unfold Portfolio.getTopRiskProjects. fold all.
  set (sorted := JS.sort _ all).
  assert (Hsorted : descending risk sorted) by apply sort_descending.
  assert (Hperm : sorted ≡ₚ all) by apply sort_Permutation.
  destruct (slice_to_take limit sorted) as [m Hm].
  split; [|split; [|split; [|split]]].
  - rewrite Hm. now apply descending_take.
  - intros c Hc. rewrite Hm in Hc.
    apply list_elem_of_In, subseteq_take in Hc. rewrite Hperm in Hc.
    now apply list_elem_of_In.
  - rewrite Hm. intros c c' Hall Hout Hin.
    apply list_elem_of_In in Hall. rewrite <- Hperm, <- (take_drop m sorted) in Hall.
    apply elem_of_app in Hall as [Hc|Hc]; [now apply list_elem_of_In in Hc|].
    apply list_elem_of_lookup_1 in Hc as [j Hj]. rewrite lookup_drop in Hj.
    apply list_elem_of_In, list_elem_of_lookup_1 in Hin as [i Hi].
    apply lookup_take_Some in Hi as [Hi Him].
    apply (Hsorted i (m + j)%nat c' c); [lia|assumption..].
  - intros n ->. rewrite slice_to_count, length_take.
    now rewrite (Permutation_length Hperm).
  - intros ->. reflexivity.
Qed.

End TopRisks.

(** ** The project routes: the project limit and ownership *)

Section CreateRoute.

(** The project limit of the create route (requests served one at a time;
    the driver's ids are never empty).  When the caller owns as many
    projects as the plan allows ([max_projects], 1 if that is 0) or more,
    the route answers 403 and stores nothing.  Below the limit, with an
    id not in use, it answers 201 with the new project, which is then
    stored, and the caller owns one project more.  Every success is a 201
    that leaves the caller within the limit, and every error leaves the
    number of the caller's projects as it was. *)
Theorem create_handler_project_limit now insertedId userId subscription name description
    location mode db :
  insertedId <> "" ->
  let out :=
    ProjectRoutes.create_handler now insertedId userId subscription name description
      location mode db in
  let count := MongoDB.countUserProjects db userId in
  let created := created_project now insertedId userId name description location mode in
  ((project_limit subscription <= Z.of_nat count)%Z ->
     exists detail, out = (ProjectRoutes.Failed 403 detail, db))
  /\ ((Z.of_nat count < project_limit subscription)%Z ->
      MongoDB.getProject db insertedId = None -> db <> None ->
      fst out = ProjectRoutes.Succeeded 201 (ProjectRoutes.projectToResponse created)
      /\ MongoDB.getProject (snd out) insertedId = Some created
      /\ MongoDB.countUserProjects (snd out) userId = S count)
  /\ (forall status body,
        fst out = ProjectRoutes.Succeeded status body ->
        status = 201%Z
        /\ MongoDB.countUserProjects (snd out) userId = S count
        /\ (Z.of_nat (S count) <= project_limit subscription)%Z)
  /\ (forall status detail,
        fst out = ProjectRoutes.Failed status detail ->
        (status = 403%Z \/ status = 500%Z)
        /\ MongoDB.countUserProjects (snd out) userId = count).
Proof.
  intros Hid out count created. subst out. unfold ProjectRoutes.create_handler.
  fold count. fold (project_limit subscription).
  destruct (Z.leb_spec (project_limit subscription) (Z.of_nat count)) as [Hfull|Hroom].
  { split; [intros _; now eexists|]. split; [lia|].
    split; [intros status body Hs; discriminate Hs|].
    intros status detail [= <- _]. split; [now left|reflexivity]. }
  split; [lia|].
  destruct db as [d|].
  2: { cbn. split; [intros _ _ Hdb; contradiction|].
       split; [intros status body Hs; discriminate Hs|].
       intros status detail [= <- _]. split; [now right|reflexivity]. }
  destruct (MongoDB.getProject (Some d) insertedId) as [existing|] eqn:Hfresh.
  { unfold MongoDB.createProject. cbn in Hfresh. rewrite Hfresh. cbn.
    split; [intros _ Hc; discriminate Hc|].
    split; [intros status body Hs; discriminate Hs|].
    intros status detail [= <- _]. split; [now right|reflexivity]. }
  destruct (createProject_stored now insertedId userId name description location mode
              (Some d) Hfresh) as (Hid' & Hstored & Hcount); [discriminate|].
  destruct (MongoDB.createProject now insertedId userId name description location mode
              (Some d)) as [projectId db1].
  cbn [fst snd] in *. subst projectId.
  destruct (String.eqb_spec insertedId ""); [contradiction|].
  rewrite Hstored. fold created. cbn [fst snd].
  split; [intros _ _ _; now repeat split|].
  split.
  - intros status body [= <- _]. fold count in Hcount. split; [reflexivity|].
    split; [exact Hcount|lia].
  - intros status detail Hs. discriminate Hs.
Qed.

End CreateRoute.

(** The example user owns one project and the free plan allows one: the
    route answers 403. *)
Lemma create_handler_project_limit_witness :
  "p2" <> ""
  /\ (project_limit (UserDocument.subscription (example_user "free" 1 3))
      <= Z.of_nat (MongoDB.countUserProjects (scans_db []) "ann"))%Z
  /\ exists detail,
       ProjectRoutes.create_handler (example_date 3) "p2" "ann"
         (UserDocument.subscription (example_user "free" 1 3)) "Annex" "" "Pune"
         "completed" (scans_db [])
       = (ProjectRoutes.Failed 403 detail, scans_db []).
Proof.
  assert (Hid : "p2" <> "") by discriminate.
  assert (Hfull : (project_limit (UserDocument.subscription (example_user "free" 1 3))
                   <= Z.of_nat (MongoDB.countUserProjects (scans_db []) "ann"))%Z)
    by (vm_compute; discriminate).
  split; [exact Hid|]. split; [exact Hfull|].
  pose proof (create_handler_project_limit (example_date 3) "p2" "ann"
                (UserDocument.subscription (example_user "free" 1 3)) "Annex" "" "Pune"
                "completed" (scans_db []) Hid) as Hcreate.
  cbv zeta in Hcreate. destruct Hcreate as [Hlimit _]. exact (Hlimit Hfull).
Defined.

Section Ownership.
Context `{JS.Runtime}.

Lemma not_found_not_owned db projectId userId :
  not_owned_by db projectId userId ->
  ProjectRoutes.not_found (MongoDB.getProject db projectId) userId = true.
Proof.
  intros Hforeign. unfold ProjectRoutes.not_found.
  destruct (MongoDB.getProject db projectId) as [project|] eqn:Hp; [|reflexivity].
  specialize (Hforeign project Hp).
  destruct (String.eqb_spec (ProjectDocument.user_id project) userId);
    [contradiction|reflexivity].
Qed.

(** No route of a project serves anyone but its owner.  For a project that
    belongs to someone else every route answers 404 "Project not found",
    the answer it gives for a project that does not exist, and the routes
    that write (delete, analyze) leave the store as it is. *)
Theorem foreign_project_not_found now r limit metric n db projectId userId :
  not_owned_by db projectId userId ->
  ProjectRoutes.get_handler db projectId userId
  = ProjectRoutes.Sent 404 "Project not found"
  /\ ProjectRoutes.data_handler now db projectId userId
     = ProjectRoutes.Sent 404 "Project not found"
  /\ ProjectRoutes.delete_handler db projectId userId
     = (ProjectRoutes.Failed 404 "Project not found", db)
  /\ ProjectRoutes.analyses_handler now db projectId userId limit
     = ProjectRoutes.Sent 404 "Project not found"
  /\ ProjectRoutes.trends_handler db projectId userId metric n
     = ProjectRoutes.Sent 404 "Project not found"
  /\ ProjectRoutes.forecast_handler db projectId (Some userId)
     = ProjectRoutes.Sent 404 "Project not found"
  /\ ProjectRoutes.analyze_handler now r projectId (Some userId) db
     = (ProjectRoutes.Sent 404 "Project not found", db).
Proof.
  intros Hforeign. pose proof (not_found_not_owned db projectId userId Hforeign) as Hnf.
  unfold ProjectRoutes.get_handler, ProjectRoutes.data_handler,
    ProjectRoutes.delete_handler, ProjectRoutes.analyses_handler,
    ProjectRoutes.trends_handler.
  rewrite Hnf. repeat (split; [reflexivity|]).
  unfold ProjectRoutes.forecast_handler, ProjectRoutes.analyze_handler.
  destruct (MongoDB.getProject db projectId) as [project|] eqn:Hp; [|now split].
  specialize (Hforeign project Hp).
  split.
  - rewrite bool_decide_eq_false_2 by congruence. reflexivity.
  - destruct (String.eqb_spec (ProjectDocument.user_id project) userId);
      [contradiction|reflexivity].
Qed.

End Ownership.

(** Project p1 of the example is ann's: bob finds nothing there. *)
Lemma foreign_project_not_found_witness :
  not_owned_by (scans_db []) "p1" stranger
  /\ ProjectRoutes.get_handler (scans_db []) "p1" stranger
     = ProjectRoutes.Sent 404 "Project not found"
  /\ ProjectRoutes.delete_handler (scans_db []) "p1" stranger
     = (ProjectRoutes.Failed 404 "Project not found", scans_db []).
Proof.
  assert (Hforeign : not_owned_by (scans_db []) "p1" stranger).
  { intros project [= <-]. discriminate. }
  split; [exact Hforeign|].
  destruct (foreign_project_not_found (example_date 9) example_failure JS.NaN "all" 10
              (scans_db []) "p1" stranger Hforeign) as (Hget & _ & Hdelete & _).
  split; [exact Hget|exact Hdelete].
Defined.

(** ** Reading back an analysis *)

Section AnalyzeProject.
Context `{JS.Runtime}.

Lemma incrementScanUsage_projects now uid db k :
  MongoDB.getProject (snd (MongoDB.incrementScanUsage now uid db)) k = MongoDB.getProject db k.
Proof.
  unfold MongoDB.incrementScanUsage. destruct db as [d|]; [|reflexivity].
  now destruct (MongoDB.users d !! uid).
Qed.

Lemma createAnalysisHistory_projects now projectId userId snapshot deltas db k :
  MongoDB.getProject
    (snd (MongoDB.createAnalysisHistory now projectId userId snapshot deltas db)) k
  = MongoDB.getProject db k.
Proof. now destruct db. Qed.

Lemma addAnalysis_others now projectId a db k :
  k <> projectId ->
  MongoDB.getProject (snd (MongoDB.addAnalysis now projectId a db)) k = MongoDB.getProject db k.
Proof.
  intros Hne. unfold MongoDB.addAnalysis. destruct db as [d|]; [|reflexivity].
  destruct (MongoDB.projects d !! projectId); [|reflexivity].
  cbn. now apply lookup_insert_ne.
Qed.

Lemma updateProject_others now projectId data db k :
  k <> projectId ->
  MongoDB.getProject (snd (MongoDB.updateProject now projectId data db)) k
  = MongoDB.getProject db k.
Proof.
  intros Hne. unfold MongoDB.updateProject. destruct db as [d|]; [|reflexivity].
  destruct (MongoDB.projects d !! projectId); [|reflexivity].
  cbn. now apply lookup_insert_ne.
Qed.

(** The project document after the writes of the analyze handler. *)
Lemma analyze_handler_project now r projectId uid db project :
  MongoDB.getProject db projectId = Some project ->
  ProjectDocument.user_id project = uid ->
  ProjectRoutes.adapter_failed r = false ->
  let out := ProjectRoutes.analyze_handler now r projectId (Some uid) db in
  MongoDB.getProject (snd out) projectId = Some (analyzed_project now r project)
  /\ forall other, other <> projectId ->
       MongoDB.getProject (snd out) other = MongoDB.getProject db other.
Proof.
  intros Hproject Howner Hok out.
  subst out. unfold ProjectRoutes.analyze_handler.
  rewrite Hproject, Howner, String.eqb_refl, Hok. cbn [negb fst snd].
  fold (pushed_analysis now r).
  set (db1 := snd (MongoDB.addAnalysis now projectId (pushed_analysis now r) db)).
  set (db2 := match AIAnalysisResult.project_data r with
              | Some data => snd (MongoDB.updateProject now projectId data db1)
              | None => db1
              end).
  assert (H1 : MongoDB.getProject db1 projectId = Some (analyzed_project now r project)).
  { subst db1. unfold MongoDB.addAnalysis.
    destruct db as [d|]; [|discriminate Hproject]. cbn in Hproject. rewrite Hproject.
    cbn. rewrite lookup_insert_eq. reflexivity. }
  assert (H2 : MongoDB.getProject db2 projectId = Some (analyzed_project now r project)).
  { subst db2. destruct (AIAnalysisResult.project_data r) as [data|] eqn:Hdata;
      [|exact H1].
    unfold MongoDB.updateProject.
    destruct db1 as [d1|]; [|discriminate H1]. cbn in H1. rewrite H1.
    cbn. rewrite lookup_insert_eq. unfold analyzed_project. cbn. now rewrite Hdata. }
  split.
  - now rewrite createAnalysisHistory_projects, incrementScanUsage_projects.
  - intros other Hne.
    rewrite createAnalysisHistory_projects, incrementScanUsage_projects.
    subst db2. destruct (AIAnalysisResult.project_data r).
    + rewrite updateProject_others by exact Hne. now apply addAnalysis_others.
    + now apply addAnalysis_others.
Qed.

(** A completed analysis and the project document.  The analysis is pushed
    to the end of the project's analyses, dated [now] and marked valid; the
    project data of the analysis replace the stored ones; nothing else of
    the project and no other project changes; and the data route then
    returns those project data to the owner. *)
Theorem analyze_then_read now later r projectId uid db project :
  MongoDB.getProject db projectId = Some project ->
  ProjectDocument.user_id project = uid ->
  ProjectRoutes.adapter_failed r = false ->
  let out := ProjectRoutes.analyze_handler now r projectId (Some uid) db in
  MongoDB.getProject (snd out) projectId = Some (analyzed_project now r project)
  /\ (forall other, other <> projectId ->
        MongoDB.getProject (snd out) other = MongoDB.getProject db other)
  /\ (forall data, AIAnalysisResult.project_data r = Some data ->
        ProjectRoutes.data_handler later (snd out) projectId uid
        = ProjectRoutes.Returned data)
  /\ ProjectRoutes.get_handler (snd out) projectId uid
     = ProjectRoutes.Returned
         (ProjectRoutes.projectToResponse (analyzed_project now r project)).
Proof.
  intros Hproject Howner Hok out.
  destruct (analyze_handler_project now r projectId uid db project Hproject Howner Hok)
    as [Hstored Hothers]. fold out in Hstored, Hothers.
  split; [exact Hstored|]. split; [exact Hothers|].
  assert (Hnf : ProjectRoutes.not_found (Some (analyzed_project now r project)) uid = false).
  { cbn. now rewrite Howner, String.eqb_refl. }
  split.
  - intros data Hdata. unfold ProjectRoutes.data_handler. rewrite Hstored, Hnf.
    cbn. now rewrite Hdata.
  - unfold ProjectRoutes.get_handler. now rewrite Hstored, Hnf.
Qed.

End AnalyzeProject.

(** The first analysis of project p1: the project document holds it and
    the data route returns its project data. *)
Lemma analyze_then_read_witness :
  MongoDB.getProject (scans_db []) "p1" = Some (example_project None)
  /\ ProjectRoutes.adapter_failed (example_result 40 (crew_raw 12)) = false
  /\ exists data,
       normalized (crew_raw 12) = Some data
       /\ ProjectRoutes.data_handler (example_date 10)
            (snd (ProjectRoutes.analyze_handler (example_date 9)
                    (example_result 40 (crew_raw 12)) "p1" (Some "ann") (scans_db [])))
            "p1" "ann"
          = ProjectRoutes.Returned data.
Proof.
  split; [reflexivity|]. split; [reflexivity|].
  destruct (normalized (crew_raw 12)) as [data|] eqn:Hdata; [|discriminate Hdata].
  exists data. split; [reflexivity|].
  pose proof (analyze_then_read (example_date 9) (example_date 10)
                (example_result 40 (crew_raw 12)) "p1" "ann" (scans_db [])
                (example_project None) eq_refl eq_refl eq_refl) as Hread.
  cbv zeta in Hread. destruct Hread as (_ & _ & Hroute & _).
  apply Hroute. exact Hdata.
Defined.

Section AnalysesRoute.
Context `{JS.Runtime}.

Lemma analyses_handler_owner now db projectId userId project limit :
  MongoDB.getProject db projectId = Some project ->
  ProjectDocument.user_id project = userId ->
  ProjectRoutes.analyses_handler now db projectId userId limit
  = ProjectRoutes.Returned
      (imap (analysis_item now projectId)
         (JS.slice_to limit (ProjectDocument.analyses project))).
Proof.
  intros Hproject Howner. unfold ProjectRoutes.analyses_handler.
  rewrite Hproject. cbn. now rewrite Howner, String.eqb_refl.
Qed.

(** The analyses route lists the analyses of the project document from the
    first one pushed: for a limit [n], the first min(n, all) of them, the
    item at position [i] carrying the id "analysis-i".  So a completed
    analysis appears, as the last item, only while the project holds fewer
    than [n] analyses; once it holds [n], the answer of the route no
    longer changes. *)
Theorem analyses_handler_oldest_first now later r db projectId userId project n :
  MongoDB.getProject db projectId = Some project ->
  ProjectDocument.user_id project = userId ->
  ProjectRoutes.adapter_failed r = false ->
  let stored := ProjectDocument.analyses project in
  let db' := snd (ProjectRoutes.analyze_handler later r projectId (Some userId) db) in
  exists items,
    ProjectRoutes.analyses_handler now db projectId userId (count_limit n)
    = ProjectRoutes.Returned items
    /\ length items = Nat.min n (length stored)
    /\ (forall i item, items !! i = Some item ->
          exists analysis,
            stored !! i = Some analysis /\ item = analysis_item now projectId i analysis)
    /\ ((n <= length stored)%nat ->
          ProjectRoutes.analyses_handler now db' projectId userId (count_limit n)
          = ProjectRoutes.Returned items)
    /\ ((length stored < n)%nat ->
          ProjectRoutes.analyses_handler now db' projectId userId (count_limit n)
          = ProjectRoutes.Returned
              (items ++ [analysis_item now projectId (length stored)
                           (pushed_analysis later r)])).
Proof.
  intros Hproject Howner Hok stored db'.
  destruct (analyze_handler_project later r projectId userId db project Hproject Howner Hok)
    as [Hstored _]. fold db' in Hstored.
  rewrite (analyses_handler_owner now db projectId userId project _ Hproject Howner).
  rewrite (analyses_handler_owner now db' projectId userId _ _ Hstored Howner).
  rewrite !slice_to_count. cbn [analyzed_project ProjectDocument.analyses]. fold stored.
  eexists. split; [reflexivity|].
  split; [now rewrite length_imap, length_take|].
  split.
  { intros i item Hi. rewrite list_lookup_imap in Hi.
    destruct (take n stored !! i) as [analysis|] eqn:Ha; [|discriminate Hi].
    exists analysis. apply lookup_take_Some in Ha as [Ha _].
    split; [exact Ha|]. cbn in Hi. now injection Hi as <-. }
  split.
  - intros Hfull. now rewrite take_app_le.
  - intros Hroom. rewrite !take_ge by (rewrite ?length_app; cbn; lia).
    rewrite imap_app. cbn. now rewrite Nat.add_0_r.
Qed.

End AnalysesRoute.

(** With a limit of 1 and one analysis stored, a second analysis does not
    change what the route lists. *)
Lemma analyses_handler_oldest_first_witness :
  MongoDB.getProject
    (snd (ProjectRoutes.analyze_handler (example_date 9) (example_result 40 (crew_raw 12))
            "p1" (Some "ann") (scans_db []))) "p1"
  = Some (analyzed_project (example_date 9) (example_result 40 (crew_raw 12))
            (example_project None))
  /\ ProjectRoutes.analyses_handler (example_date 20)
       (snd (ProjectRoutes.analyze_handler (example_date 11)
               (example_result 60 (crew_raw 15)) "p1" (Some "ann")
               (snd (ProjectRoutes.analyze_handler (example_date 9)
                       (example_result 40 (crew_raw 12)) "p1" (Some "ann")
                       (scans_db [])))))
       "p1" "ann" (count_limit 1)
     = ProjectRoutes.analyses_handler (example_date 20)
         (snd (ProjectRoutes.analyze_handler (example_date 9)
                 (example_result 40 (crew_raw 12)) "p1" (Some "ann") (scans_db [])))
         "p1" "ann" (count_limit 1).
Proof.
  assert (Hstored :
            MongoDB.getProject
              (snd (ProjectRoutes.analyze_handler (example_date 9)
                      (example_result 40 (crew_raw 12)) "p1" (Some "ann") (scans_db [])))
              "p1"
            = Some (analyzed_project (example_date 9) (example_result 40 (crew_raw 12))
                      (example_project None))) by reflexivity.
  split; [exact Hstored|].
  destruct (analyses_handler_oldest_first (example_date 20) (example_date 11)
              (example_result 60 (crew_raw 15)) _ "p1" "ann" _ 1 Hstored eq_refl eq_refl)
    as (items & Hitems & _ & _ & Hfull & _).
  rewrite Hitems. apply Hfull. cbn. lia.
Defined.

(** ** The data route before the first analysis *)

Section DataRouteProperties.
Context `{JS.Runtime}.

(** The data route before the first analysis.  For a project of the
    caller that stores no project data the route never fails: the
    normalizer, run on the empty answer, returns the default record, which
    carries the project's id, name and location (the fallback texts when
    one is empty), the time of the request, no progress, no budget, an
    unknown stage and empty lists of materials and insights; its cash-flow
    health is "Positive". *)
Theorem data_handler_defaults now db projectId project :
  MongoDB.getProject db projectId = Some project ->
  ProjectDocument.project_data project = None ->
  exists data,
    AIService.getDefaultProjectData now project = JS.Ok data
    /\ ProjectRoutes.data_handler now db projectId (ProjectDocument.user_id project)
       = ProjectRoutes.Returned data
    /\ ProjectData.id data = JS.str_or (ProjectDocument._id project) "temp-1"
    /\ ProjectData.name data = JS.str_or (ProjectDocument.name project) "Untitled Project"
    /\ ProjectData.location data
       = JS.str_or (ProjectDocument.location project) "Unknown Location"
    /\ ProjectData.lastUpdated data = JS.toISOString now
    /\ ProjectData.stage data = JS.VStr "Unknown"
    /\ ProjectData.progressPercentage data = JS.num 0
    /\ ProjectData.delaysFlagged data = JS.num 0
    /\ ProjectData.burnRate data = JS.num 0
    /\ ProjectData.materials data = JS.VArr []
    /\ ProjectData.insights data = JS.VArr []
    /\ JS.get (ProjectData.financials data) "budgetTotal" = JS.num 0
    /\ JS.get (ProjectData.financials data) "budgetSpent" = JS.num 0
    /\ JS.get (ProjectData.financials data) "budgetRemaining" = JS.num 0
    /\ JS.get (ProjectData.financials data) "cashFlowHealth" = JS.VStr "Positive"
    /\ JS.get (ProjectData.charts data) "budgetDistribution" = JS.VArr [].
Proof.
  intros Hproject Hdata.
  destruct (AIService.getDefaultProjectData now project) as [data|e] eqn:Hdefault;
    [|discriminate Hdefault].
  exists data. split; [reflexivity|]. split.
  - unfold ProjectRoutes.data_handler, ProjectRoutes.not_found.
    now rewrite Hproject, String.eqb_refl, Hdata, Hdefault.
  - injection Hdefault as <-. repeat split.
Qed.

End DataRouteProperties.

(** Project p1 before its first analysis. *)
Lemma data_handler_defaults_witness :
  MongoDB.getProject (scans_db []) "p1" = Some (example_project None)
  /\ exists data,
       ProjectRoutes.data_handler (example_date 0) (scans_db []) "p1" "ann"
       = ProjectRoutes.Returned data
       /\ ProjectData.name data = ProjectDocument.name (example_project None)
       /\ ProjectData.progressPercentage data = JS.num 0.
Proof.
  split; [reflexivity|].
  destruct (data_handler_defaults (example_date 0) (scans_db []) "p1" (example_project None)
              eq_refl eq_refl)
    as (data & _ & Hroute & _ & Hname & _ & _ & _ & Hprogress & _).
  exists data. split; [exact Hroute|]. split; [exact Hname|exact Hprogress].
Defined.

(** ** The trends route *)

Section TrendsRoute.



Lemma trends_handler_owner db projectId userId project metric limit :
  MongoDB.getProject db projectId = Some project ->
  ProjectDocument.user_id project = userId ->
  ProjectRoutes.trends_handler db projectId userId metric limit
  = let trends := trend_points db projectId limit in
    if (length trends =? 0)%nat then ProjectRoutes.Returned (ProjectRoutes.NoTrends projectId)
    else
      ProjectRoutes.Returned
        (ProjectRoutes.Trends projectId (length trends)
           (JS.num_toFixed 2 (JS.Fin (ProjectRoutes.velocity trends)))
           (if String.eqb metric "all" then ProjectRoutes.AllMetrics trends
            else ProjectRoutes.OneMetric metric
                   ((fun t => (JS.toISOString (ProjectRoutes.TrendPoint.date t),
                               JS.lookup_field metric (ProjectRoutes.TrendPoint.entries t)))
                      <$> trends))).
Proof.
  intros Hproject Howner. unfold ProjectRoutes.trends_handler, trend_points.
  rewrite Hproject. cbn [ProjectRoutes.not_found]. rewrite Howner, String.eqb_refl.
  cbn [negb]. cbv zeta. now rewrite length_fmap, length_rev.
Qed.

Lemma length_trend_points db projectId limit :
  length (trend_points db projectId limit)
  = Nat.min limit (MongoDB.getAnalysisCount db projectId).
Proof.
  unfold trend_points. rewrite length_fmap, length_rev. apply length_getAnalysisHistory.
Qed.



End TrendsRoute.


Section TrendsMetric.

(** One metric of the trends.  For a metric other than 'all' every point
    is reduced to its date and the value found under the metric's name
    among the keys of the point.  'progress' is such a key; 'budget',
    'manpower' and 'safety' are not (the keys are budget_spent, workers,
    safety_score), so for these three every point carries the value
    [undefined]. *)
Theorem trends_metric_projection db projectId userId project metric limit :
  MongoDB.getProject db projectId = Some project ->
  ProjectDocument.user_id project = userId ->
  (0 < limit)%nat ->
  (0 < MongoDB.getAnalysisCount db projectId)%nat ->
  metric <> "all" ->
  let trends := trend_points db projectId limit in
  exists data_points velocity values,
    ProjectRoutes.trends_handler db projectId userId metric limit
    = ProjectRoutes.Returned
        (ProjectRoutes.Trends projectId data_points velocity
           (ProjectRoutes.OneMetric metric values))
    /\ values = metric_of metric <$> trends
    /\ (metric = "progress" ->
        values = (fun t => (JS.toISOString (ProjectRoutes.TrendPoint.date t),
                            JS.num (ProjectRoutes.TrendPoint.progress t))) <$> trends)
    /\ (metric = "budget" \/ metric = "manpower" \/ metric = "safety" ->
        forall date value, In (date, value) values -> value = JS.VUndefined).
Proof.
  intros Hproject Howner Hlimit Hcount Hmetric trends.
  rewrite (trends_handler_owner db projectId userId project metric limit Hproject Howner).
  cbv zeta. fold trends.
  pose proof (length_trend_points db projectId limit) as Hlen. fold trends in Hlen.
  destruct (Nat.eqb_spec (length trends) 0); [lia|].
  destruct (String.eqb_spec metric "all"); [contradiction|].
  eexists. eexists. eexists. split; [reflexivity|].
  split; [reflexivity|]. split.
  - intros ->. reflexivity.
  - intros Hkey date value Hin. apply in_map_iff in Hin as (t & [= _ <-] & _).
    destruct Hkey as [->|[->| ->]]; reflexivity.
Qed.

End TrendsMetric.

(** The budget metric of the example: both points carry [undefined]. *)
Lemma trends_metric_projection_witness :
  MongoDB.getProject (history_db daily_history) "p1" = Some (example_project None)
  /\ exists data_points velocity values,
       ProjectRoutes.trends_handler (history_db daily_history) "p1" "ann" "budget" 30
       = ProjectRoutes.Returned
           (ProjectRoutes.Trends "p1" data_points velocity
              (ProjectRoutes.OneMetric "budget" values))
       /\ length values = 2%nat
       /\ forall date value, In (date, value) values -> value = JS.VUndefined.
Proof.
  split; [reflexivity|].
  assert (Hlimit : (0 < 30)%nat) by lia.
  assert (Hcount : (0 < MongoDB.getAnalysisCount (history_db daily_history) "p1")%nat)
    by (vm_compute; lia).
  assert (Hmetric : "budget" <> "all") by discriminate.
  destruct (trends_metric_projection (history_db daily_history) "p1" "ann"
              (example_project None) "budget" 30 eq_refl eq_refl Hlimit Hcount Hmetric)
    as (data_points & velocity & values & Hroute & Hvalues & _ & Hundefined).
  exists data_points, velocity, values. split; [exact Hroute|].
  split; [now rewrite Hvalues|]. apply Hundefined. now left.
Defined.

(** ** The forecast on two analyses and on a straight line *)

Section ForecastEdges.
Context `{JS.Runtime}.

(** A forecast from exactly two analyses.  The recent velocity is read
    from the third-last point and is 0 when there is none, so whatever the
    two analyses report, the risk level is "high" and the forecast advises
    more resources and a review with the stakeholders. *)
Theorem forecast_two_entries db projectId userId project :
  MongoDB.getProject db projectId = Some project ->
  Some (ProjectDocument.user_id project) = userId ->
  MongoDB.getAnalysisCount db projectId = 2%nat ->
  exists f,
    ProjectRoutes.forecast_handler db projectId userId
    = ProjectRoutes.Returned
        {| ProjectRoutes.forecast_project_id := projectId;
           ProjectRoutes.forecast := f;
           ProjectRoutes.based_on := 2 |}
    /\ ProjectRoutes.risk_level f = "high"
    /\ In ProjectRoutes.resourcing_advice (ProjectRoutes.recommendations f)
    /\ In ProjectRoutes.stakeholder_review_advice (ProjectRoutes.recommendations f).
Proof.
  intros Hproject Howner Hcount.
  set (history := MongoDB.getAnalysisHistory db projectId 10).
  assert (Hlen : length history = 2%nat).
  { subst history. rewrite length_getAnalysisHistory.
    change (history_count db projectId) with (MongoDB.getAnalysisCount db projectId).
    rewrite Hcount. reflexivity. }
  set (data := ProjectRoutes.forecast_data history).
  assert (Hdata : length data = 2%nat).
  { subst data. now rewrite length_forecast_data. }
  assert (Hvelocity : ProjectRoutes.recentVelocity data = 0).
  { unfold ProjectRoutes.recentVelocity. now rewrite Hdata. }
  assert (Hrisk : ProjectRoutes.riskLevel data = "high").
  { unfold ProjectRoutes.riskLevel. now rewrite Hvelocity. }
  exists (ProjectRoutes.build_forecast data). split.
  { unfold ProjectRoutes.forecast_handler. rewrite Hproject.
    rewrite bool_decide_eq_true_2 by exact Howner. cbn [negb]. fold history.
    rewrite Hlen. reflexivity. }
  split; [exact Hrisk|].
  destruct (forecast_recommendations data) as (Hresourcing & _ & Hreview).
  split; [apply Hresourcing; rewrite Hvelocity; reflexivity|now apply Hreview].
Qed.

End ForecastEdges.

(** The two analyses of the example at progress 10 and 30. *)
Lemma forecast_two_entries_witness :
  MongoDB.getProject (history_db rising_history) "p1" = Some (example_project None)
  /\ MongoDB.getAnalysisCount (history_db rising_history) "p1" = 2%nat
  /\ exists f,
       ProjectRoutes.forecast_handler (history_db rising_history) "p1" (Some "ann")
       = ProjectRoutes.Returned
           {| ProjectRoutes.forecast_project_id := "p1";
              ProjectRoutes.forecast := f;
              ProjectRoutes.based_on := 2 |}
       /\ ProjectRoutes.risk_level f = "high".
Proof.
  split; [reflexivity|]. split; [reflexivity|].
  destruct (forecast_two_entries (history_db rising_history) "p1" (Some "ann")
              (example_project None) eq_refl eq_refl eq_refl) as (f & Hf & Hrisk & _).
  exists f. split; [exact Hf|exact Hrisk].
Defined.

Section RegressionLine.




End RegressionLine.

Section SteadyProgress.
Context `{JS.Runtime}.




End SteadyProgress.


(** ** [analyzeImage] *)

Section AnalyzeImage.
Context `{JS.Runtime}.

Lemma failure_declared error :
  as_declared (AIService.failure error) = Some (declared_failure error).
Proof. reflexivity. Qed.

Lemma append_nonempty (prefix s : string) : prefix <> "" -> (prefix ++ s)%string <> "".
Proof. destruct prefix; [contradiction|discriminate]. Qed.

(** Which results of [analyzeImage] report an error. *)
Lemma analyzeImage_outcome model initError now generated project :
  let a := AIService.analyzeImage model initError now generated project in
  (exists result pd,
     model = true /\ generated = inr result
     /\ AIService.buildProjectData now result project = JS.Ok pd
     /\ AIService.Analysis.error a = None
     /\ AIService.Analysis.project_data a = Some pd)
  \/ (exists error, error <> "" /\ a = AIService.failure error).
Proof.
  intros a. subst a. unfold AIService.analyzeImage.
  destruct model; cbn [negb].
  2: { right. eexists. split; [|reflexivity].
       unfold JS.opt_str_or, JS.str_or. destruct initError as [msg|]; [|discriminate].
       destruct (String.eqb_spec msg ""); [discriminate|assumption]. }
  destruct generated as [errorMsg|result].
  { right. eexists. split; [|reflexivity]. now apply append_nonempty. }
  destruct (AIService.buildProjectData now result project) as [pd|e] eqn:Hb.
  - left. exists result, pd. now repeat split.
  - right. eexists. split; [|reflexivity]. now apply append_nonempty.
Qed.

(** Failures of [analyzeImage] are reported, never stored.  [analyzeImage]
    throws nothing: without a model, when the call of the model or the
    parsing of its answer throws, and when the normalizer throws, it
    returns the failure result, whose [error] is a text that is not empty
    and whose project data are [null]; it returns a result without
    [error] exactly when the model is there, its answer was parsed, and
    the normalizer returned.  The analyze handler takes every failure
    result for a failure: it stores nothing, and answers the owner of the
    project 400 with that text. *)
Theorem analyzeImage_failure_is_reported model initError now generated project :
  let a := AIService.analyzeImage model initError now generated project in
  (AIService.Analysis.error a = None
   <-> model = true
       /\ exists result pd,
            generated = inr result
            /\ AIService.buildProjectData now result project = JS.Ok pd)
  /\ forall error,
       AIService.Analysis.error a = Some error ->
       error <> ""
       /\ AIService.Analysis.valid a = false
       /\ AIService.Analysis.project_data a = None
       /\ exists r,
            as_declared a = Some r
            /\ ProjectRoutes.adapter_failed r = true
            /\ (forall at_ projectId userId db,
                  snd (ProjectRoutes.analyze_handler at_ r projectId userId db) = db)
            /\ (forall at_ projectId db owned,
                  MongoDB.getProject db projectId = Some owned ->
                  ProjectRoutes.analyze_handler at_ r projectId
                    (Some (ProjectDocument.user_id owned)) db
                  = (ProjectRoutes.Sent 400 error, db)).
Proof.
  intros a. subst a.
  destruct (analyzeImage_outcome model initError now generated project)
    as [(result & pd & -> & -> & Hb & Herr & Hpd)|(error & Hne & Hfail)].
  - split.
    + split; [intros _; split; [reflexivity|now exists result, pd]|intros _; exact Herr].
    + intros error Hc. rewrite Herr in Hc. discriminate Hc.
  - split.
    + rewrite Hfail. cbn. split; [discriminate|].
      intros [-> (result & pd & -> & Hb)].
      unfold AIService.analyzeImage in Hfail. cbn [negb] in Hfail.
      rewrite Hb in Hfail. discriminate Hfail.
    + intros error' Herr. rewrite Hfail in Herr. cbn in Herr. injection Herr as <-.
      rewrite Hfail. split; [exact Hne|]. split; [reflexivity|]. split; [reflexivity|].
      exists (declared_failure error). split; [apply failure_declared|].
      assert (Hfailed : ProjectRoutes.adapter_failed (declared_failure error) = true).
      { unfold ProjectRoutes.adapter_failed. cbn.
        destruct (String.eqb_spec error ""); [contradiction|reflexivity]. }
      split; [exact Hfailed|]. split.
      * intros at_ projectId userId db.
        destruct (analyze_handler_failed at_ (declared_failure error) projectId userId db
                    Hfailed) as (status & detail & Hs).
        now apply analyze_handler_sent in Hs as [Hdb _].
      * intros at_ projectId db owned Hp. unfold ProjectRoutes.analyze_handler.
        now rewrite Hp, String.eqb_refl, Hfailed.
Qed.

(** A result without error and its project data.  The fields at the top
    of the result are computed apart from the project data, with the same
    defaults: stage, progress, time remaining, delays and insights are
    those of the project data.  Two fields differ: a confidence that is
    missing, [null] or 0 becomes 75, and the critical path stays as the
    answer has it, [undefined] when missing, where the project data say
    "Unknown". *)
Theorem analyzeImage_result_and_project_data initError now result project pd :
  AIService.buildProjectData now result project = JS.Ok pd ->
  let a := AIService.analyzeImage true initError now (inr result) project in
  AIService.Analysis.valid a = true
  /\ AIService.Analysis.error a = None
  /\ AIService.Analysis.project_data a = Some pd
  /\ AIService.Analysis.raw_response a = result
  /\ AIService.Analysis.stage a = ProjectData.stage pd
  /\ AIService.Analysis.progressPercentage a = ProjectData.progressPercentage pd
  /\ AIService.Analysis.timeRemaining a = ProjectData.timeRemaining pd
  /\ AIService.Analysis.delaysFlagged a = ProjectData.delaysFlagged pd
  /\ AIService.Analysis.insights a = ProjectData.insights pd
  /\ (JS.truthy (JS.get result "confidence_score") = false ->
      AIService.Analysis.confidence_score a = JS.num 75)
  /\ (JS.get result "criticalPath" = JS.VUndefined ->
      AIService.Analysis.criticalPath a = JS.VUndefined
      /\ ProjectData.criticalPath pd = JS.VStr "Unknown").
Proof.
  intros Hb a. subst a. unfold AIService.analyzeImage. cbn [negb]. rewrite Hb.
  cbn [AIService.Analysis.valid AIService.Analysis.error AIService.Analysis.project_data
       AIService.Analysis.raw_response AIService.Analysis.stage
       AIService.Analysis.progressPercentage AIService.Analysis.timeRemaining
       AIService.Analysis.delaysFlagged AIService.Analysis.insights
       AIService.Analysis.confidence_score AIService.Analysis.criticalPath].
  unfold AIService.buildProjectData in Hb.
  destruct (JS.nullish result); [discriminate Hb|].
  match type of Hb with JS.bind ?m _ = _ => destruct m as [bd|e] end; [|discriminate Hb].
  cbn [JS.bind] in Hb. injection Hb as <-.
  cbn [ProjectData.stage ProjectData.progressPercentage ProjectData.timeRemaining
       ProjectData.delaysFlagged ProjectData.insights ProjectData.criticalPath].
  repeat (split; [reflexivity|]).
  split.
  - intros Hc. unfold JS.or_else. now rewrite Hc.
  - intros ->. split; reflexivity.
Qed.

End AnalyzeImage.

(** The budget example has neither a confidence nor a critical path: the
    result says 75 and [undefined], its project data say "Unknown". *)
Lemma analyzeImage_result_and_project_data_witness :
  exists pd,
    AIService.buildProjectData (example_date 0) (budget_raw 0) None = JS.Ok pd
    /\ AIService.Analysis.confidence_score
         (AIService.analyzeImage true None (example_date 0) (inr (budget_raw 0)) None)
       = JS.num 75
    /\ AIService.Analysis.criticalPath
         (AIService.analyzeImage true None (example_date 0) (inr (budget_raw 0)) None)
       = JS.VUndefined
    /\ ProjectData.criticalPath pd = JS.VStr "Unknown"
    /\ AIService.Analysis.stage
         (AIService.analyzeImage true None (example_date 0) (inr (budget_raw 0)) None)
       = ProjectData.stage pd.
Proof.
  destruct (AIService.buildProjectData (example_date 0) (budget_raw 0) None)
    as [pd|e] eqn:Hb; [|discriminate Hb].
  exists pd. split; [reflexivity|].
  destruct (analyzeImage_result_and_project_data None _ _ _ _ Hb)
    as (_ & _ & _ & _ & Hstage & _ & _ & _ & _ & Hconfidence & Hpath).
  split; [apply Hconfidence; reflexivity|].
  destruct (Hpath eq_refl) as [Ha Hp].
  split; [exact Ha|]. split; [exact Hp|exact Hstage].
Defined.

(** A [materials] entry that is text: the normalizer throws a TypeError,
    which [analyzeImage] catches and reports. *)
Example analyzeImage_reports_type_error :
  AIService.analyzeImage true None (example_date 0) (inr text_materials_raw) None
  = AIService.failure "AI analysis failed: TypeError: materials.map is not a function".
Proof. reflexivity. Qed.

(** ** The connection hook of the serverless entry point *)

Section ConnectionHook.
Variable MONGODB_URI : option string.

Lemma pending_snoc s g n c :
  Connection.pending {| Connection.globals := g; Connection.attempts := n;
                        Connection.calls := Connection.calls s ++ [c] |}
  = (Connection.pending s + (if Connection.awaiting c then 1 else 0))%nat.
Proof.
  unfold Connection.pending. cbn [Connection.calls].
  rewrite filter_app, length_app, filter_cons. cbn.
  destruct (Connection.awaiting c); case_decide; cbn; congruence.
Qed.

Lemma pending_replace s g n i c c' :
  Connection.calls s !! i = Some c -> Connection.awaiting c = true ->
  (Connection.pending {| Connection.globals := g; Connection.attempts := n;
                         Connection.calls := <[i := c']> (Connection.calls s) |}
   + 1
   = Connection.pending s + (if Connection.awaiting c' then 1 else 0))%nat.
Proof.
  intros Hi Hc. unfold Connection.pending. cbn [Connection.calls].
  rewrite insert_take_drop by (eapply lookup_lt_Some, Hi).
  rewrite <- (take_drop_middle (Connection.calls s) i c Hi) at 3.
  rewrite !filter_app, !length_app, !filter_cons.
  destruct (decide (Connection.awaiting c = true)); [|contradiction].
  destruct (Connection.awaiting c'); case_decide; cbn; try congruence; lia.
Qed.

Lemma resume_keeps_db ok g n c :
  Connection.awaiting (snd (Connection.resume ok g n c)) = true ->
  Connection.isMongoConnected (fst (fst (Connection.resume ok g n c)))
  = Connection.isMongoConnected g.
Proof. destruct c, ok; cbn; intros Hc; try discriminate Hc; reflexivity. Qed.

Lemma onRequest_single_flight st :
  single_flight st -> single_flight (Server.onRequest MONGODB_URI st).
Proof.
  intros Hinv. unfold Server.onRequest.
  destruct (Connection.isMongoConnected _) eqn:Hconn; cbn [negb]; [exact Hinv|].
  destruct (Server.connectionPromise st) as [p|] eqn:Hp; [exact Hinv|].
  assert (Hidle : Connection.pending (Server.system st) = 0%nat).
  { destruct Hinv as [Hz|(_ & Hc & _)]; [exact Hz|contradiction]. }
  unfold single_flight, Connection.after_enter. cbn [Server.system Server.connectionPromise].
  destruct (Connection.enter MONGODB_URI _ _) as [[g n] c] eqn:Henter.
  rewrite pending_snoc, Hidle.
  assert (Hg : g = Connection.globals (Server.system st)).
  { unfold Connection.enter in Henter.
    destruct (negb (Connection.configured MONGODB_URI)); [congruence|].
    destruct (Connection.cachedClient (Connection.globals (Server.system st)));
      destruct (Connection.cachedDb (Connection.globals (Server.system st)));
      congruence. }
  destruct (Connection.awaiting c) eqn:Hc; [right|now left].
  split; [reflexivity|]. split.
  - unfold Server.settle. cbn [Connection.calls Connection.globals].
    rewrite lookup_app_r, Nat.sub_diag by lia. cbn.
    destruct c; try discriminate Hc; discriminate.
  - cbn [Connection.globals]. now rewrite Hg.
Qed.

Lemma onResume_single_flight st i c ok :
  Connection.calls (Server.system st) !! i = Some c -> Connection.awaiting c = true ->
  single_flight st -> single_flight (Server.onResume st i c ok).
Proof.
  intros Hi Hc Hinv.
  assert (Hbusy : Connection.pending (Server.system st) = 1%nat
                  /\ Server.connectionPromise st <> None
                  /\ Connection.isMongoConnected (Connection.globals (Server.system st))
                     = false).
  { destruct Hinv as [Hz|Hb]; [|exact Hb].
    pose proof (pending_replace (Server.system st)
                  (Connection.globals (Server.system st)) 0 i c Connection.Done Hi Hc).
    cbn in *. lia. }
  destruct Hbusy as (Hone & Hpromise & Hconn).
  unfold single_flight, Server.onResume, Connection.after_resume.
  pose proof (resume_keeps_db ok (Connection.globals (Server.system st))
                (Connection.attempts (Server.system st)) c) as Hdb.
  destruct (Connection.resume ok _ _ c) as [[g n] c'] eqn:Hresume.
  cbn [fst snd] in Hdb. cbn [Server.system Server.connectionPromise].
  pose proof (pending_replace (Server.system st) g n i c c' Hi Hc) as Hcount.
  rewrite Hone in Hcount.
  destruct (Connection.awaiting c') eqn:Hc'; [right|left; lia].
  split; [lia|]. split.
  - unfold Server.settle. cbn [Connection.calls Connection.globals].
    rewrite list_lookup_insert_eq by (eapply lookup_lt_Some, Hi).
    destruct c'; try discriminate Hc'; exact Hpromise.
  - cbn [Connection.globals]. now rewrite (Hdb eq_refl).
Qed.

Lemma reachable_single_flight st :
  rtc (Server.step MONGODB_URI) Server.cold st -> single_flight st.
Proof.
  revert st. apply (rtc_ind_r single_flight Server.cold).
  - now left.
  - intros st st' _ Hstep IH. destruct Hstep as [st|st i c ok Hi Hc].
    + now apply onRequest_single_flight.
    + now apply onResume_single_flight.
Qed.

End ConnectionHook.

Section ConnectionHookProperties.
Variable MONGODB_URI : option string.

(** The connection hook of the serverless entry point.  In every state
    the server reaches, under any interleaving of requests with the steps
    of [connectMongoDB]: at most one connection attempt is in flight; a
    request that arrives while a call is suspended starts no other call
    (it awaits the promise that is kept); once the store is connected no
    call is suspended and a request starts none; and when an attempt
    fails, the kept promise is dropped, after which -- the URI being
    configured -- the next request starts a new attempt. *)
Theorem onRequest_single_attempt st :
  rtc (Server.step MONGODB_URI) Server.cold st ->
  (Connection.in_flight (Server.system st) <= 1)%nat
  /\ ((0 < Connection.pending (Server.system st))%nat ->
      Server.onRequest MONGODB_URI st = st)
  /\ (Connection.isMongoConnected (Connection.globals (Server.system st)) = true ->
      Connection.pending (Server.system st) = 0%nat
      /\ Server.onRequest MONGODB_URI st = st)
  /\ (forall i c,
        Connection.calls (Server.system st) !! i = Some c ->
        Connection.attempting c = true ->
        let failed := Server.onResume st i c false in
        Server.connectionPromise failed = None
        /\ Connection.isMongoConnected (Connection.globals (Server.system failed)) = false
        /\ Connection.pending (Server.system failed) = 0%nat
        /\ (Connection.configured MONGODB_URI = true ->
            let retry := Server.onRequest MONGODB_URI failed in
            Connection.attempts (Server.system retry)
            = S (Connection.attempts (Server.system failed))
            /\ Connection.in_flight (Server.system retry) = 1%nat
            /\ Server.connectionPromise retry <> None)).
Proof.
  intros Hrun. pose proof (reachable_single_flight MONGODB_URI st Hrun) as Hinv.
  pose proof (in_flight_le_pending (Server.system st)) as Hle.
  split; [destruct Hinv as [Hz|(Hone & _)]; lia|].
  split.
  { intros Hbusy. destruct Hinv as [Hz|(_ & Hpromise & Hconn)]; [lia|].
    unfold Server.onRequest. rewrite Hconn. cbn [negb].
    destruct (Server.connectionPromise st); [reflexivity|contradiction]. }
  split.
  { intros Hconn. split.
    - destruct Hinv as [Hz|(_ & _ & Hc)]; [exact Hz|congruence].
    - unfold Server.onRequest. now rewrite Hconn. }
  intros i c Hi Hc failed.
  assert (Hawait : Connection.awaiting c = true) by (destruct c; try discriminate; reflexivity).
  assert (Hone : Connection.pending (Server.system st) = 1%nat).
  { pose proof (pending_replace (Server.system st)
                  (Connection.globals (Server.system st)) 0 i c Connection.Done Hi Hawait).
    cbn in *. destruct Hinv as [Hz|(Hone & _)]; [lia|exact Hone]. }
  assert (Hresume : Connection.resume false (Connection.globals (Server.system st))
                      (Connection.attempts (Server.system st)) c
                    = (Connection.cleared, Connection.attempts (Server.system st),
                       Connection.Done)).
  { destruct c; try discriminate; reflexivity. }
  assert (Hfailed : failed
                    = {| Server.system :=
                           {| Connection.globals := Connection.cleared;
                              Connection.attempts := Connection.attempts (Server.system st);
                              Connection.calls :=
                                <[i := Connection.Done]> (Connection.calls (Server.system st)) |};
                         Server.connectionPromise := None |}).
  { subst failed. unfold Server.onResume, Connection.after_resume. rewrite Hresume.
    unfold Server.settle. cbn [Connection.calls Connection.globals].
    rewrite list_lookup_insert_eq by (eapply lookup_lt_Some, Hi). reflexivity. }
  assert (Hidle : Connection.pending (Server.system failed) = 0%nat).
  { rewrite Hfailed. cbn [Server.system].
    pose proof (pending_replace (Server.system st) Connection.cleared
                  (Connection.attempts (Server.system st)) i c Connection.Done Hi Hawait)
      as Hcount.
    cbn [Connection.awaiting] in Hcount. lia. }
  split; [now rewrite Hfailed|]. split; [now rewrite Hfailed|]. split; [exact Hidle|].
  intros Hconfigured retry.
  pose proof (in_flight_le_pending (Server.system failed)) as Hle'.
  assert (Hnone : Connection.in_flight (Server.system failed) = 0%nat) by lia.
  subst retry. rewrite Hfailed in *. unfold Server.onRequest.
  cbn [Server.system Server.connectionPromise Connection.globals
       Connection.isMongoConnected Connection.cleared Connection.db negb].
  unfold Connection.after_enter, Connection.enter. rewrite Hconfigured.
  cbn [negb Connection.globals Connection.cleared Connection.cachedClient
       Connection.attempts Connection.calls Server.system Server.connectionPromise].
  split; [reflexivity|]. split.
  - unfold Connection.in_flight in *. cbn [Connection.calls Server.system] in *.
    rewrite filter_app, length_app, Hnone. reflexivity.
  - unfold Server.settle. cbn [Connection.calls].
    rewrite lookup_app_r, Nat.sub_diag by lia. discriminate.
Qed.

End ConnectionHookProperties.

(** Two requests arrive against the cold store before the connection is
    made: one attempt is in flight, and the second request started none. *)
Lemma onRequest_single_attempt_witness :
  rtc (Server.step example_uri) Server.cold
    (Server.onRequest example_uri (Server.onRequest example_uri Server.cold))
  /\ Connection.calls
       (Server.system (Server.onRequest example_uri (Server.onRequest example_uri Server.cold)))
     = [Connection.Connecting 0]
  /\ (Connection.in_flight
        (Server.system
           (Server.onRequest example_uri (Server.onRequest example_uri Server.cold)))
      <= 1)%nat.
Proof.
  assert (Hrun : rtc (Server.step example_uri) Server.cold
                   (Server.onRequest example_uri
                      (Server.onRequest example_uri Server.cold))).
  { eapply rtc_l; [apply Server.step_request|]. apply rtc_once, Server.step_request. }
  split; [exact Hrun|]. split; [reflexivity|].
  destruct (onRequest_single_attempt example_uri _ Hrun) as [Hflight _]. exact Hflight.
Defined.

(** ** The handles of [connectMongoDB] under overlapping calls *)

Section PairedHandles.
Variable MONGODB_URI : option string.

Lemma paired_mono g n m : paired g n -> (n <= m)%nat -> paired g m.
Proof.
  intros (Hcache & Hclient & Hsame & Hdb) Hle. repeat split; try assumption.
  intros c Hc. specialize (Hdb c Hc). lia.
Qed.

Lemma paired_cleared n : paired Connection.cleared n.
Proof. repeat split; try (now left); discriminate. Qed.

Lemma enter_paired g n :
  paired g n ->
  paired (Connection.enter MONGODB_URI g n).1.1 (Connection.enter MONGODB_URI g n).1.2
  /\ (n <= (Connection.enter MONGODB_URI g n).1.2)%nat
  /\ (forall c, client_of (Connection.enter MONGODB_URI g n).2 = Some c ->
        (c < (Connection.enter MONGODB_URI g n).1.2)%nat).
Proof.
  intros Hp. unfold Connection.enter.
  destruct (negb (Connection.configured MONGODB_URI)); [now cbn|].
  assert (Hnew : paired g (S n)) by (apply (paired_mono g n); [exact Hp|lia]).
  assert (Hfresh : forall c : nat, Some n = Some c -> (c < S n)%nat)
    by (intros c Hc; injection Hc as <-; lia).
  destruct (Connection.cachedClient g), (Connection.cachedDb g); cbn.
  1: { split; [exact Hp|]. split; [lia|]. intros c Hc. discriminate Hc. }
  all: split; [exact Hnew|split; [lia|exact Hfresh]].
Qed.

Lemma resume_paired ok g n call :
  paired g n ->
  (forall c, client_of call = Some c -> (c < n)%nat) ->
  paired (Connection.resume ok g n call).1.1 (Connection.resume ok g n call).1.2
  /\ (n <= (Connection.resume ok g n call).1.2)%nat
  /\ (forall c, client_of (Connection.resume ok g n call).2 = Some c ->
        (c < (Connection.resume ok g n call).1.2)%nat).
Proof.
  intros Hp Hcall. pose proof Hp as (Hcache & Hclient & Hsame & Hdb).
  destruct call as [|c0|c0|], ok; cbn;
    (split; [|split; [lia|intros c Hc; try discriminate Hc;
                       try (injection Hc as <-; lia);
                       try (specialize (Hcall c Hc); lia)]]);
    try exact Hp; try apply paired_cleared.
  - (* the cached ping resolved: client := cachedClient, db := cachedDb *)
    repeat split; cbn; try assumption; [now right|].
    intros c Hc. destruct Hsame as [Hnone|Hsame]; [congruence|].
    apply Hdb. congruence.
  - (* the cached ping rejected: the cache is dropped *)
    apply (paired_mono _ n); [|lia]. repeat split; cbn; try assumption. now left.
  - (* the new ping resolved: the four handles are the new client's *)
    repeat split; cbn; [now right|]. intros c Hc. injection Hc as <-.
    apply Hcall. reflexivity.
Qed.

Lemma step_paired s s' :
  Connection.step MONGODB_URI s s' ->
  paired_handles s /\ clients_created s ->
  paired_handles s' /\ clients_created s'.
Proof.
  intros Hstep [Hp Hcalls]. destruct Hstep as [s|s i call ok Hi Hawait].
  - pose proof (enter_paired (Connection.globals s) (Connection.attempts s) Hp)
      as (Hp' & Hle & Hnew).
    unfold paired_handles, clients_created, Connection.after_enter.
    destruct (Connection.enter MONGODB_URI _ _) as [[g' n'] c']. cbn in *.
    split; [exact Hp'|]. intros j call c Hj Hc.
    apply lookup_app_Some in Hj as [Hj|[_ Hj]].
    + specialize (Hcalls j call c Hj Hc). lia.
    + destruct (j - length (Connection.calls s))%nat; [|discriminate Hj].
      injection Hj as <-. now apply Hnew.
  - pose proof (resume_paired ok (Connection.globals s) (Connection.attempts s) call Hp
                  (fun c Hc => Hcalls i call c Hi Hc)) as (Hp' & Hle & Hnew).
    unfold paired_handles, clients_created, Connection.after_resume.
    destruct (Connection.resume ok _ _ _) as [[g' n'] c']. cbn in *.
    split; [exact Hp'|]. intros j call' c Hj Hc.
    destruct (decide (i = j)) as [<-|Hne].
    + rewrite list_lookup_insert_eq in Hj by (eapply lookup_lt_Some, Hi).
      injection Hj as <-. now apply Hnew.
    + rewrite list_lookup_insert_ne in Hj by exact Hne.
      specialize (Hcalls j call' c Hj Hc). lia.
Qed.

(** [connectMongoDB] under any interleaving of calls.  However requests
    overlap, and whichever awaits resolve or reject, the module's handles
    never name two connections: [client] and [db] are set together,
    [cachedClient] and [cachedDb] too, a cached connection is the current
    one, and the current one was created by some call.  In particular
    [isMongoConnected] answers true exactly when there is a client to
    close. *)
Theorem connectMongoDB_handles_paired s :
  rtc (Connection.step MONGODB_URI) (Connection.cold) s ->
  let g := Connection.globals s in
  Connection.cachedClient g = Connection.cachedDb g
  /\ Connection.client g = Connection.db g
  /\ (Connection.cachedDb g = None \/ Connection.cachedDb g = Connection.db g)
  /\ (forall c, Connection.db g = Some c -> (c < Connection.attempts s)%nat)
  /\ (Connection.isMongoConnected g = true <-> Connection.client g <> None).
Proof.
  intros Hrun.
  assert (Hinv : paired_handles s /\ clients_created s).
  { revert s Hrun.
    apply (rtc_ind_r (fun s => paired_handles s /\ clients_created s) Connection.cold).
    - split; [apply paired_cleared|]. intros i call c Hi. discriminate Hi.
    - intros s1 s2 _ Hstep IH. now apply (step_paired s1 s2). }
  intros g. destruct Hinv as [(Hcache & Hclient & Hsame & Hdb) _].
  fold g in Hcache, Hclient, Hsame, Hdb.
  repeat split; try assumption.
  - intros Hc. unfold Connection.isMongoConnected in Hc. rewrite Hclient.
    destruct (Connection.db g); [discriminate|discriminate Hc].
  - intros Hc. unfold Connection.isMongoConnected. rewrite Hclient in Hc.
    destruct (Connection.db g); [reflexivity|contradiction].
Qed.

End PairedHandles.

(** Two calls overlap and both connect: the handles are those of the call
    whose ping resolved last. *)
Lemma connectMongoDB_handles_paired_witness :
  rtc (Connection.step example_uri) Connection.cold example_overlap
  /\ Connection.globals example_overlap = Connection.connected 0
  /\ Connection.attempts example_overlap = 2%nat
  /\ Connection.client (Connection.globals example_overlap)
     = Connection.db (Connection.globals example_overlap).
Proof.
  assert (Hrun : rtc (Connection.step example_uri) Connection.cold example_overlap).
  { unfold example_overlap.
    eapply rtc_l; [apply Connection.step_enter|].
    eapply rtc_l; [apply Connection.step_enter|].
    eapply rtc_l; [apply (Connection.step_resume _ _ 0 (Connection.Connecting 0) true);
                   reflexivity|].
    eapply rtc_l; [apply (Connection.step_resume _ _ 1 (Connection.Connecting 1) true);
                   reflexivity|].
    eapply rtc_l; [apply (Connection.step_resume _ _ 1 (Connection.PingNew 1) true);
                   reflexivity|].
    apply rtc_once.
    apply (Connection.step_resume _ _ 0 (Connection.PingNew 0) true); reflexivity. }
  split; [exact Hrun|]. split; [reflexivity|]. split; [reflexivity|].
  exact (proj1 (proj2 (connectMongoDB_handles_paired example_uri example_overlap Hrun))).
Defined.
